(** * LivePhotoServer: the gallery store and its access control

    A shallow embedding of the Express routers of the server
    (routes/photos.ts, routes/gallery.ts, routes/upload.ts and
    utils/storage.ts) and the properties of the written specification
    that concern them.

    Conventions of the model.
    - Strings are Rocq strings, read as the bytes of the text.  The case
      mapping of [toUpperCase], which the password checks use, is the
      platform's; [toLowerCase], used only to recognise the suffix
      [.heic], maps the letters A-Z.
    - The upload directory is a two-level tree on a POSIX file system:
      the root lists gallery directories (and stray plain files), a
      gallery directory lists files (and stray sub-directories).  Lists
      are in [readdirSync] order, which is the byte order of the names; a
      new entry is listed at its place in that order.  Names are single
      path segments; the properties of handlers that join a string of
      the request or of a record to a path are stated for strings that
      are one segment.
    - A file holds either the JSON text of a [LivePhotoMetadata] record
      (what [saveMetadata] writes) or bytes that are not JSON, on which
      [JSON.parse] throws.  JSON text of another shape is not modelled:
      what is proved about reading records assumes the record files
      hold records.
    - A thrown exception is a [Throw]; every handler body runs inside
      [try { ... } catch], which answers 500.
    - An upload request is what multer hands to the handler: [req.files],
      undefined when the request was not multipart, and the text fields
      of the form, each a string or absent.
    - What the platform decides (uuidv4, the clock, Date parsing, the
      HEIC codec, parseFloat, the case mapping of toUpperCase) is
      gathered in a [Runtime] record. *)

From Stdlib Require Import String Ascii List ZArith NArith Bool Lia Floats.
From Stdlib.Strings Require Import Byte.
From Stdlib Require Import Permutation Sorted.
Import ListNotations.
Local Open Scope list_scope.
Local Open Scope string_scope.

(** ** JavaScript strings and truthiness *)

Module Js.

Definition toUpperCaseChar (c : ascii) : ascii :=
  let n := nat_of_ascii c in
  if ((97 <=? n) && (n <=? 122))%nat then ascii_of_nat (n - 32) else c.

Definition toLowerCaseChar (c : ascii) : ascii :=
  let n := nat_of_ascii c in
  if ((65 <=? n) && (n <=? 90))%nat then ascii_of_nat (n + 32) else c.

Fixpoint mapChars (f : ascii -> ascii) (s : string) : string :=
  match s with
  | EmptyString => EmptyString
  | String c r => String (f c) (mapChars f r)
  end.

(** Upper-casing of the letters a-z alone: what [s.toUpperCase()] does on
    ASCII text.  The platform of the examples uses it; the handlers
    call the platform's own [toUpperCase]. *)
Definition asciiUpperCase : string -> string := mapChars toUpperCaseChar.

(** [s.toLowerCase()], used by the handlers only in the test
    [name.toLowerCase().endsWith('.heic')]; on the letters A-Z. *)
Definition toLowerCase : string -> string := mapChars toLowerCaseChar.

(** [s.endsWith(suffix)] *)
Definition endsWith (s suffix : string) : bool :=
  let n := String.length s in
  let k := String.length suffix in
  ((k <=? n)%nat && (substring (n - k) k s =? suffix))%bool.

(** [s.startsWith(p)] *)
Definition startsWith (s p : string) : bool := prefix p s.

(** [!!v] for a value that is a string or undefined: the empty string
    and undefined are falsy. *)
Definition truthy (v : option string) : bool :=
  match v with
  | Some (String _ _) => true
  | _ => false
  end.

(** [v || d] for a string-or-undefined [v]. *)
Definition orElse (v : option string) (d : string) : string :=
  match v with
  | Some (String c r) => String c r
  | _ => d
  end.

End Js.

(** ** utils/storage.ts: the records *)

Module LivePhotoMetadata.

Record t := mk {
  id : string;
  photoFile : string;
  videoFile : string;
  photoSize : N;
  videoSize : N;
  creationDate : string;
  uploadDate : string;
  latitude : option float;
  longitude : option float;
  photoUrl : option string;
  videoUrl : option string;
  galleryId : option string;
  galleryName : option string;
  galleryDeletePassword : option string;
  galleryViewPassword : option string
}.

End LivePhotoMetadata.

Module GalleryInfo.

Record t := mk {
  id : string;
  name : string;
  photoCount : nat;
  lastUpdated : string
}.

End GalleryInfo.

Import LivePhotoMetadata.

(** ** The upload directory *)

Inductive Content :=
| Json (m : LivePhotoMetadata.t)
| Media (bytes : list byte).

Inductive Entry :=
| File (c : Content)
| SubDir.

Definition Listing := list (string * Entry).

Inductive Node :=
| Plain
| Directory (files : Listing).

(** [None]: the upload directory itself does not exist. *)
Definition Store := option (list (string * Node)).

(** ** Exceptions and responses *)

Inductive Exn :=
| ENOENT
| ENOTDIR
| EISDIR
| ENOTEMPTY
| SyntaxError
| ConversionError
| TypeError.

Inductive Result (A : Type) :=
| Ok (a : A)
| Throw (e : Exn).

Arguments Ok {A} a.
Arguments Throw {A} e.

Definition bindR {A B} (c : Result A) (k : A -> Result B) : Result B :=
  match c with
  | Ok a => k a
  | Throw e => Throw e
  end.

Declare Scope result_scope.
Delimit Scope result_scope with R.

Notation "x <- c ;; k" := (bindR c (fun x => k))
  (at level 61, c at next level, right associativity) : result_scope.

Inductive Body :=
| PhotosBody (photos : list LivePhotoMetadata.t) (count : nat)
| GalleriesBody (galleries : list GalleryInfo.t) (count : nat)
| PhotoBody (photo : LivePhotoMetadata.t)
| DeletedBody (deleted : string)
| UploadedBody (id galleryId photo video metadata : string)
| ErrorBody (error : string) (needsPassword : bool)
| ExnBody (e : Exn).

Record Response := mkResponse { status : nat; body : Body }.

(** [res.json(b)] and [res.status(n).json(b)] *)
Definition json (b : Body) : Response := mkResponse 200 b.
Definition statusJson (n : nat) (b : Body) : Response := mkResponse n b.

(** [try { ... } catch (error) { res.status(500).json({ error: error.message }) }] *)
Definition catch500 (c : Result Response) : Response :=
  match c with
  | Ok r => r
  | Throw e => statusJson 500 (ExnBody e)
  end.

(** The names the specification gives to the error answers. *)
Definition ValidationError (r : Response) : Prop := status r = 400.
Definition AuthRequired (r : Response) : Prop := status r = 401.
Definition Forbidden (r : Response) : Prop := status r = 403.
Definition NotFound (r : Response) : Prop := status r = 404.
Definition InternalError (r : Response) : Prop := status r = 500.

(** ** What the platform decides *)

Record Runtime := mkRuntime {
  (** [new Date(s).getTime()], [None] for NaN *)
  getTime : string -> option Z;
  (** the n-th token [uuidv4()] returns *)
  uuidv4 : nat -> string;
  (** the n-th value of [new Date().toISOString()] *)
  nowISO : nat -> string;
  (** heic-convert on the bytes of a file; [None] when it throws *)
  heicConvert : list byte -> option (list byte);
  parseFloat : string -> float;
  (** the bytes of [JSON.stringify(m, null, 2)] *)
  jsonBytes : LivePhotoMetadata.t -> list byte;
  (** [s.toUpperCase()], with the case mapping of the platform *)
  toUpperCase : string -> string
}.

(** ** Handlers that change the store

    A computation takes the state and returns its result together with
    the state it leaves, also when it throws: what was unlinked before
    an exception stays unlinked. *)

Definition IO (S A : Type) : Type := S -> Result A * S.

Definition ret {S A} (a : A) : IO S A := fun s => (Ok a, s).

Definition throw {S A} (e : Exn) : IO S A := fun s => (Throw e, s).

Definition bind {S A B} (c : IO S A) (k : A -> IO S B) : IO S B :=
  fun s =>
    match c s with
    | (Ok a, s') => k a s'
    | (Throw e, s') => (Throw e, s')
    end.

Definition gets {S A} (f : S -> A) : IO S A := fun s => (Ok (f s), s).

(** A read that may throw. *)
Definition reads {S A} (f : S -> Result A) : IO S A := fun s => (f s, s).

Declare Scope io_scope.
Delimit Scope io_scope with IO.

Notation "x <- c ;; k" := (bind c (fun x => k))
  (at level 61, c at next level, right associativity) : io_scope.
Notation "c ;; k" := (bind c (fun _ => k))
  (at level 61, right associativity) : io_scope.

(** [try { body } catch (error) { res.status(500)... }] around a handler. *)
Definition handle {S} (c : IO S Response) (s : S) : Response * S :=
  match c s with
  | (Ok r, s') => (r, s')
  | (Throw e, s') => (statusJson 500 (ExnBody e), s')
  end.

(** *** The file system calls on paths [uploadDir/dir] and [uploadDir/dir/file] *)

Module Fs.

Fixpoint lookup {A} (k : string) (l : list (string * A)) : option A :=
  match l with
  | [] => None
  | (k', a) :: r => if k' =? k then Some a else lookup k r
  end.

(** Drop the entry of that name. *)
Definition remove {A} (k : string) (l : list (string * A)) : list (string * A) :=
  filter (fun e => negb (fst e =? k)) l.

(** Replace the first entry of that name. *)
Fixpoint replace {A} (k : string) (a : A) (l : list (string * A)) : list (string * A) :=
  match l with
  | [] => []
  | (k', a') :: r => if k' =? k then (k, a) :: r else (k', a') :: replace k a r
  end.

(** Add an entry where [readdirSync] lists it: the names come in byte
    order, so the new entry goes before the first greater name. *)
Fixpoint insert {A} (k : string) (a : A) (l : list (string * A)) : list (string * A) :=
  match l with
  | [] => [(k, a)]
  | (k', a') :: r => if k <? k' then (k, a) :: (k', a') :: r else (k', a') :: insert k a r
  end.

(** Replace the entry of that name where it stands, or add one. *)
Definition upsert {A} (k : string) (a : A) (l : list (string * A)) : list (string * A) :=
  match lookup k l with
  | Some _ => replace k a l
  | None => insert k a l
  end.

Definition rootOf (store : Store) : list (string * Node) :=
  match store with
  | Some root => root
  | None => []
  end.

(** [fs.existsSync(path.join(uploadDir, dir))] *)
Definition existsDir (dir : string) (store : Store) : bool :=
  match lookup dir (rootOf store) with
  | Some _ => true
  | None => false
  end.

(** [fs.readdirSync(path.join(uploadDir, dir))] *)
Definition readdir (dir : string) (store : Store) : Result Listing :=
  match lookup dir (rootOf store) with
  | Some (Directory files) => Ok files
  | Some Plain => Throw ENOTDIR
  | None => Throw ENOENT
  end.

(** [fs.existsSync(path.join(uploadDir, dir, file))] *)
Definition existsSync (dir file : string) (store : Store) : bool :=
  match lookup dir (rootOf store) with
  | Some (Directory files) =>
      match lookup file files with
      | Some _ => true
      | None => false
      end
  | _ => false
  end.

(** [fs.readFileSync(path.join(uploadDir, dir, file))] *)
Definition readFile (dir file : string) (store : Store) : Result Content :=
  match lookup dir (rootOf store) with
  | Some (Directory files) =>
      match lookup file files with
      | Some (File c) => Ok c
      | Some SubDir => Throw EISDIR
      | None => Throw ENOENT
      end
  | Some Plain => Throw ENOTDIR
  | None => Throw ENOENT
  end.

(** Put a new listing in the place of directory [dir]. *)
Definition setDir (dir : string) (files : Listing) (store : Store) : Store :=
  Some (upsert dir (Directory files) (rootOf store)).

(** [fs.unlinkSync(path.join(uploadDir, dir, file))] *)
Definition unlinkSync (dir file : string) : IO Store unit :=
  fun store =>
    match lookup dir (rootOf store) with
    | Some (Directory files) =>
        match lookup file files with
        | Some (File _) => (Ok tt, setDir dir (remove file files) store)
        | Some SubDir => (Throw EISDIR, store)
        | None => (Throw ENOENT, store)
        end
    | Some Plain => (Throw ENOTDIR, store)
    | None => (Throw ENOENT, store)
    end.

(** [fs.rmdirSync(path.join(uploadDir, dir))] *)
Definition rmdirSync (dir : string) : IO Store unit :=
  fun store =>
    match lookup dir (rootOf store) with
    | Some (Directory []) => (Ok tt, Some (remove dir (rootOf store)))
    | Some (Directory (_ :: _)) => (Throw ENOTEMPTY, store)
    | Some Plain => (Throw ENOTDIR, store)
    | None => (Throw ENOENT, store)
    end.

(** [fs.mkdirSync(path.join(uploadDir, dir), { recursive: true })],
    called only when the path does not exist. *)
Definition mkdirSync (dir : string) : IO Store unit :=
  fun store =>
    match lookup dir (rootOf store) with
    | Some (Directory _) => (Ok tt, store)
    | Some Plain => (Throw ENOTDIR, store)
    | None => (Ok tt, Some (insert dir (Directory []) (rootOf store)))
    end.

(** [fs.writeFileSync(path.join(uploadDir, dir, file), content)] *)
Definition writeFileSync (dir file : string) (c : Content) : IO Store unit :=
  fun store =>
    match lookup dir (rootOf store) with
    | Some (Directory files) =>
        match lookup file files with
        | Some SubDir => (Throw EISDIR, store)
        | _ => (Ok tt, setDir dir (upsert file (File c) files) store)
        end
    | Some Plain => (Throw ENOTDIR, store)
    | None => (Throw ENOENT, store)
    end.

(** [fs.renameSync(path.join(uploadDir, from, a), path.join(uploadDir, to, b))]
    for a file: the content appears at the new path and leaves the old one. *)
Definition renameSync (from a to b : string) : IO Store unit :=
  (c <- reads (readFile from a) ;;
   if (from =? to) && (a =? b) then ret tt
   else (writeFileSync to b c ;; unlinkSync from a))%IO.

End Fs.

(** ** routes/photos.ts *)

Module PhotosRouter.

Definition isMetadataFile (file : string) : bool :=
  Js.endsWith file "_metadata.json".

(** [fs.statSync(fullPath).isDirectory()] *)
Definition isDirectory (n : Node) : bool :=
  match n with
  | Directory _ => true
  | Plain => false
  end.

(** [fs.readdirSync(dirPath)] *)
Definition readdirSync (n : Node) : Result Listing :=
  match n with
  | Directory files => Ok files
  | Plain => Throw ENOTDIR
  end.

(** [JSON.parse(fs.readFileSync(metadataPath, 'utf-8')) as LivePhotoMetadata] *)
Definition readMetadata (e : Entry) : Result LivePhotoMetadata.t :=
  match e with
  | File (Json m) => Ok m
  | File (Media _) => Throw SyntaxError
  | SubDir => Throw EISDIR
  end.

(** The filter every handler applies to [fs.readdirSync(uploadDir)]:
    directories, excluding .temp. *)
Definition galleryDirs (root : list (string * Node)) : list (string * Node) :=
  filter (fun d => if fst d =? ".temp" then false else isDirectory (snd d)) root.

(** [files.filter(f => f.endsWith('_metadata.json'))] *)
Definition metadataFiles (files : Listing) : Listing :=
  filter (fun f => isMetadataFile (fst f)) files.

(** [{ ...metadata, photoUrl: `/files/${dir}/${metadata.photoFile}`,
       videoUrl: `/files/${dir}/${metadata.videoFile}` }] *)
Definition withUrls (dir : string) (m : LivePhotoMetadata.t) : LivePhotoMetadata.t :=
  LivePhotoMetadata.mk
    (id m) (photoFile m) (videoFile m) (photoSize m) (videoSize m)
    (creationDate m) (uploadDate m) (latitude m) (longitude m)
    (Some ("/files/" ++ dir ++ "/" ++ photoFile m))
    (Some ("/files/" ++ dir ++ "/" ++ videoFile m))
    (galleryId m) (galleryName m)
    (galleryDeletePassword m) (galleryViewPassword m).

(** The comparator of [photos.sort]:
    [new Date(b.uploadDate).getTime() - new Date(a.uploadDate).getTime()];
    a NaN result counts as 0. *)
Definition byUploadDateDesc (rt : Runtime) (a b : LivePhotoMetadata.t) : Z :=
  match getTime rt (uploadDate b), getTime rt (uploadDate a) with
  | Some tb, Some ta => tb - ta
  | _, _ => 0
  end.

(** [Array.prototype.sort] is stable: an element goes behind the elements
    it compares greater than and before the first one it does not.
    This is the order of JavaScript when the comparator orders the
    elements, as it does when every date parses; what the engine does
    with comparisons that are NaN is not modelled. *)
Fixpoint insertBy {A} (cmp : A -> A -> Z) (x : A) (l : list A) : list A :=
  match l with
  | [] => [x]
  | y :: r => if (0 <? cmp x y)%Z then y :: insertBy cmp x r else x :: y :: r
  end.

Definition sortBy {A} (cmp : A -> A -> Z) (l : list A) : list A :=
  fold_right (insertBy cmp) [] l.

(** The inner loop of the collection: one directory. *)
Fixpoint collectFiles (galleryDir : string) (files : Listing)
  : Result (list LivePhotoMetadata.t) :=
  match files with
  | [] => Ok []
  | (file, e) :: rest =>
      if isMetadataFile file then
        (metadata <- readMetadata e ;;
         photos <- collectFiles galleryDir rest ;;
         Ok (withUrls galleryDir metadata :: photos))%R
      else collectFiles galleryDir rest
  end.

(** The outer loop: [for (const galleryDir of galleryDirs)]. *)
Fixpoint collect (dirs : list (string * Node)) : Result (list LivePhotoMetadata.t) :=
  match dirs with
  | [] => Ok []
  | (galleryDir, n) :: rest =>
      (files <- readdirSync n ;;
       photos <- collectFiles galleryDir files ;;
       more <- collect rest ;;
       Ok (photos ++ more)%list)%R
  end.

(** The view-password check of the gallery-filtered listing; [Some r] is
    an early [return res.status(...)]. *)
Definition checkViewPassword (rt : Runtime) (dirs : list (string * Node))
    (providedPassword : option string) : Result (option Response) :=
  match dirs with
  | [] => Ok None
  | (_, n) :: _ =>
      (files <- readdirSync n ;;
       match metadataFiles files with
       | [] => Ok None
       | (_, e) :: _ =>
           metadata <- readMetadata e ;;
           if Js.truthy (galleryViewPassword metadata) then
             if negb (Js.truthy providedPassword) then
               Ok (Some (statusJson 401 (ErrorBody "Password required" true)))
             else if negb (toUpperCase rt (Js.orElse providedPassword "")
                           =? toUpperCase rt (Js.orElse (galleryViewPassword metadata) ""))
             then Ok (Some (statusJson 403 (ErrorBody "Invalid password" false)))
             else Ok None
           else Ok None
       end)%R
  end.

(** [router.get('/')]: all photos, optionally filtered by [?gallery=],
    with the view password in [?p=]. *)
Definition listPhotos (rt : Runtime) (store : Store)
    (galleryId providedPassword : option string) : Response :=
  catch500
    match store with
    | None => Ok (json (PhotosBody [] 0))
    | Some root =>
        let dirs := galleryDirs root in
        let dirs :=
          if Js.truthy galleryId
          then filter (fun d => fst d =? Js.orElse galleryId "") dirs
          else dirs in
        (early <- (if Js.truthy galleryId
                   then checkViewPassword rt dirs providedPassword
                   else Ok None) ;;
         match early with
         | Some r => Ok r
         | None =>
             photos <- collect dirs ;;
             let photos := sortBy (byUploadDateDesc rt) photos in
             Ok (json (PhotosBody photos (List.length photos)))
         end)%R
    end.

(** The scan shared by [router.get('/:id')] and [router.delete('/:id')]:
    the first record whose id equals or starts with the given string,
    with the directory and file it was found in. *)
Fixpoint findInFiles (id : string) (files : Listing)
  : Result (option (string * LivePhotoMetadata.t)) :=
  match files with
  | [] => Ok None
  | (file, e) :: rest =>
      if isMetadataFile file then
        (metadata <- readMetadata e ;;
         if (LivePhotoMetadata.id metadata =? id)
            || Js.startsWith (LivePhotoMetadata.id metadata) id
         then Ok (Some (file, metadata))
         else findInFiles id rest)%R
      else findInFiles id rest
  end.

Fixpoint findAsset (id : string) (dirs : list (string * Node))
  : Result (option (string * string * LivePhotoMetadata.t)) :=
  match dirs with
  | [] => Ok None
  | (galleryDir, n) :: rest =>
      (files <- readdirSync n ;;
       hit <- findInFiles id files ;;
       match hit with
       | Some (file, metadata) => Ok (Some (galleryDir, file, metadata))
       | None => findAsset id rest
       end)%R
  end.

(** [router.get('/:id')] *)
Definition getPhoto (store : Store) (id : string) : Response :=
  catch500
    match store with
    | None => Ok (statusJson 404 (ErrorBody "Photo not found" false))
    | Some root =>
        (hit <- findAsset id (galleryDirs root) ;;
         match hit with
         | Some (galleryDir, _, metadata) =>
             Ok (json (PhotoBody (withUrls galleryDir metadata)))
         | None => Ok (statusJson 404 (ErrorBody "Photo not found" false))
         end)%R
    end.

(** [new Date(0).toISOString()] *)
Definition epochISO : string := "1970-01-01T00:00:00.000Z".

(** [new Date(a) > new Date(b)]; false when either is an invalid date. *)
Definition laterThan (rt : Runtime) (a b : string) : bool :=
  match getTime rt a, getTime rt b with
  | Some ta, Some tb => (tb <? ta)%Z
  | _, _ => false
  end.

(** The loop that finds the latest upload date of a gallery. *)
Fixpoint latestUpload (rt : Runtime) (files : Listing) (lastUpdated : string)
  : Result string :=
  match files with
  | [] => Ok lastUpdated
  | (_, e) :: rest =>
      (meta <- readMetadata e ;;
       latestUpload rt rest
         (if laterThan rt (uploadDate meta) lastUpdated
          then uploadDate meta else lastUpdated))%R
  end.

(** The body of [for (const galleryDir of galleryDirs)] in the galleries
    listing: the entry pushed for one directory. *)
Definition galleryInfo (rt : Runtime) (galleryDir : string) (n : Node)
  : Result GalleryInfo.t :=
  (files <- readdirSync n ;;
   let mfiles := metadataFiles files in
   match mfiles with
   | [] => Ok (GalleryInfo.mk galleryDir galleryDir 0 epochISO)
   | (_, e) :: _ =>
       metadata <- readMetadata e ;;
       let name := Js.orElse (galleryName metadata) galleryDir in
       lastUpdated <- latestUpload rt mfiles epochISO ;;
       Ok (GalleryInfo.mk galleryDir name (List.length mfiles) lastUpdated)
   end)%R.

Fixpoint galleryInfos (rt : Runtime) (dirs : list (string * Node))
  : Result (list GalleryInfo.t) :=
  match dirs with
  | [] => Ok []
  | (galleryDir, n) :: rest =>
      (g <- galleryInfo rt galleryDir n ;;
       gs <- galleryInfos rt rest ;;
       Ok (g :: gs))%R
  end.

Definition byLastUpdatedDesc (rt : Runtime) (a b : GalleryInfo.t) : Z :=
  match getTime rt (GalleryInfo.lastUpdated b),
        getTime rt (GalleryInfo.lastUpdated a) with
  | Some tb, Some ta => tb - ta
  | _, _ => 0
  end.

(** [router.get('/galleries')] *)
Definition listGalleries (rt : Runtime) (store : Store) : Response :=
  catch500
    match store with
    | None => Ok (json (GalleriesBody [] 0))
    | Some root =>
        (galleries <- galleryInfos rt (galleryDirs root) ;;
         let galleries := sortBy (byLastUpdatedDesc rt) galleries in
         Ok (json (GalleriesBody galleries (List.length galleries))))%R
    end.


(** [router.delete('/:id')] *)

(** [if (fs.existsSync(p)) fs.unlinkSync(p)] *)
Definition unlinkIfExists (dir file : string) : IO Store unit :=
  (present <- gets (Fs.existsSync dir file) ;;
   if present then Fs.unlinkSync dir file else ret tt)%IO.

Definition deletePhoto (rt : Runtime) (id : string) (password : option string)
  : Store -> Response * Store :=
  handle
    (if negb (Js.truthy password) then
       ret (statusJson 400 (ErrorBody "Password is required" false))
     else
       store <- gets (fun s : Store => s) ;;
       match store with
       | None => ret (statusJson 404 (ErrorBody "Photo not found" false))
       | Some root =>
           hit <- reads (fun _ => findAsset id (galleryDirs root)) ;;
           match hit with
           | Some (galleryDir, file, metadata) =>
               if negb (Js.truthy (galleryDeletePassword metadata)) then
                 ret (statusJson 403
                        (ErrorBody "Photo does not have a delete password configured" false))
               else if negb (toUpperCase rt (Js.orElse password "")
                             =? toUpperCase rt (Js.orElse (galleryDeletePassword metadata) ""))
               then ret (statusJson 403 (ErrorBody "Invalid password" false))
               else
                 unlinkIfExists galleryDir (photoFile metadata) ;;
                 unlinkIfExists galleryDir (videoFile metadata) ;;
                 Fs.unlinkSync galleryDir file ;;
                 ret (json (DeletedBody (LivePhotoMetadata.id metadata)))
           | None => ret (statusJson 404 (ErrorBody "Photo not found" false))
           end
       end)%IO.

(** [GET /api/photos/<id>] for a non-empty path segment: the router
    tries its routes in the order they are registered, [/galleries] is
    registered before [/:id], and Express matches a route path ignoring
    the case of letters. *)
Definition getById (rt : Runtime) (store : Store) (id : string) : Response :=
  if Js.toLowerCase id =? "galleries" then listGalleries rt store else getPhoto store id.

End PhotosRouter.

(** ** routes/gallery.ts: [router.delete('/:galleryId')] *)

Module GalleryRouter.

Import PhotosRouter.

(** [for (const file of files) fs.unlinkSync(path.join(galleryPath, file))] *)
Fixpoint unlinkAll (dir : string) (files : list string) : IO Store unit :=
  match files with
  | [] => ret tt
  | file :: rest => (Fs.unlinkSync dir file ;; unlinkAll dir rest)%IO
  end.

Definition deleteGallery (rt : Runtime) (galleryId : string) (password : option string)
  : Store -> Response * Store :=
  handle
    (if negb (Js.truthy password) then
       ret (statusJson 400 (ErrorBody "Password is required" false))
     else
       present <- gets (Fs.existsDir galleryId) ;;
       if negb present then
         ret (statusJson 404 (ErrorBody "Gallery not found" false))
       else
         files <- reads (Fs.readdir galleryId) ;;
         match metadataFiles files with
         | [] => ret (statusJson 404 (ErrorBody "Gallery has no photos" false))
         | (_, e) :: _ =>
             metadata <- reads (fun _ => readMetadata e) ;;
             if negb (Js.truthy (galleryDeletePassword metadata)) then
               ret (statusJson 403
                      (ErrorBody "Gallery does not have a delete password configured" false))
             else if negb (toUpperCase rt (Js.orElse password "")
                           =? toUpperCase rt (Js.orElse (galleryDeletePassword metadata) ""))
             then ret (statusJson 403 (ErrorBody "Invalid password" false))
             else
               unlinkAll galleryId (map fst files) ;;
               Fs.rmdirSync galleryId ;;
               ret (json (DeletedBody galleryId))
         end)%IO.

End GalleryRouter.

(** ** routes/gallery.ts, the HTML pages *)

Module GalleryPages.

Import PhotosRouter.

(** What a page handler sends.  A page is the renderer called and the
    arguments it is called with; the renderers are templates over these
    arguments. *)
Inductive Page :=
| renderPasswordPage (galleryId galleryName message : string)
| renderGalleryPage (galleryName : string) (photos : list LivePhotoMetadata.t)
                    (viewPassword : option string)
| Text (text : string).

Record PageResponse := mkPage { pageStatus : nat; page : Page }.

(** [res.type('html').send(html)] and [res.status(n).send(text)] *)
Definition sendHtml (html : Page) : PageResponse := mkPage 200 html.
Definition statusSend (n : nat) (text : string) : PageResponse := mkPage n (Text text).

(** The variables the loop of [router.get('/:galleryId')] assigns. *)
Record Scan := mkScan {
  photos : list LivePhotoMetadata.t;
  galleryName : string;
  galleryViewPassword : option string
}.

(** [for (const file of files) { if (file.endsWith('_metadata.json')) ... }] *)
Fixpoint scanFiles (galleryId : string) (files : Listing) (s : Scan) : Result Scan :=
  match files with
  | [] => Ok s
  | (file, e) :: rest =>
      if isMetadataFile file then
        (metadata <- readMetadata e ;;
         scanFiles galleryId rest
           (mkScan
              (photos s ++ [withUrls galleryId metadata])%list
              (if Js.truthy (LivePhotoMetadata.galleryName metadata)
               then Js.orElse (LivePhotoMetadata.galleryName metadata) ""
               else galleryName s)
              (if Js.truthy (LivePhotoMetadata.galleryViewPassword metadata)
               then LivePhotoMetadata.galleryViewPassword metadata
               else galleryViewPassword s)))%R
      else scanFiles galleryId rest s
  end.

(** [router.get('/:galleryId')] *)
Definition viewGallery (rt : Runtime) (store : Store) (galleryId : string)
    (providedPassword : option string) : PageResponse :=
  match
    (if Fs.existsDir galleryId store then
       (files <- Fs.readdir galleryId store ;;
        s <- scanFiles galleryId files (mkScan [] galleryId None) ;;
        Ok (mkScan (sortBy (byUploadDateDesc rt) (photos s))
                   (galleryName s) (galleryViewPassword s)))%R
     else Ok (mkScan [] galleryId None))
  with
  | Throw _ => statusSend 500 "Error loading gallery"
  | Ok s =>
      if Js.truthy (galleryViewPassword s) then
        if negb (Js.truthy providedPassword) then
          sendHtml (renderPasswordPage galleryId (galleryName s)
                      "This gallery requires a password to view.")
        else if negb (toUpperCase rt (Js.orElse providedPassword "")
                      =? toUpperCase rt (Js.orElse (galleryViewPassword s) ""))
        then
          sendHtml (renderPasswordPage galleryId (galleryName s)
                      "Incorrect password. Please try again.")
        else sendHtml (renderGalleryPage (galleryName s) (photos s) providedPassword)
      else sendHtml (renderGalleryPage (galleryName s) (photos s) providedPassword)
  end.

(** [text.replace(/c/g, by)] for a pattern of one character. *)
Fixpoint replaceAll (c : ascii) (by_ : string) (text : string) : string :=
  match text with
  | EmptyString => EmptyString
  | String x rest =>
      if Ascii.eqb x c then by_ ++ replaceAll c by_ rest
      else String x (replaceAll c by_ rest)
  end.

Definition escapeHtml (text : string) : string :=
  replaceAll "'" "&#039;"
    (replaceAll "034" "&quot;"
       (replaceAll ">" "&gt;"
          (replaceAll "<" "&lt;"
             (replaceAll "&" "&amp;" text)))).

End GalleryPages.

(** ** routes/upload.ts *)

Module UploadRouter.

(** The state an upload runs in: the disk, and how many tokens and
    clock readings have been drawn. *)
Record World := mkWorld {
  disk : Store;
  uuids : nat;
  ticks : nat
}.

(** A file as multer hands it over: stored under [uploadDir/.temp/filename]. *)
Record MulterFile := mkFile {
  originalname : string;
  filename : string;
  size : N
}.

(** The text fields of the multipart form ([req.body]). *)
Record Fields := mkFields {
  id : option string;
  creation_date : option string;
  latitude : option string;
  longitude : option string;
  gallery_id : option string;
  gallery_name : option string
}.

(** [req.files] as multer leaves it: undefined when the request is not
    multipart, else the files received for the fields photo and video. *)
Record Request := mkReq {
  files : option (option MulterFile * option MulterFile);
  body : Fields
}.

(** A multipart request. *)
Definition mkRequest (photo video : option MulterFile) (body : Fields) : Request :=
  mkReq (Some (photo, video)) body.

(** [req.files?.photo?.[0]] and [req.files?.video?.[0]] *)
Definition photo (req : Request) : option MulterFile :=
  match files req with Some (p, _) => p | None => None end.

Definition video (req : Request) : option MulterFile :=
  match files req with Some (_, v) => v | None => None end.

Definition tempDir : string := ".temp".

(** Run a store computation on the disk of the world. *)
Definition onDisk {A} (c : IO Store A) : IO World A :=
  fun w =>
    match c (disk w) with
    | (r, d) => (r, mkWorld d (uuids w) (ticks w))
    end.

(** [uuidv4()] *)
Definition uuid (rt : Runtime) : IO World string :=
  fun w => (Ok (uuidv4 rt (uuids w)), mkWorld (disk w) (S (uuids w)) (ticks w)).

(** [new Date().toISOString()] *)
Definition now (rt : Runtime) : IO World string :=
  fun w => (Ok (nowISO rt (ticks w)), mkWorld (disk w) (uuids w) (S (ticks w))).

(** [try { c } catch (err) { h }] *)
Definition tryCatch {S A} (c : IO S A) (h : Exn -> IO S A) : IO S A :=
  fun s =>
    match c s with
    | (Ok a, s') => (Ok a, s')
    | (Throw e, s') => h e s'
    end.

(** Position of the last dot of a name. *)
Fixpoint lastDot (s : string) : option nat :=
  match s with
  | EmptyString => None
  | String c r =>
      match lastDot r with
      | Some i => Some (S i)
      | None => if Ascii.eqb c "."%char then Some 0 else None
      end
  end.

(** [path.extname(name)] of Node, for a name without directory part:
    from the last dot on; empty when there is no dot, when the only dot
    leads the name, and for "..". *)
Definition extname (name : string) : string :=
  match lastDot name with
  | None => ""
  | Some 0 => ""
  | Some i =>
      if name =? ".." then ""
      else substring i (String.length name - i) name
  end.

(** [p.replace(/\.heic$/i, '.jpg')] *)
Definition replaceHeic (p : string) : string :=
  if Js.endsWith (Js.toLowerCase p) ".heic"
  then substring 0 (String.length p - 5) p ++ ".jpg"
  else p.

(** The bytes [fs.readFileSync] returns for a file. *)
Definition bytesOf (rt : Runtime) (c : Content) : list byte :=
  match c with
  | Media b => b
  | Json m => jsonBytes rt m
  end.

(** [fs.statSync(p).size] *)
Definition statSize (rt : Runtime) (dir file : string) : IO Store N :=
  (c <- reads (Fs.readFile dir file) ;;
   ret (N.of_nat (List.length (bytesOf rt c))))%IO.

(** [convertHeicToJpeg(heicPath)]; returns the name of the JPEG file. *)
Definition convertHeicToJpeg (rt : Runtime) (dir file : string) : IO Store string :=
  (c <- reads (Fs.readFile dir file) ;;
   match heicConvert rt (bytesOf rt c) with
   | None => throw ConversionError
   | Some outputBuffer =>
       let jpeg := replaceHeic file in
       Fs.writeFileSync dir jpeg (Media outputBuffer) ;;
       Fs.unlinkSync dir file ;;
       ret jpeg
   end)%IO.

(** The HEIC branch: the final photo filename and size. *)
Definition convertIfHeic (rt : Runtime) (dir finalPhotoFilename : string)
    (finalPhotoSize : N) : IO Store (string * N) :=
  if Js.endsWith (Js.toLowerCase finalPhotoFilename) ".heic" then
    tryCatch
      (jpeg <- convertHeicToJpeg rt dir finalPhotoFilename ;;
       tryCatch
         (jpegSize <- statSize rt dir jpeg ;; ret (jpeg, jpegSize))
         (fun _ => ret (jpeg, finalPhotoSize)))%IO
      (fun _ => ret (finalPhotoFilename, finalPhotoSize))
  else ret (finalPhotoFilename, finalPhotoSize).

(** The id the files are named after:
    [(req.body.id as string)?.substring(0, 8) || uuidv4().substring(0, 8)] *)
Definition deriveAssetId (rt : Runtime) (req : Request) : IO World string :=
  let clientPrefix := option_map (substring 0 8) (id (body req)) in
  if Js.truthy clientPrefix
  then ret (Js.orElse clientPrefix "")
  else (u <- uuid rt ;; ret (substring 0 8 u))%IO.

(** Move the photo from the temp directory to the gallery folder and
    convert it when it is HEIC: the final photo filename and size. *)
Definition placePhoto (rt : Runtime) (galleryId assetId : string)
    (photoFile : MulterFile) : IO Store (string * N) :=
  (let photoExt := extname (originalname photoFile) in
   let finalPhotoFilename := assetId ++ "_photo" ++ photoExt in
   Fs.renameSync tempDir (filename photoFile) galleryId finalPhotoFilename ;;
   finalPhotoSize <- statSize rt galleryId finalPhotoFilename ;;
   convertIfHeic rt galleryId finalPhotoFilename finalPhotoSize)%IO.

(** Move the video from the temp directory to the gallery folder. *)
Definition placeVideo (galleryId assetId : string) (videoFile : MulterFile)
  : IO Store string :=
  (let videoExt := extname (originalname videoFile) in
   let finalVideoFilename := assetId ++ "_video" ++ videoExt in
   Fs.renameSync tempDir (filename videoFile) galleryId finalVideoFilename ;;
   ret finalVideoFilename)%IO.

(** The metadata object built from the form data. *)
Definition buildMetadata (rt : Runtime) (req : Request) (videoFile : MulterFile)
    (galleryId galleryName finalPhotoFilename : string) (finalPhotoSize : N)
    (finalVideoFilename : string) : IO World LivePhotoMetadata.t :=
  (recordId <- (if Js.truthy (id (body req))
                then ret (Js.orElse (id (body req)) "")
                else uuid rt) ;;
   creationDate <- (if Js.truthy (creation_date (body req))
                    then ret (Js.orElse (creation_date (body req)) "")
                    else now rt) ;;
   uploadDate <- now rt ;;
   ret (LivePhotoMetadata.mk recordId finalPhotoFilename finalVideoFilename
          finalPhotoSize (size videoFile) creationDate uploadDate
          (if Js.truthy (latitude (body req))
           then Some (parseFloat rt (Js.orElse (latitude (body req)) "")) else None)
          (if Js.truthy (longitude (body req))
           then Some (parseFloat rt (Js.orElse (longitude (body req)) "")) else None)
          None None (Some galleryId) (Some galleryName) None None))%IO.

(** [router.post('/')] *)
Definition upload (rt : Runtime) (req : Request) : World -> Response * World :=
  handle
    match files req with
    | None => throw TypeError
    | Some (Some photoFile, Some videoFile) =>
        (let galleryId := Js.orElse (gallery_id (body req)) "default" in
         let galleryName := Js.orElse (gallery_name (body req)) "Default Gallery" in
         assetId <- deriveAssetId rt req ;;
         present <- gets (fun w => Fs.existsDir galleryId (disk w)) ;;
         (if present then ret tt else onDisk (Fs.mkdirSync galleryId)) ;;
         final <- onDisk (placePhoto rt galleryId assetId photoFile) ;;
         finalVideoFilename <- onDisk (placeVideo galleryId assetId videoFile) ;;
         metadata <- buildMetadata rt req videoFile galleryId galleryName
                       (fst final) (snd final) finalVideoFilename ;;
         let metadataFile := assetId ++ "_metadata.json" in
         onDisk (Fs.writeFileSync galleryId metadataFile (Json metadata)) ;;
         ret (statusJson 201
                (UploadedBody (LivePhotoMetadata.id metadata) galleryId
                   ("/files/" ++ galleryId ++ "/" ++ fst final)
                   ("/files/" ++ galleryId ++ "/" ++ finalVideoFilename)
                   ("/files/" ++ galleryId ++ "/" ++ metadataFile))))%IO
    | Some _ =>
        ret (statusJson 400 (ErrorBody "Both photo and video files are required" false))
    end.

End UploadRouter.

(** ** The vocabulary of the specification *)

Import PhotosRouter.

(** The asset records of a gallery directory, in listing order: what its
    metadata files hold. *)
Definition recordsOf (files : Listing) : list LivePhotoMetadata.t :=
  flat_map (fun f => match snd f with
                     | File (Json m) => [m]
                     | _ => []
                     end)
           (metadataFiles files).

(** Every metadata file of the directory can be read back as a record. *)
Definition readableListing (files : Listing) : Prop :=
  Forall (fun f => exists m, snd f = File (Json m)) (metadataFiles files).

Definition readable (dirs : list (string * Node)) : Prop :=
  Forall (fun d => forall files, snd d = Directory files -> readableListing files) dirs.

(** The records of a list of directories in scan order, each with the
    directory it lives in. *)
Definition storedRecords (dirs : list (string * Node))
  : list (string * LivePhotoMetadata.t) :=
  flat_map (fun d => match snd d with
                     | Directory files => map (pair (fst d)) (recordsOf files)
                     | Plain => []
                     end)
           dirs.

(** Record [m] is stored in gallery directory [dir]: one of the metadata
    files of that directory holds it. *)
Definition stored (root : list (string * Node)) (dir : string)
    (m : LivePhotoMetadata.t) : Prop :=
  exists files file,
    In (dir, Directory files) root /\ dir <> ".temp" /\
    In (file, File (Json m)) files /\ isMetadataFile file = true.

(** A stored record as the read responses show it. *)
Definition shown (dm : string * LivePhotoMetadata.t) : LivePhotoMetadata.t :=
  withUrls (fst dm) (snd dm).

(** "whose id equals s or starts with s" *)
Definition idMatches (s : string) (m : LivePhotoMetadata.t) : bool :=
  (LivePhotoMetadata.id m =? s) || Js.startsWith (LivePhotoMetadata.id m) s.

(** "the first asset record (in scan order across all gallery
    directories) whose id equals s or starts with s", with the directory
    it lives in. *)
Definition firstMatch (store : Store) (s : string)
  : option (string * LivePhotoMetadata.t) :=
  find (fun dm => idMatches s (snd dm)) (storedRecords (galleryDirs (Fs.rootOf store))).

(** "augmented with derived photoUrl/videoUrl": [r] is record [m] of
    gallery directory [dir] with the two URLs set to
    [/files/<dir>/<file name>] and every other field as in [m]. *)
Definition augmented (dir : string) (m r : LivePhotoMetadata.t) : Prop :=
  photoUrl r = Some ("/files/" ++ dir ++ "/" ++ photoFile m) /\
  videoUrl r = Some ("/files/" ++ dir ++ "/" ++ videoFile m) /\
  LivePhotoMetadata.id r = LivePhotoMetadata.id m /\
  photoFile r = photoFile m /\ videoFile r = videoFile m /\
  photoSize r = photoSize m /\ videoSize r = videoSize m /\
  creationDate r = creationDate m /\ uploadDate r = uploadDate m /\
  latitude r = latitude m /\ longitude r = longitude m /\
  galleryId r = galleryId m /\ galleryName r = galleryName m /\
  galleryDeletePassword r = galleryDeletePassword m /\
  galleryViewPassword r = galleryViewPassword m.

(** Names are unique within the upload directory. *)
Definition uniqueNames {A} (l : list (string * A)) : Prop := NoDup (map fst l).

(** A platform used in the examples: dates do not parse, the tokens are
    numbered, the codec prefixes a marker byte, and the case mapping is
    that of the ASCII letters. *)
Definition exampleRuntime : Runtime :=
  mkRuntime
    (fun _ => None)
    (fun n => match n with
              | 0 => "aaaaaaaa-0000-4000-8000-000000000000"
              | _ => "bbbbbbbb-1111-4111-8111-111111111111"
              end)
    (fun _ => "2024-01-15T10:30:00.000Z")
    (fun b => Some (x01 :: b))
    (fun _ => 0%float)
    (fun _ => [x7b; x7d])
    Js.asciiUpperCase.

Definition exampleRecord (i : string) (viewPw deletePw : option string)
  : LivePhotoMetadata.t :=
  LivePhotoMetadata.mk i (substring 0 8 i ++ "_photo.jpg") (substring 0 8 i ++ "_video.mov")
    10 20 "2024-01-15T10:00:00.000Z" "2024-01-15T10:30:00.000Z"
    None None None None (Some "trip") (Some "Trip") deletePw viewPw.

(** A store with one gallery of two records protected by view password
    ABC123, the second also carrying a delete password, and an empty
    gallery directory. *)
Definition exampleRoot : list (string * Node) :=
  [ (".temp", Directory []);
    ("trip", Directory
       [ ("abcd1111_metadata.json",
          File (Json (exampleRecord "abcd1111" (Some "ABC123") None)));
         ("abcd1111_photo.jpg", File (Media [x01]));
         ("abcd1111_video.mov", File (Media [x02]));
         ("abcd2222_metadata.json",
          File (Json (exampleRecord "abcd2222" (Some "ABC123") (Some "Secret")))) ]);
    ("void", Directory []) ].

(** A gallery whose first record carries delete password Secret and
    whose second record carries another one. *)
Definition mixedRoot : list (string * Node) :=
  [ ("mix", Directory
       [ ("aaaa0001_metadata.json",
          File (Json (exampleRecord "aaaa0001" None (Some "Secret"))));
         ("aaaa0001_photo.jpg", File (Media [x01]));
         ("bbbb0002_metadata.json",
          File (Json (exampleRecord "bbbb0002" None (Some "Other")))) ]) ].

(** The gallery directory [g] lists [G] and the temp directory lists [T]. *)
Definition twoDirs (root : list (string * Node)) (g : string) (G T : Listing) : Prop :=
  Fs.lookup g root = Some (Directory G) /\
  Fs.lookup UploadRouter.tempDir root = Some (Directory T).

(** No name of the listing is taken by a sub-directory. *)
Definition onlyFiles (G : Listing) : Prop :=
  forall k, Fs.lookup k G <> Some SubDir.

(** The id an upload names its files after, for the request and the
    tokens drawn so far. *)
Definition assetIdOf (rt : Runtime) (req : UploadRouter.Request)
    (w : UploadRouter.World) : string :=
  let clientPrefix := option_map (substring 0 8) (UploadRouter.id (UploadRouter.body req)) in
  if Js.truthy clientPrefix
  then Js.orElse clientPrefix ""
  else substring 0 8 (uuidv4 rt (UploadRouter.uuids w)).

(** The gallery an upload goes to: [req.body.gallery_id || 'default']. *)
Definition galleryOf (req : UploadRouter.Request) : string :=
  Js.orElse (UploadRouter.gallery_id (UploadRouter.body req)) "default".

(** The name the photo is first stored under: [`${assetId}_photo${photoExt}`]. *)
Definition storedPhotoName (rt : Runtime) (req : UploadRouter.Request)
    (w : UploadRouter.World) (photoFile : UploadRouter.MulterFile) : string :=
  assetIdOf rt req w ++ "_photo" ++ UploadRouter.extname (UploadRouter.originalname photoFile).

(** The name of the record file: [`${assetId}_metadata.json`]. *)
Definition recordName (rt : Runtime) (req : UploadRouter.Request)
    (w : UploadRouter.World) : string :=
  assetIdOf rt req w ++ "_metadata.json".

(** A platform whose HEIC codec always throws. *)
Definition brokenCodecRuntime : Runtime :=
  mkRuntime (getTime exampleRuntime) (uuidv4 exampleRuntime) (nowISO exampleRuntime)
    (fun _ => None) (parseFloat exampleRuntime) (jsonBytes exampleRuntime)
    (toUpperCase exampleRuntime).

(** The disk after multer has stored a photo and a video in .temp. *)
Definition uploadWorld : UploadRouter.World :=
  UploadRouter.mkWorld
    (Some [ (".temp", Directory
               [ ("5f0c_photo.HEIC", File (Media [x00; x01]));
                 ("9a1d_video.MOV", File (Media [x02])) ]) ])
    0 0.

Definition uploadFiles (fields : UploadRouter.Fields) : UploadRouter.Request :=
  UploadRouter.mkRequest
    (Some (UploadRouter.mkFile "IMG_0001.HEIC" "5f0c_photo.HEIC" 2))
    (Some (UploadRouter.mkFile "IMG_0001.MOV" "9a1d_video.MOV" 1))
    fields.

(** An upload that names its id, and one that does not. *)
Definition uploadWithId : UploadRouter.Request :=
  uploadFiles (UploadRouter.mkFields (Some "0123456789abcdef") None None None (Some "trip") None).

Definition uploadWithoutId : UploadRouter.Request :=
  uploadFiles (UploadRouter.mkFields None None None None None None).

(** The asset list of one gallery directory as the listing returns it. *)
Definition galleryAssets (rt : Runtime) (dir : string) (files : Listing)
  : list LivePhotoMetadata.t :=
  sortBy (byUploadDateDesc rt) (map (withUrls dir) (recordsOf files)).

(** The asset records of the gallery all carry view password [pw]. *)
Definition viewProtected (files : Listing) (pw : string) : Prop :=
  pw <> "" /\ readableListing files /\ recordsOf files <> [] /\
  Forall (fun m => galleryViewPassword m = Some pw) (recordsOf files).

(** [a] was uploaded no earlier than [b], both upload dates being valid. *)
Definition uploadedNoEarlier (rt : Runtime) (a b : LivePhotoMetadata.t) : Prop :=
  exists ta tb, getTime rt (uploadDate a) = Some ta /\
                getTime rt (uploadDate b) = Some tb /\ (tb <= ta)%Z.

(** Gallery [a] was updated no earlier than gallery [b]. *)
Definition updatedNoEarlier (rt : Runtime) (a b : GalleryInfo.t) : Prop :=
  exists ta tb, getTime rt (GalleryInfo.lastUpdated a) = Some ta /\
                getTime rt (GalleryInfo.lastUpdated b) = Some tb /\ (tb <= ta)%Z.

(** The display name of a gallery directory: the galleryName of its
    first record, the directory name when that is missing or empty or
    when there is no record. *)
Definition displayName (dir : string) (files : Listing) : string :=
  match recordsOf files with
  | m :: _ => Js.orElse (galleryName m) dir
  | [] => dir
  end.

(** A platform that parses three dates, to their milliseconds since the
    epoch. *)
Definition datedRuntime : Runtime :=
  mkRuntime
    (fun s => if s =? "1970-01-01T00:00:00.000Z" then Some 0%Z
              else if s =? "2024-01-15T10:30:00.000Z" then Some 1705314600000%Z
              else if s =? "2024-01-16T08:00:00.000Z" then Some 1705392000000%Z
              else None)
    (uuidv4 exampleRuntime) (nowISO exampleRuntime) (heicConvert exampleRuntime)
    (parseFloat exampleRuntime) (jsonBytes exampleRuntime)
    (toUpperCase exampleRuntime).

Definition datedRecord (i date : string) (name : option string) : LivePhotoMetadata.t :=
  LivePhotoMetadata.mk i (i ++ "_photo.jpg") (i ++ "_video.mov") 10 20
    date date None None None None (Some "trip") name None None.

(** Two galleries; in "trip" the older record comes first in the directory. *)
Definition datedRoot : list (string * Node) :=
  [ ("notes.txt", Plain);
    ("trip", Directory
       [ ("aaaa0001_metadata.json",
          File (Json (datedRecord "aaaa0001" "2024-01-15T10:30:00.000Z" (Some "Trip"))));
         ("aaaa0001_photo.jpg", File (Media [x01]));
         ("bbbb0002_metadata.json",
          File (Json (datedRecord "bbbb0002" "2024-01-16T08:00:00.000Z" (Some "Other")))) ]);
    (".temp", Directory []);
    ("solo", Directory
       [ ("cccc0003_metadata.json",
          File (Json (datedRecord "cccc0003" "2024-01-15T10:30:00.000Z" None))) ]) ].

(** Two galleries whose records disagree on the view password: in
    "open" only the second record carries one, in "shut" only the first. *)
Definition unevenRoot : list (string * Node) :=
  [ ("open", Directory
       [ ("aaaa0001_metadata.json", File (Json (exampleRecord "aaaa0001" None None)));
         ("bbbb0002_metadata.json",
          File (Json (exampleRecord "bbbb0002" (Some "ABC123") None))) ]);
    ("shut", Directory
       [ ("cccc0003_metadata.json",
          File (Json (exampleRecord "cccc0003" (Some "ABC123") None)));
         ("dddd0004_metadata.json", File (Json (exampleRecord "dddd0004" None None))) ]) ].

(** A gallery directory that holds a sub-directory between its files. *)
Definition nestedRoot : list (string * Node) :=
  [ ("nest", Directory
       [ ("aaaa0001_metadata.json",
          File (Json (exampleRecord "aaaa0001" None (Some "Secret"))));
         ("aaaa0001_photo.jpg", File (Media [x01]));
         ("thumbs", SubDir);
         ("aaaa0001_video.mov", File (Media [x02])) ]) ].

(** The name the video is stored under: [`${assetId}_video${videoExt}`]. *)
Definition storedVideoName (rt : Runtime) (req : UploadRouter.Request)
    (w : UploadRouter.World) (videoFile : UploadRouter.MulterFile) : string :=
  assetIdOf rt req w ++ "_video" ++ UploadRouter.extname (UploadRouter.originalname videoFile).

(** [`/files/${galleryId}/${name}`] *)
Definition fileUrl (galleryId name : string) : string :=
  "/files/" ++ galleryId ++ "/" ++ name.

(** The disk after multer has stored two JPEG uploads in .temp. *)
Definition twoUploadsWorld : UploadRouter.World :=
  UploadRouter.mkWorld
    (Some [ (".temp", Directory
               [ ("1a_photo.jpg", File (Media [x01; x02; x03]));
                 ("1b_video.mov", File (Media [x04]));
                 ("2a_photo.jpg", File (Media [x05; x06]));
                 ("2b_video.mov", File (Media [x07])) ]) ])
    0 0.

(** Two uploads to the same gallery whose ids agree on the first 8
    characters. *)
Definition firstUpload : UploadRouter.Request :=
  UploadRouter.mkRequest
    (Some (UploadRouter.mkFile "IMG_1.jpg" "1a_photo.jpg" 3))
    (Some (UploadRouter.mkFile "IMG_1.mov" "1b_video.mov" 1))
    (UploadRouter.mkFields (Some "ABCDEFGH-0001") None None None (Some "trip") None).

Definition secondUpload : UploadRouter.Request :=
  UploadRouter.mkRequest
    (Some (UploadRouter.mkFile "IMG_2.jpg" "2a_photo.jpg" 2))
    (Some (UploadRouter.mkFile "IMG_2.mov" "2b_video.mov" 1))
    (UploadRouter.mkFields (Some "ABCDEFGH-0002") None None None (Some "trip") None).

(** The last non-empty value of a field over the records of a
    directory, in directory order; [None] when no record has one. *)
Definition lastOf (values : list (option string)) : option string :=
  match find Js.truthy (rev values) with
  | Some v => v
  | None => None
  end.

Definition lastSet (field : LivePhotoMetadata.t -> option string) (files : Listing)
  : option string :=
  lastOf (map field (recordsOf files)).

(** The characters [escapeHtml] is there to remove. *)
Definition isMarkup (c : ascii) : bool :=
  (Ascii.eqb c "<" || Ascii.eqb c ">" || Ascii.eqb c "034" || Ascii.eqb c "'")%bool.

(** The entity one character is written as. *)
Definition entityOf (c : ascii) : string :=
  if Ascii.eqb c "&" then "&amp;"
  else if Ascii.eqb c "<" then "&lt;"
  else if Ascii.eqb c ">" then "&gt;"
  else if Ascii.eqb c "034" then "&quot;"
  else if Ascii.eqb c "'" then "&#039;"
  else String c "".

(** No two entries of the upload directory share a name. *)
Definition wellNamed (store : Store) : Prop := uniqueNames (Fs.rootOf store).

(** Every run of [c] from a state satisfying [I] ends in one. *)
Definition preserves {S A} (I : S -> Prop) (c : IO S A) : Prop :=
  forall s, I s -> I (snd (c s)).

(** The listing of a gallery directory; empty when there is none. *)
Definition listingOf (galleryId : string) (root : list (string * Node)) : Listing :=
  match Fs.lookup galleryId root with
  | Some (Directory files) => files
  | _ => []
  end.

(** The entries of the upload directory other than gallery [g] and
    .temp, in directory order. *)
Definition elsewhere (g : string) (store : Store) : list (string * Node) :=
  filter (fun d => negb (fst d =? g) && negb (fst d =? ".temp")) (Fs.rootOf store).

(** An upload that names .temp as its gallery. *)
Definition uploadToTemp : UploadRouter.Request :=
  UploadRouter.mkRequest
    (Some (UploadRouter.mkFile "IMG_1.jpg" "1a_photo.jpg" 3))
    (Some (UploadRouter.mkFile "IMG_1.mov" "1b_video.mov" 1))
    (UploadRouter.mkFields (Some "ABCDEFGH-0001") None None None (Some ".temp") None).

(** ** Strings that name one directory entry

    The handlers join strings of the request and of the records to
    paths with [path.join].  The store has a name for every entry, so a
    handler is described by the model where the joined string names one
    entry of the directory it is joined to. *)

Fixpoint allChars (p : ascii -> bool) (s : string) : bool :=
  match s with
  | EmptyString => true
  | String c r => p c && allChars p r
  end.

(** The characters [path.join] reads as separators, and the one no file
    name can hold. *)
Definition separator (c : ascii) : bool :=
  (Ascii.eqb c "/" || Ascii.eqb c "\" || Ascii.eqb c "000")%bool.

(** A string without separator: a file name without directory part. *)
Definition pathless (s : string) : bool :=
  allChars (fun c => negb (separator c)) s.

(** [path.join(dir, s)] is the entry named [s] of [dir]. *)
Definition segment (s : string) : bool :=
  (pathless s && negb (s =? "") && negb (s =? ".") && negb (s =? ".."))%bool.

(** A name the file system accepts for a new entry. *)
Definition storable (s : string) : bool :=
  (segment s && (String.length s <=? 255)%nat)%bool.

(** Text of ASCII characters only: its bytes are its UTF-16 units, so
    [substring] cuts it where JavaScript does. *)
Definition ascii7 (s : string) : bool :=
  allChars (fun c => (nat_of_ascii c <? 128)%nat) s.

(** The strings an upload joins to paths name single entries: the
    gallery id, the names the photo, the video and the record are stored
    under, and the names multer gave the two files in .temp.  The asset
    id is ASCII text, and the names of the uploaded files come without
    directory part, as multer hands them over. *)
Definition plainUpload (rt : Runtime) (req : UploadRouter.Request)
    (w : UploadRouter.World) (photoFile videoFile : UploadRouter.MulterFile) : Prop :=
  storable (galleryOf req) = true /\
  ascii7 (assetIdOf rt req w) = true /\
  pathless (UploadRouter.originalname photoFile) = true /\
  pathless (UploadRouter.originalname videoFile) = true /\
  segment (UploadRouter.filename photoFile) = true /\
  segment (UploadRouter.filename videoFile) = true /\
  storable (storedPhotoName rt req w photoFile) = true /\
  storable (storedVideoName rt req w videoFile) = true /\
  storable (recordName rt req w) = true.

(** An upload of a photo named .heic: multer stores it without
    extension, [path.extname] of the name being empty. *)
Definition dotHeicWorld : UploadRouter.World :=
  UploadRouter.mkWorld
    (Some [ (".temp", Directory
               [ ("5f0c_photo", File (Media [x00; x01]));
                 ("9a1d_video.MOV", File (Media [x02])) ]) ])
    0 0.

Definition uploadDotHeic : UploadRouter.Request :=
  UploadRouter.mkRequest
    (Some (UploadRouter.mkFile ".heic" "5f0c_photo" 2))
    (Some (UploadRouter.mkFile "IMG_0001.MOV" "9a1d_video.MOV" 1))
    (UploadRouter.mkFields (Some "0123456789abcdef") None None None (Some "trip") None).

(** A disk with two uploads waiting in .temp beside three galleries:
    "mix", "trip", whose records carry view password ABC123, and the
    empty "void". *)
Definition busyWorld : UploadRouter.World :=
  UploadRouter.mkWorld
    (Some [ (".temp", Directory
               [ ("1a_photo.jpg", File (Media [x01; x02; x03]));
                 ("1b_video.mov", File (Media [x04]));
                 ("2a_photo.jpg", File (Media [x05; x06]));
                 ("2b_video.mov", File (Media [x07])) ]);
            ("mix", Directory
               [ ("aaaa0001_metadata.json",
                  File (Json (exampleRecord "aaaa0001" None (Some "Secret"))));
                 ("aaaa0001_photo.jpg", File (Media [x01]));
                 ("bbbb0002_metadata.json",
                  File (Json (exampleRecord "bbbb0002" None (Some "Other")))) ]);
            ("trip", Directory
               [ ("abcd1111_metadata.json",
                  File (Json (exampleRecord "abcd1111" (Some "ABC123") None)));
                 ("abcd1111_photo.jpg", File (Media [x01]));
                 ("abcd1111_video.mov", File (Media [x02]));
                 ("abcd2222_metadata.json",
                  File (Json (exampleRecord "abcd2222" (Some "ABC123") (Some "Secret")))) ]);
            ("void", Directory []) ])
    0 0.

(** * Properties *)

(** ** Requests *)

Lemma files_both (req : UploadRouter.Request) (pf vf : UploadRouter.MulterFile) :
  UploadRouter.photo req = Some pf -> UploadRouter.video req = Some vf ->
  UploadRouter.files req = Some (Some pf, Some vf).
Proof.
  unfold UploadRouter.photo, UploadRouter.video.
  destruct (UploadRouter.files req) as [[p v]|]; [|discriminate].
  intros -> ->. reflexivity.
Qed.

(** ** Strings *)

Lemma truthy_Some (s : string) : s <> "" -> Js.truthy (Some s) = true.
Proof. destruct s; [congruence | reflexivity]. Qed.

Lemma truthy_inv (v : option string) :
  Js.truthy v = true -> exists s, v = Some s /\ s <> "".
Proof.
  destruct v as [[|c r]|]; simpl; try discriminate.
  intros _. exists (String c r). split; [reflexivity | discriminate].
Qed.

Lemma orElse_Some (s d : string) : s <> "" -> Js.orElse (Some s) d = s.
Proof. destruct s; [congruence | reflexivity]. Qed.

Lemma mapChars_length (f : ascii -> ascii) (s : string) :
  String.length (Js.mapChars f s) = String.length s.
Proof. induction s; simpl; congruence. Qed.

(** ** Sorting keeps the elements *)

Lemma insertBy_perm {A} (cmp : A -> A -> Z) (x : A) (l : list A) :
  Permutation (insertBy cmp x l) (x :: l).
Proof.
  induction l as [|y r IH]; simpl.
  - apply Permutation_refl.
  - destruct (0 <? cmp x y)%Z.
    + eapply Permutation_trans; [apply perm_skip, IH | apply perm_swap].
    + apply Permutation_refl.
Qed.

Lemma sortBy_perm {A} (cmp : A -> A -> Z) (l : list A) :
  Permutation (sortBy cmp l) l.
Proof.
  induction l as [|x r IH]; simpl.
  - apply Permutation_refl.
  - eapply Permutation_trans; [apply insertBy_perm | apply perm_skip, IH].
Qed.

Lemma sortBy_In {A} (cmp : A -> A -> Z) (l : list A) (x : A) :
  In x (sortBy cmp l) <-> In x l.
Proof.
  split; apply Permutation_in; [| apply Permutation_sym]; apply sortBy_perm.
Qed.

(** ** Scanning the directories *)

Lemma galleryDirs_In (root : list (string * Node)) (d : string * Node) :
  In d (galleryDirs root) <->
  In d root /\ fst d <> ".temp" /\ exists files, snd d = Directory files.
Proof.
  unfold galleryDirs. rewrite filter_In. split.
  - intros [Hin H]. split; [exact Hin|].
    destruct (String.eqb_spec (fst d) ".temp"); [discriminate|].
    split; [assumption|]. destruct (snd d); [discriminate | eauto].
  - intros [Hin [Hn [files Hd]]]. split; [exact Hin|].
    destruct (String.eqb_spec (fst d) ".temp"); [contradiction|].
    rewrite Hd. reflexivity.
Qed.

Lemma galleryDirs_directories (root : list (string * Node)) :
  Forall (fun d => exists files, snd d = Directory files) (galleryDirs root).
Proof.
  apply Forall_forall. intros d Hd. apply galleryDirs_In in Hd. tauto.
Qed.

Lemma recordsOf_cons (file : string) (e : Entry) (rest : Listing) :
  recordsOf ((file, e) :: rest) =
  if isMetadataFile file
  then (match e with File (Json m) => [m] | _ => [] end ++ recordsOf rest)%list
  else recordsOf rest.
Proof.
  unfold recordsOf, metadataFiles. simpl.
  destruct (isMetadataFile file); reflexivity.
Qed.

Lemma readableListing_cons (file : string) (e : Entry) (rest : Listing) :
  readableListing ((file, e) :: rest) <->
  (isMetadataFile file = true -> exists m, e = File (Json m)) /\ readableListing rest.
Proof.
  unfold readableListing, metadataFiles. simpl.
  destruct (isMetadataFile file).
  - split.
    + intros H. inversion H; subst. split; [intros _; assumption | assumption].
    + intros [H1 H2]. constructor; [apply H1; reflexivity | assumption].
  - split; [intros H; split; [discriminate | assumption] | tauto].
Qed.

Lemma collectFiles_inv (dir : string) (files : Listing) (l : list LivePhotoMetadata.t) :
  collectFiles dir files = Ok l ->
  readableListing files /\ l = map (withUrls dir) (recordsOf files).
Proof.
  revert l. induction files as [|[file e] rest IH]; intros l H.
  - simpl in H. injection H as <-. split; [constructor | reflexivity].
  - simpl in H. rewrite readableListing_cons, recordsOf_cons.
    destruct (isMetadataFile file).
    + destruct e as [[m|b]|]; simpl in H; try discriminate.
      destruct (collectFiles dir rest) as [l'|] eqn:E; simpl in H; [|discriminate].
      injection H as <-. destruct (IH l' eq_refl) as [Hr ->].
      split; [split; [eauto | assumption] | reflexivity].
    + destruct (IH l H) as [Hr ->]. split; [split; [discriminate | assumption] | reflexivity].
Qed.

Lemma collectFiles_ok (dir : string) (files : Listing) :
  readableListing files ->
  collectFiles dir files = Ok (map (withUrls dir) (recordsOf files)).
Proof.
  induction files as [|[file e] rest IH]; intros H.
  - reflexivity.
  - apply readableListing_cons in H. destruct H as [H1 H2].
    simpl. rewrite recordsOf_cons. destruct (isMetadataFile file).
    + destruct (H1 eq_refl) as [m ->]. simpl. rewrite (IH H2). reflexivity.
    + apply IH, H2.
Qed.

Lemma storedRecords_cons (dir : string) (files : Listing) (rest : list (string * Node)) :
  storedRecords ((dir, Directory files) :: rest) =
  (map (pair dir) (recordsOf files) ++ storedRecords rest)%list.
Proof. reflexivity. Qed.

Lemma shown_pair (dir : string) (l : list LivePhotoMetadata.t) :
  map shown (map (pair dir) l) = map (withUrls dir) l.
Proof. rewrite map_map. reflexivity. Qed.

Lemma collect_inv (dirs : list (string * Node)) (l : list LivePhotoMetadata.t) :
  collect dirs = Ok l ->
  readable dirs /\ l = map shown (storedRecords dirs).
Proof.
  revert l. induction dirs as [|[dir n] rest IH]; intros l H.
  - simpl in H. injection H as <-. split; [constructor | reflexivity].
  - simpl in H. destruct n as [|files]; simpl in H; [discriminate|].
    destruct (collectFiles dir files) as [l1|] eqn:E1; simpl in H; [|discriminate].
    destruct (collect rest) as [l2|] eqn:E2; simpl in H; [|discriminate].
    injection H as <-.
    apply collectFiles_inv in E1. destruct E1 as [Hr ->].
    destruct (IH l2 eq_refl) as [Hrs ->].
    split.
    + constructor; [|assumption]. simpl. intros files' Hf. injection Hf as <-. exact Hr.
    + rewrite storedRecords_cons, map_app, shown_pair. reflexivity.
Qed.

Lemma collect_ok (dirs : list (string * Node)) :
  Forall (fun d => exists files, snd d = Directory files) dirs ->
  readable dirs ->
  collect dirs = Ok (map shown (storedRecords dirs)).
Proof.
  induction dirs as [|[dir n] rest IH]; intros Hd Hr.
  - reflexivity.
  - inversion Hd as [|? ? [files Hn] Hd']; subst. simpl in Hn. subst n.
    inversion Hr as [|? ? Hr1 Hr']; subst.
    rewrite storedRecords_cons, map_app, shown_pair.
    cbn [collect readdirSync bindR].
    rewrite (collectFiles_ok dir files (Hr1 files eq_refl)). cbn [bindR].
    rewrite (IH Hd' Hr'). reflexivity.
Qed.

Lemma recordsOf_In (files : Listing) (m : LivePhotoMetadata.t) :
  In m (recordsOf files) <->
  exists file, In (file, File (Json m)) files /\ isMetadataFile file = true.
Proof.
  unfold recordsOf. rewrite in_flat_map. split.
  - intros [[file e] [Hin Hm]]. unfold metadataFiles in Hin.
    apply filter_In in Hin. destruct Hin as [Hin Hf]. simpl in *.
    destruct e as [[m'|b]|]; simpl in Hm; try contradiction.
    destruct Hm as [<-|[]]. eauto.
  - intros [file [Hin Hf]]. exists (file, File (Json m)). split.
    + unfold metadataFiles. apply filter_In. split; assumption.
    + simpl. left. reflexivity.
Qed.

Lemma storedRecords_In (dirs : list (string * Node)) (dir : string)
    (m : LivePhotoMetadata.t) :
  In (dir, m) (storedRecords dirs) <->
  exists files, In (dir, Directory files) dirs /\ In m (recordsOf files).
Proof.
  unfold storedRecords. rewrite in_flat_map. split.
  - intros [[d n] [Hin Hm]]. simpl in Hm. destruct n as [|files]; [contradiction|].
    apply in_map_iff in Hm. destruct Hm as [m' [E Hm']]. injection E as <- <-.
    eauto.
  - intros [files [Hin Hm]]. exists (dir, Directory files). split; [assumption|].
    simpl. apply in_map. assumption.
Qed.

Lemma stored_iff (root : list (string * Node)) (dir : string) (m : LivePhotoMetadata.t) :
  stored root dir m <-> In (dir, m) (storedRecords (galleryDirs root)).
Proof.
  rewrite storedRecords_In. unfold stored. split.
  - intros [files [file [Hin [Hn [Hf Hm]]]]]. exists files. split.
    + apply galleryDirs_In. simpl. eauto.
    + apply recordsOf_In. eauto.
  - intros [files [Hin Hm]]. apply galleryDirs_In in Hin. simpl in Hin.
    destruct Hin as [Hin [Hn _]]. apply recordsOf_In in Hm.
    destruct Hm as [file [Hf Hm]]. exists files, file. tauto.
Qed.

(** ** The scan of get-asset-by-id and delete-asset *)

Lemma find_app {A} (f : A -> bool) (l1 l2 : list A) :
  find f (l1 ++ l2) = match find f l1 with
                      | Some x => Some x
                      | None => find f l2
                      end.
Proof.
  induction l1 as [|x r IH]; simpl; [reflexivity|].
  destruct (f x); [reflexivity | exact IH].
Qed.

Lemma find_pair (dir : string) (s : string) (l : list LivePhotoMetadata.t) :
  find (fun dm : string * LivePhotoMetadata.t => idMatches s (snd dm)) (map (pair dir) l) =
  option_map (pair dir) (find (idMatches s) l).
Proof.
  induction l as [|m r IH]; simpl; [reflexivity|].
  destruct (idMatches s m); [reflexivity | exact IH].
Qed.

Lemma findInFiles_spec (s : string) (files : Listing) :
  readableListing files ->
  exists hit, findInFiles s files = Ok hit /\
              option_map snd hit = find (idMatches s) (recordsOf files).
Proof.
  induction files as [|[file e] rest IH]; intros H.
  - exists None. split; reflexivity.
  - apply readableListing_cons in H. destruct H as [H1 H2].
    destruct (IH H2) as [hit [E Hhit]].
    simpl. rewrite recordsOf_cons. destruct (isMetadataFile file).
    + destruct (H1 eq_refl) as [m ->]. simpl. unfold idMatches at 1.
      destruct ((LivePhotoMetadata.id m =? s) || Js.startsWith (LivePhotoMetadata.id m) s).
      * exists (Some (file, m)). split; reflexivity.
      * exists hit. split; assumption.
    + exists hit. split; assumption.
Qed.

Lemma findAsset_spec (s : string) (dirs : list (string * Node)) :
  Forall (fun d => exists files, snd d = Directory files) dirs ->
  readable dirs ->
  exists hit, findAsset s dirs = Ok hit /\
              option_map (fun x => (fst (fst x), snd x)) hit =
              find (fun dm => idMatches s (snd dm)) (storedRecords dirs).
Proof.
  induction dirs as [|[dir n] rest IH]; intros Hd Hr.
  - exists None. split; reflexivity.
  - inversion Hd as [|? ? [files Hn] Hd']; subst. simpl in Hn. subst n.
    inversion Hr as [|? ? Hr1 Hr']; subst.
    destruct (findInFiles_spec s files (Hr1 files eq_refl)) as [hit [E Hhit]].
    destruct (IH Hd' Hr') as [hit' [E' Hhit']].
    rewrite storedRecords_cons, find_app, find_pair, <- Hhit.
    cbn [findAsset readdirSync bindR]. rewrite E. cbn [bindR].
    destruct hit as [[file m]|]; simpl.
    + exists (Some (dir, file, m)). split; reflexivity.
    + exists hit'. split; assumption.
Qed.

Lemma findInFiles_hit (s file : string) (files : Listing) (m : LivePhotoMetadata.t) :
  findInFiles s files = Ok (Some (file, m)) ->
  In (file, File (Json m)) files /\ isMetadataFile file = true /\ idMatches s m = true.
Proof.
  induction files as [|[file' e] rest IH]; intros H; simpl in H; [discriminate|].
  destruct (isMetadataFile file') eqn:Hf.
  - destruct e as [[m'|b]|]; simpl in H; try discriminate.
    destruct ((LivePhotoMetadata.id m' =? s) || Js.startsWith (LivePhotoMetadata.id m') s) eqn:Hm.
    + injection H as <- <-. split; [left; reflexivity | split; assumption].
    + destruct (IH H) as [H1 H2]. split; [right; assumption | assumption].
  - destruct (IH H) as [H1 H2]. split; [right; assumption | assumption].
Qed.

Lemma findAsset_hit (s dir file : string) (dirs : list (string * Node))
    (m : LivePhotoMetadata.t) :
  findAsset s dirs = Ok (Some (dir, file, m)) ->
  exists files, In (dir, Directory files) dirs /\
                In (file, File (Json m)) files /\
                isMetadataFile file = true /\ idMatches s m = true.
Proof.
  induction dirs as [|[dir' n] rest IH]; intros H; simpl in H; [discriminate|].
  destruct n as [|files]; simpl in H; [discriminate|].
  destruct (findInFiles s files) as [[[file' m']|]|] eqn:E; simpl in H; try discriminate.
  - injection H as <- <- <-. apply findInFiles_hit in E.
    exists files. split; [left; reflexivity | assumption].
  - destruct (IH H) as [files' [H1 H2]]. exists files'. split; [right; assumption | assumption].
Qed.

Lemma findAsset_stored (s dir file : string) (root : list (string * Node))
    (m : LivePhotoMetadata.t) :
  findAsset s (galleryDirs root) = Ok (Some (dir, file, m)) -> stored root dir m.
Proof.
  intros H. apply findAsset_hit in H. destruct H as [files [Hin [Hf [Hm _]]]].
  apply galleryDirs_In in Hin. simpl in Hin.
  exists files, file. tauto.
Qed.

(** C5, as the claim states it, fails for the lookup string
    [galleries]: no stored record's id equals it or starts with it, and
    the request is answered 200 with the galleries listing, by the route
    registered before the lookup. *)
Lemma get_galleries_is_not_a_lookup_counterexample :
  firstMatch (Some exampleRoot) "galleries" = None /\
  status (getById exampleRuntime (Some exampleRoot) "galleries") = 200 /\
  ~ NotFound (getById exampleRuntime (Some exampleRoot) "galleries") /\
  exists galleries n,
    body (getById exampleRuntime (Some exampleRoot) "galleries")
    = GalleriesBody galleries n.
Proof.
  split; [reflexivity|]. split; [reflexivity|].
  split; [unfold NotFound; simpl; discriminate|].
  eexists _, _. reflexivity.
Qed.

(** C5, amended. For every non-empty lookup string s other than
    [galleries] in any letter case, get-asset-by-id answers with the
    first record, in scan order over the gallery directories, whose id
    equals s or starts with s, with photoUrl and videoUrl set to
    [/files/<gallery>/<file name>] and every other field as stored; and
    with NotFound (404) when no stored record's id matches.  The
    metadata files of the gallery directories are assumed to hold
    records. *)
Theorem getPhoto_first_match (rt : Runtime) (store : Store) (s : string) :
  s <> "" -> Js.toLowerCase s <> "galleries" ->
  readable (galleryDirs (Fs.rootOf store)) ->
  match firstMatch store s with
  | Some (dir, m) =>
      exists r, getById rt store s = json (PhotoBody r) /\ augmented dir m r
  | None => getById rt store s = statusJson 404 (ErrorBody "Photo not found" false)
  end.
Proof.
  intros _ Hs Hr. unfold getById, firstMatch.
  destruct (String.eqb_spec (Js.toLowerCase s) "galleries") as [E|_]; [contradiction|].
  unfold getPhoto.
  destruct store as [root|]; [|reflexivity]. simpl Fs.rootOf in *.
  destruct (findAsset_spec s (galleryDirs root) (galleryDirs_directories root) Hr)
    as [hit [E Hhit]].
  rewrite E, <- Hhit. cbn [bindR catch500].
  destruct hit as [[[dir file] m]|]; cbn [option_map fst snd]; [|reflexivity].
  exists (withUrls dir m). split; [reflexivity|].
  unfold augmented. repeat split.
Qed.

Lemma getPhoto_first_match_witness :
  exists r,
    getById exampleRuntime (Some exampleRoot) "abcd" = json (PhotoBody r) /\
    LivePhotoMetadata.id r = "abcd1111" /\
    photoUrl r = Some "/files/trip/abcd1111_photo.jpg" /\
    videoUrl r = Some "/files/trip/abcd1111_video.mov" /\
    galleryViewPassword r = Some "ABC123".
Proof.
  assert (H : readable (galleryDirs (Fs.rootOf (Some exampleRoot)))).
  { repeat constructor; simpl; intros files E; injection E as <-;
      repeat constructor; simpl; eauto. }
  pose proof (getPhoto_first_match exampleRuntime (Some exampleRoot) "abcd"
                ltac:(discriminate) ltac:(discriminate) H) as M.
  change (firstMatch (Some exampleRoot) "abcd")
    with (Some ("trip", exampleRecord "abcd1111" (Some "ABC123") None)) in M.
  cbv beta iota in M. destruct M as [r [E A]].
  exists r. split; [exact E|].
  destruct A as (A1 & A2 & A3 & _ & _ & _ & _ & _ & _ & _ & _ & _ & _ & _ & A15).
  split; [exact A3|]. split; [exact A1|]. split; [exact A2 | exact A15].
Defined.

(** ** Listing *)

Lemma filter_name_absent {A} (g : string) (l : list (string * A)) :
  ~ In g (map fst l) -> filter (fun d => fst d =? g) l = [].
Proof.
  induction l as [|[k a] r IH]; intros H; simpl; [reflexivity|].
  simpl in H. destruct (String.eqb_spec k g).
  - exfalso. apply H. left. assumption.
  - apply IH. intros Hin. apply H. right. assumption.
Qed.

Lemma filter_name_unique {A} (g : string) (a : A) (l : list (string * A)) :
  uniqueNames l -> In (g, a) l -> filter (fun d => fst d =? g) l = [(g, a)].
Proof.
  unfold uniqueNames. induction l as [|[k b] r IH]; intros Hu Hin; [contradiction|].
  simpl in Hu. inversion Hu as [|? ? Hk Hu']; subst. simpl.
  destruct (String.eqb_spec k g) as [->|Hne].
  - destruct Hin as [E|Hin].
    + injection E as ->. rewrite (filter_name_absent g r Hk). reflexivity.
    + exfalso. apply Hk. apply (in_map fst) in Hin. exact Hin.
  - destruct Hin as [E|Hin]; [injection E as -> _; contradiction|].
    apply IH; assumption.
Qed.

Lemma filter_comm {A} (f g : A -> bool) (l : list A) :
  filter f (filter g l) = filter g (filter f l).
Proof.
  induction l as [|x r IH]; simpl; [reflexivity|].
  destruct (f x) eqn:Ef, (g x) eqn:Eg; simpl; rewrite ?Ef, ?Eg, IH; reflexivity.
Qed.

Lemma galleryDirs_named (root : list (string * Node)) (g : string) (files : Listing) :
  uniqueNames root -> In (g, Directory files) root -> g <> ".temp" ->
  filter (fun d => fst d =? g) (galleryDirs root) = [(g, Directory files)].
Proof.
  intros Hu Hin Hn. unfold galleryDirs. rewrite filter_comm.
  rewrite (filter_name_unique g (Directory files) root Hu Hin). simpl.
  destruct (String.eqb_spec g ".temp"); [contradiction | reflexivity].
Qed.

Lemma viewProtected_first (files : Listing) (pw : string) :
  viewProtected files pw ->
  exists file m rest, metadataFiles files = (file, File (Json m)) :: rest /\
                      galleryViewPassword m = Some pw.
Proof.
  intros [_ [Hr [Hne Hall]]]. unfold recordsOf in *. unfold readableListing in Hr.
  destruct (metadataFiles files) as [|[file e] rest]; [contradiction|].
  inversion Hr as [|? ? [m Hm] _]; subst. simpl in Hm. subst e.
  simpl in Hall. inversion Hall; subst. eauto.
Qed.

(** C1. For a gallery whose asset records carry a view password, the
    listing filtered to that gallery answers AuthRequired (401) when no
    password is supplied, Forbidden (403) when the supplied password
    differs from the stored one after both are upper-cased by the
    platform's [toUpperCase], and the asset list of the gallery when
    the two then agree. *)
Theorem list_gallery_view_password (rt : Runtime) (root : list (string * Node))
    (g : string) (files : Listing) (pw : string) (p : option string) :
  uniqueNames root -> In (g, Directory files) root ->
  g <> ".temp" -> g <> "" ->
  viewProtected files pw ->
  (Js.truthy p = false -> AuthRequired (listPhotos rt (Some root) (Some g) p)) /\
  (forall x, p = Some x -> x <> "" ->
             toUpperCase rt x <> toUpperCase rt pw ->
             Forbidden (listPhotos rt (Some root) (Some g) p)) /\
  (forall x, p = Some x -> x <> "" ->
             toUpperCase rt x = toUpperCase rt pw ->
             listPhotos rt (Some root) (Some g) p =
             json (PhotosBody (galleryAssets rt g files)
                              (List.length (galleryAssets rt g files)))).
Proof.
  intros Hu Hin Hn Hg Hv.
  destruct (viewProtected_first files pw Hv) as [file [m [rest [Hm Hpw]]]].
  destruct Hv as [Hpwne [Hr _]].
  unfold listPhotos. rewrite (truthy_Some g Hg), (orElse_Some g "" Hg).
  rewrite (galleryDirs_named root g files Hu Hin Hn).
  cbn [checkViewPassword readdirSync bindR]. rewrite Hm.
  cbn [readMetadata bindR]. rewrite Hpw, (truthy_Some pw Hpwne), (orElse_Some pw "" Hpwne).
  split; [|split].
  - intros Hp. rewrite Hp. reflexivity.
  - intros x -> Hx Hdiff. rewrite (truthy_Some x Hx), (orElse_Some x "" Hx).
    apply String.eqb_neq in Hdiff. rewrite Hdiff. reflexivity.
  - intros x -> Hx Heq.
    rewrite (truthy_Some x Hx), (orElse_Some x "" Hx), Heq, String.eqb_refl.
    cbn [negb bindR collect readdirSync]. rewrite (collectFiles_ok g files Hr).
    cbn [bindR catch500]. rewrite app_nil_r. reflexivity.
Qed.

Lemma list_gallery_view_password_witness :
  AuthRequired (listPhotos exampleRuntime (Some exampleRoot) (Some "trip") None) /\
  Forbidden (listPhotos exampleRuntime (Some exampleRoot) (Some "trip") (Some "WRONG")) /\
  listPhotos exampleRuntime (Some exampleRoot) (Some "trip") (Some "abc123") =
    json (PhotosBody
            [withUrls "trip" (exampleRecord "abcd1111" (Some "ABC123") None);
             withUrls "trip" (exampleRecord "abcd2222" (Some "ABC123") (Some "Secret"))]
            2).
Proof.
  assert (Hu : uniqueNames exampleRoot).
  { unfold uniqueNames. simpl. repeat constructor; simpl; intuition discriminate. }
  assert (Hin : In ("trip", Directory
                      [ ("abcd1111_metadata.json",
                         File (Json (exampleRecord "abcd1111" (Some "ABC123") None)));
                        ("abcd1111_photo.jpg", File (Media [x01]));
                        ("abcd1111_video.mov", File (Media [x02]));
                        ("abcd2222_metadata.json",
                         File (Json (exampleRecord "abcd2222" (Some "ABC123") (Some "Secret")))) ])
                   exampleRoot).
  { right. left. reflexivity. }
  assert (Hv : viewProtected
                 [ ("abcd1111_metadata.json",
                    File (Json (exampleRecord "abcd1111" (Some "ABC123") None)));
                   ("abcd1111_photo.jpg", File (Media [x01]));
                   ("abcd1111_video.mov", File (Media [x02]));
                   ("abcd2222_metadata.json",
                    File (Json (exampleRecord "abcd2222" (Some "ABC123") (Some "Secret")))) ]
                 "ABC123").
  { split; [discriminate|]. split; [repeat constructor; simpl; eauto|].
    split; [discriminate|]. repeat constructor. }
  assert (Hn : "trip" <> ".temp") by discriminate.
  assert (Hg : "trip" <> "") by discriminate.
  split; [|split].
  - apply (list_gallery_view_password exampleRuntime exampleRoot "trip" _ "ABC123" None
             Hu Hin Hn Hg Hv). reflexivity.
  - apply (proj1 (proj2 (list_gallery_view_password exampleRuntime exampleRoot "trip" _
                           "ABC123" (Some "WRONG") Hu Hin Hn Hg Hv)) "WRONG");
      [reflexivity | discriminate | discriminate].
  - apply (proj2 (proj2 (list_gallery_view_password exampleRuntime exampleRoot "trip" _
                           "ABC123" (Some "abc123") Hu Hin Hn Hg Hv)) "abc123");
      [reflexivity | discriminate | reflexivity].
Defined.

Lemma truthy_false_listing (rt : Runtime) (store : Store) (g p : option string) :
  Js.truthy g = false ->
  listPhotos rt store g p =
  catch500
    match store with
    | None => Ok (json (PhotosBody [] 0))
    | Some root =>
        (photos <- collect (galleryDirs root) ;;
         Ok (json (PhotosBody (sortBy (byUploadDateDesc rt) photos)
                              (List.length (sortBy (byUploadDateDesc rt) photos)))))%R
    end.
Proof.
  intros Hg. unfold listPhotos. destruct store as [root|]; [|reflexivity].
  rewrite Hg. cbn [bindR]. reflexivity.
Qed.

(** C8. A listing without gallery filter never answers AuthRequired or
    Forbidden and does not depend on the password sent: when the metadata
    files can be read it returns, with status 200, every record stored in
    every gallery directory other than .temp, whatever view password the
    records carry; otherwise it answers 500. *)
Theorem list_all_ignores_passwords (rt : Runtime) (store : Store)
    (g p : option string) :
  Js.truthy g = false ->
  ~ AuthRequired (listPhotos rt store g p) /\
  ~ Forbidden (listPhotos rt store g p) /\
  listPhotos rt store g p = listPhotos rt store g None /\
  (readable (galleryDirs (Fs.rootOf store)) ->
   exists photos,
     listPhotos rt store g p = json (PhotosBody photos (List.length photos)) /\
     Permutation photos (map shown (storedRecords (galleryDirs (Fs.rootOf store)))) /\
     forall dir m, stored (Fs.rootOf store) dir m -> In (withUrls dir m) photos).
Proof.
  intros Hg. rewrite !(truthy_false_listing rt store g _ Hg).
  unfold AuthRequired, Forbidden.
  destruct store as [root|]; simpl Fs.rootOf.
  - destruct (collect (galleryDirs root)) as [l|e] eqn:E; cbn [bindR catch500].
    + repeat split; try (simpl; discriminate).
      intros _. exists (sortBy (byUploadDateDesc rt) l).
      apply collect_inv in E. destruct E as [_ ->].
      split; [reflexivity|]. split; [apply sortBy_perm|].
      intros dir m Hs. apply sortBy_In. apply stored_iff in Hs.
      apply (in_map shown) in Hs. exact Hs.
    + repeat split; try (simpl; discriminate).
      intros Hr. rewrite (collect_ok _ (galleryDirs_directories root) Hr) in E.
      discriminate.
  - cbn [catch500]. repeat split; try (simpl; discriminate).
    intros _. exists []. split; [reflexivity|]. split; [constructor|].
    intros dir m [files [file [[] _]]].
Qed.

Lemma list_all_ignores_passwords_witness :
  ~ AuthRequired (listPhotos exampleRuntime (Some exampleRoot) None None) /\
  ~ Forbidden (listPhotos exampleRuntime (Some exampleRoot) None None) /\
  listPhotos exampleRuntime (Some exampleRoot) None None =
    json (PhotosBody
            [withUrls "trip" (exampleRecord "abcd1111" (Some "ABC123") None);
             withUrls "trip" (exampleRecord "abcd2222" (Some "ABC123") (Some "Secret"))]
            2).
Proof.
  destruct (list_all_ignores_passwords exampleRuntime (Some exampleRoot) None None eq_refl)
    as [H1 [H2 _]].
  split; [exact H1|]. split; [exact H2|]. reflexivity.
Defined.

(** ** What the read responses show *)

Lemma listPhotos_inv (rt : Runtime) (store : Store) (g p : option string)
    (photos : list LivePhotoMetadata.t) (n : nat) :
  listPhotos rt store g p = json (PhotosBody photos n) ->
  forall a, In a photos ->
  exists dir m, stored (Fs.rootOf store) dir m /\ a = withUrls dir m.
Proof.
  unfold listPhotos. destruct store as [root|]; cbn [catch500].
  - set (dirs := if Js.truthy g
                 then filter (fun d => fst d =? Js.orElse g "") (galleryDirs root)
                 else galleryDirs root).
    assert (Hsub : forall d, In d dirs -> In d (galleryDirs root)).
    { intros d. unfold dirs. destruct (Js.truthy g); [|tauto].
      rewrite filter_In. tauto. }
    destruct (if Js.truthy g then checkViewPassword rt dirs p else Ok None)
      as [[r|]|e] eqn:Echeck; cbn [bindR catch500].
    + intros Hr a Ha. exfalso. clear Hsub.
      destruct (Js.truthy g); [|discriminate].
      unfold checkViewPassword in Echeck.
      destruct dirs as [|[d n'] rest]; [discriminate|].
      destruct (readdirSync n') as [files|]; cbn [bindR] in Echeck; [|discriminate].
      destruct (metadataFiles files) as [|[f e] rest']; [discriminate|].
      destruct (readMetadata e) as [m|]; cbn [bindR] in Echeck; [|discriminate].
      destruct (Js.truthy (galleryViewPassword m)); [|discriminate].
      destruct (negb (Js.truthy p)).
      * injection Echeck as <-. discriminate.
      * destruct (negb _); [|discriminate]. injection Echeck as <-. discriminate.
    + destruct (collect dirs) as [l|e] eqn:E; cbn [bindR catch500]; [|discriminate].
      intros Hr a Ha. injection Hr as <- _.
      apply sortBy_In in Ha. apply collect_inv in E. destruct E as [_ ->].
      apply in_map_iff in Ha. destruct Ha as [[dir m] [<- Hin]].
      exists dir, m. split; [|reflexivity].
      apply storedRecords_In in Hin. destruct Hin as [files [Hd Hm]].
      apply stored_iff. apply storedRecords_In. exists files. split; [apply Hsub|]; assumption.
    + discriminate.
  - intros Hr a Ha. injection Hr as <- _. contradiction.
Qed.

Lemma getPhoto_inv (store : Store) (s : string) (a : LivePhotoMetadata.t) :
  getPhoto store s = json (PhotoBody a) ->
  exists dir m, stored (Fs.rootOf store) dir m /\ a = withUrls dir m.
Proof.
  unfold getPhoto. destruct store as [root|]; cbn [catch500]; [|discriminate].
  destruct (findAsset s (galleryDirs root)) as [[[[dir file] m]|]|e] eqn:E;
    cbn [bindR catch500]; try discriminate.
  intros H. injection H as <-. exists dir, m. split; [|reflexivity].
  eapply findAsset_stored; eassumption.
Qed.

(** C9. Every asset object returned by the listing and by
    get-asset-by-id is a stored record shown with its URLs, and carries
    that record's galleryViewPassword and galleryDeletePassword
    unchanged. *)
Theorem responses_carry_passwords :
  (forall rt store g p photos n a,
      listPhotos rt store g p = json (PhotosBody photos n) -> In a photos ->
      exists dir m, stored (Fs.rootOf store) dir m /\ a = withUrls dir m /\
                    galleryViewPassword a = galleryViewPassword m /\
                    galleryDeletePassword a = galleryDeletePassword m) /\
  (forall store s a,
      getPhoto store s = json (PhotoBody a) ->
      exists dir m, stored (Fs.rootOf store) dir m /\ a = withUrls dir m /\
                    galleryViewPassword a = galleryViewPassword m /\
                    galleryDeletePassword a = galleryDeletePassword m).
Proof.
  split.
  - intros rt store g p photos n a H Ha.
    destruct (listPhotos_inv rt store g p photos n H a Ha) as [dir [m [Hs ->]]].
    exists dir, m. repeat split; assumption.
  - intros store s a H.
    destruct (getPhoto_inv store s a H) as [dir [m [Hs ->]]].
    exists dir, m. repeat split; assumption.
Qed.

Lemma responses_carry_passwords_witness :
  exists a,
    getPhoto (Some exampleRoot) "abcd2222" = json (PhotoBody a) /\
    galleryViewPassword a = Some "ABC123" /\
    galleryDeletePassword a = Some "Secret" /\
    exists dir m, stored exampleRoot dir m /\
                  galleryViewPassword a = galleryViewPassword m /\
                  galleryDeletePassword a = galleryDeletePassword m.
Proof.
  exists (withUrls "trip" (exampleRecord "abcd2222" (Some "ABC123") (Some "Secret"))).
  split; [reflexivity|]. split; [reflexivity|]. split; [reflexivity|].
  destruct (proj2 responses_carry_passwords (Some exampleRoot) "abcd2222" _ eq_refl)
    as [dir [m [Hs [_ [Hv Hd]]]]].
  exists dir, m. repeat split; assumption.
Defined.

(** ** Directories as association lists *)

Lemma lookup_replace {A} (k : string) (a : A) (l : list (string * A)) :
  Fs.lookup k (Fs.replace k a l) =
  match Fs.lookup k l with Some _ => Some a | None => None end.
Proof.
  induction l as [|[k' b] r IH]; simpl; [reflexivity|].
  destruct (String.eqb_spec k' k) as [->|Hne]; simpl.
  - rewrite String.eqb_refl. reflexivity.
  - destruct (String.eqb_spec k' k); [contradiction | exact IH].
Qed.

Lemma lookup_replace_ne {A} (k k' : string) (a : A) (l : list (string * A)) :
  k' <> k -> Fs.lookup k' (Fs.replace k a l) = Fs.lookup k' l.
Proof.
  intros Hne. induction l as [|[k0 b] r IH]; simpl; [reflexivity|].
  destruct (String.eqb_spec k0 k) as [->|H0]; simpl.
  - destruct (String.eqb_spec k k'); [congruence | reflexivity].
  - rewrite IH. reflexivity.
Qed.

Lemma lookup_insert_eq {A} (k : string) (a : A) (l : list (string * A)) :
  Fs.lookup k l = None -> Fs.lookup k (Fs.insert k a l) = Some a.
Proof.
  induction l as [|[k' b] r IH]; simpl.
  - rewrite String.eqb_refl. reflexivity.
  - destruct (String.eqb_spec k' k) as [->|Hne]; [discriminate|]. intros H.
    destruct (k <? k'); simpl.
    + rewrite String.eqb_refl. reflexivity.
    + destruct (String.eqb_spec k' k); [contradiction | exact (IH H)].
Qed.

Lemma lookup_insert_ne {A} (k k' : string) (a : A) (l : list (string * A)) :
  k' <> k -> Fs.lookup k' (Fs.insert k a l) = Fs.lookup k' l.
Proof.
  intros Hne. induction l as [|[k0 b] r IH]; simpl.
  - destruct (String.eqb_spec k k'); [congruence | reflexivity].
  - destruct (k <? k0); simpl.
    + destruct (String.eqb_spec k k'); [congruence | reflexivity].
    + rewrite IH. reflexivity.
Qed.

Lemma lookup_upsert_eq {A} (k : string) (a : A) (l : list (string * A)) :
  Fs.lookup k (Fs.upsert k a l) = Some a.
Proof.
  unfold Fs.upsert. destruct (Fs.lookup k l) as [b|] eqn:E.
  - rewrite lookup_replace, E. reflexivity.
  - apply lookup_insert_eq, E.
Qed.

Lemma lookup_upsert_ne {A} (k k' : string) (a : A) (l : list (string * A)) :
  k' <> k -> Fs.lookup k' (Fs.upsert k a l) = Fs.lookup k' l.
Proof.
  intros Hne. unfold Fs.upsert. destruct (Fs.lookup k l).
  - apply lookup_replace_ne, Hne.
  - apply lookup_insert_ne, Hne.
Qed.

Lemma lookup_remove_eq {A} (k : string) (l : list (string * A)) :
  Fs.lookup k (Fs.remove k l) = None.
Proof.
  unfold Fs.remove. induction l as [|[k' b] r IH]; simpl; [reflexivity|].
  destruct (String.eqb_spec k' k); simpl; [exact IH|].
  destruct (String.eqb_spec k' k); [contradiction | exact IH].
Qed.

Lemma lookup_remove_ne {A} (k k' : string) (l : list (string * A)) :
  k' <> k -> Fs.lookup k' (Fs.remove k l) = Fs.lookup k' l.
Proof.
  intros Hne. unfold Fs.remove. induction l as [|[k0 b] r IH]; simpl; [reflexivity|].
  destruct (String.eqb_spec k0 k) as [->|H0]; simpl.
  - destruct (String.eqb_spec k k'); [congruence | exact IH].
  - rewrite IH. reflexivity.
Qed.

Lemma replace_replace {A} (k : string) (a b : A) (l : list (string * A)) :
  Fs.replace k a (Fs.replace k b l) = Fs.replace k a l.
Proof.
  induction l as [|[k' c] r IH]; simpl; [reflexivity|].
  destruct (String.eqb_spec k' k) as [->|Hne]; simpl.
  - rewrite String.eqb_refl. reflexivity.
  - destruct (String.eqb_spec k' k); [contradiction|]. rewrite IH. reflexivity.
Qed.

Lemma replace_insert {A} (k : string) (a b : A) (l : list (string * A)) :
  Fs.lookup k l = None -> Fs.replace k a (Fs.insert k b l) = Fs.insert k a l.
Proof.
  induction l as [|[k' c] r IH]; simpl.
  - rewrite String.eqb_refl. reflexivity.
  - destruct (String.eqb_spec k' k) as [->|Hne]; [discriminate|]. intros H.
    destruct (k <? k'); simpl.
    + rewrite String.eqb_refl. reflexivity.
    + destruct (String.eqb_spec k' k); [contradiction|]. rewrite (IH H). reflexivity.
Qed.

Lemma upsert_upsert {A} (k : string) (a b : A) (l : list (string * A)) :
  Fs.upsert k a (Fs.upsert k b l) = Fs.upsert k a l.
Proof.
  unfold Fs.upsert at 1. rewrite lookup_upsert_eq. unfold Fs.upsert.
  destruct (Fs.lookup k l) eqn:E.
  - apply replace_replace.
  - apply replace_insert, E.
Qed.

Lemma remove_replace {A} (k : string) (a : A) (l : list (string * A)) :
  Fs.remove k (Fs.replace k a l) = Fs.remove k l.
Proof.
  unfold Fs.remove. induction l as [|[k' c] r IH]; simpl; [reflexivity|].
  destruct (String.eqb_spec k' k) as [->|Hne]; simpl.
  - rewrite String.eqb_refl. reflexivity.
  - destruct (String.eqb_spec k' k); [contradiction|]. simpl. rewrite IH. reflexivity.
Qed.

Lemma remove_insert {A} (k : string) (a : A) (l : list (string * A)) :
  Fs.remove k (Fs.insert k a l) = Fs.remove k l.
Proof.
  unfold Fs.remove. induction l as [|[k' c] r IH]; simpl.
  - rewrite String.eqb_refl. reflexivity.
  - destruct (k <? k'); simpl.
    + rewrite String.eqb_refl. reflexivity.
    + rewrite IH. reflexivity.
Qed.

Lemma remove_upsert {A} (k : string) (a : A) (l : list (string * A)) :
  Fs.lookup k l <> None -> Fs.remove k (Fs.upsert k a l) = Fs.remove k l.
Proof.
  intros _. unfold Fs.upsert. destruct (Fs.lookup k l).
  - apply remove_replace.
  - apply remove_insert.
Qed.

Lemma filter_upsert_out {A} (p : string * A -> bool) (k : string) (a : A)
    (l : list (string * A)) :
  (forall b, p (k, b) = false) -> filter p (Fs.upsert k a l) = filter p l.
Proof.
  intros Hp. unfold Fs.upsert. destruct (Fs.lookup k l) as [_|].
  - induction l as [|[k' b] r IH]; simpl; [reflexivity|].
    destruct (String.eqb_spec k' k) as [->|Hne]; simpl.
    + rewrite !Hp. reflexivity.
    + rewrite IH. reflexivity.
  - induction l as [|[k' b] r IH]; simpl.
    + rewrite Hp. reflexivity.
    + destruct (k <? k'); simpl.
      * rewrite Hp. reflexivity.
      * rewrite IH. reflexivity.
Qed.

Lemma upsert_same {A} (k : string) (a : A) (l : list (string * A)) :
  Fs.lookup k l = Some a -> Fs.upsert k a l = l.
Proof.
  intros H. unfold Fs.upsert. rewrite H.
  induction l as [|[k' b] r IH]; simpl in *; [discriminate|].
  destruct (String.eqb_spec k' k) as [->|Hne].
  - injection H as ->. reflexivity.
  - rewrite (IH H). reflexivity.
Qed.

Lemma remove_absent {A} (k : string) (l : list (string * A)) :
  ~ In k (map fst l) -> Fs.remove k l = l.
Proof.
  unfold Fs.remove. induction l as [|[k' c] r IH]; simpl; intros H; [reflexivity|].
  destruct (String.eqb_spec k' k) as [->|Hne]; simpl.
  - exfalso. apply H. left. reflexivity.
  - rewrite IH; [reflexivity|]. intros Hin. apply H. right. exact Hin.
Qed.

Lemma lookup_In {A} (k : string) (a : A) (l : list (string * A)) :
  Fs.lookup k l = Some a -> In (k, a) l.
Proof.
  induction l as [|[k' b] r IH]; simpl; [discriminate|].
  destruct (String.eqb_spec k' k) as [->|Hne].
  - intros H. injection H as ->. left. reflexivity.
  - intros H. right. apply IH, H.
Qed.

Lemma In_lookup {A} (k : string) (a : A) (l : list (string * A)) :
  uniqueNames l -> In (k, a) l -> Fs.lookup k l = Some a.
Proof.
  unfold uniqueNames. induction l as [|[k' b] r IH]; simpl; intros Hu Hin; [contradiction|].
  inversion Hu as [|? ? Hk Hu']; subst.
  destruct (String.eqb_spec k' k) as [->|Hne].
  - destruct Hin as [E|Hin]; [injection E as ->; reflexivity|].
    exfalso. apply Hk. apply (in_map fst) in Hin. exact Hin.
  - destruct Hin as [E|Hin]; [injection E as -> _; contradiction|]. apply IH; assumption.
Qed.

(** ** Deleting one asset *)

(** Run the monadic glue of a handler as far as the state is known. *)
Ltac run :=
  cbv beta iota delta
    [handle bind gets reads ret throw negb
     Fs.existsDir Fs.readdir Fs.setDir];
  cbn [Fs.rootOf].

Ltac run_with H := repeat (progress (run; rewrite ?H)).

(** C2. When the asset that delete-asset locates has no delete password
    configured, the operation answers Forbidden (403) for every supplied
    password and leaves the store as it was: record and media files stay
    on disk.  Whatever the request carries, it does not succeed on such
    an asset. *)
Theorem deletePhoto_without_delete_password (rt : Runtime) (root : list (string * Node))
    (s dir file : string) (m : LivePhotoMetadata.t) :
  findAsset s (galleryDirs root) = Ok (Some (dir, file, m)) ->
  Js.truthy (galleryDeletePassword m) = false ->
  (forall pw, pw <> "" ->
     Forbidden (fst (deletePhoto rt s (Some pw) (Some root))) /\
     snd (deletePhoto rt s (Some pw) (Some root)) = Some root) /\
  (forall password,
     status (fst (deletePhoto rt s password (Some root))) <> 200 /\
     snd (deletePhoto rt s password (Some root)) = Some root).
Proof.
  intros Hfind Hdp.
  assert (Hsupplied : forall pw, pw <> "" ->
            deletePhoto rt s (Some pw) (Some root) =
            (statusJson 403
               (ErrorBody "Photo does not have a delete password configured" false),
             Some root)).
  { intros pw Hpw. unfold deletePhoto, handle.
    rewrite (truthy_Some pw Hpw). cbn [negb]. unfold bind, gets, reads, ret.
    rewrite Hfind, Hdp. reflexivity. }
  split.
  - intros pw Hpw. rewrite (Hsupplied pw Hpw). split; reflexivity.
  - intros password. destruct (Js.truthy password) eqn:Hp.
    + destruct (truthy_inv password Hp) as [pw [-> Hpw]].
      rewrite (Hsupplied pw Hpw). split; [simpl; discriminate | reflexivity].
    + unfold deletePhoto, handle. rewrite Hp. split; [simpl; discriminate | reflexivity].
Qed.

Lemma deletePhoto_without_delete_password_witness :
  Forbidden (fst (deletePhoto exampleRuntime "abcd1111" (Some "ABC123") (Some exampleRoot))) /\
  snd (deletePhoto exampleRuntime "abcd1111" (Some "ABC123") (Some exampleRoot)) = Some exampleRoot.
Proof.
  apply (proj1 (deletePhoto_without_delete_password exampleRuntime exampleRoot "abcd1111"
                  "trip" "abcd1111_metadata.json"
                  (exampleRecord "abcd1111" (Some "ABC123") None)
                  eq_refl eq_refl)).
  discriminate.
Defined.

(** ** Deleting a gallery *)

Lemma unlinkAll_files (g : string) (files : Listing) (root : list (string * Node)) :
  uniqueNames files ->
  Forall (fun f => exists c, snd f = File c) files ->
  Fs.lookup g root = Some (Directory files) ->
  GalleryRouter.unlinkAll g (map fst files) (Some root) =
  (Ok tt, Some (Fs.upsert g (Directory []) root)).
Proof.
  unfold uniqueNames. revert root.
  induction files as [|[f e] rest IH]; intros root Hu Hf Hg.
  - simpl. unfold ret. rewrite (upsert_same g _ root Hg). reflexivity.
  - inversion Hu as [|? ? Hk Hu']; subst. inversion Hf as [|? ? [c Hc] Hf']; subst.
    simpl in Hc. subst e. cbn [map fst GalleryRouter.unlinkAll].
    unfold bind at 1. unfold Fs.unlinkSync. cbn [Fs.rootOf]. rewrite Hg.
    cbn [Fs.lookup]. rewrite String.eqb_refl.
    unfold Fs.setDir. cbn [Fs.rootOf].
    assert (Hrm : Fs.remove f ((f, File c) :: rest) = rest).
    { unfold Fs.remove. cbn [filter fst]. rewrite String.eqb_refl. cbn [negb].
      apply (remove_absent f rest Hk). }
    rewrite Hrm.
    rewrite (IH (Fs.upsert g (Directory rest) root) Hu' Hf' (lookup_upsert_eq _ _ _)).
    rewrite upsert_upsert. reflexivity.
Qed.

Lemma unlinkAll_ok (g : string) (names : list string) (root : list (string * Node))
    (files : Listing) (store' : Store) :
  Fs.lookup g root = Some (Directory files) ->
  GalleryRouter.unlinkAll g names (Some root) = (Ok tt, store') ->
  exists files', store' = Some (Fs.upsert g (Directory files') root).
Proof.
  revert root files. induction names as [|f rest IH]; intros root files Hg H.
  - simpl in H. unfold ret in H. injection H as <-. exists files.
    rewrite (upsert_same g _ root Hg). reflexivity.
  - cbn [GalleryRouter.unlinkAll] in H. unfold bind at 1 in H.
    unfold Fs.unlinkSync in H. cbn [Fs.rootOf] in H. rewrite Hg in H.
    destruct (Fs.lookup f files) as [[c|]|]; try discriminate.
    unfold Fs.setDir in H. cbn [Fs.rootOf] in H.
    destruct (IH _ _ (lookup_upsert_eq g (Directory (Fs.remove f files)) root) H)
      as [files' ->].
    exists files'. rewrite upsert_upsert. reflexivity.
Qed.

(** C10. delete-gallery compares the caller's password with the delete
    password of the first asset record of the directory only, both
    upper-cased by the platform's [toUpperCase]: when they then agree,
    every file of the directory and the directory itself are removed
    whatever the other records hold; when they differ, the answer is
    Forbidden and nothing is removed, whatever the other records hold.
    The gallery id names one entry of the upload directory. *)
Theorem deleteGallery_checks_first_record (rt : Runtime) (root : list (string * Node))
    (g pw dp file : string) (files rest : Listing) (m : LivePhotoMetadata.t) :
  segment g = true ->
  Fs.lookup g root = Some (Directory files) ->
  metadataFiles files = (file, File (Json m)) :: rest ->
  galleryDeletePassword m = Some dp -> dp <> "" -> pw <> "" ->
  (toUpperCase rt pw = toUpperCase rt dp ->
   uniqueNames files -> Forall (fun f => exists c, snd f = File c) files ->
   GalleryRouter.deleteGallery rt g (Some pw) (Some root) =
   (json (DeletedBody g), Some (Fs.remove g root))) /\
  (toUpperCase rt pw <> toUpperCase rt dp ->
   GalleryRouter.deleteGallery rt g (Some pw) (Some root) =
   (statusJson 403 (ErrorBody "Invalid password" false), Some root)).
Proof.
  intros _ Hg Hm Hdp Hdpne Hpw.
  unfold GalleryRouter.deleteGallery.
  rewrite (truthy_Some pw Hpw), (orElse_Some pw "" Hpw).
  run. rewrite Hg. run. rewrite Hg. run. rewrite Hm. run.
  cbv beta iota delta [readMetadata].
  rewrite Hdp, (truthy_Some dp Hdpne), (orElse_Some dp "" Hdpne).
  run. split.
  - intros Heq Hu Hf. rewrite Heq, String.eqb_refl. run.
    rewrite (unlinkAll_files g files root Hu Hf Hg).
    unfold Fs.rmdirSync. run.
    rewrite lookup_upsert_eq.
    rewrite remove_upsert by (rewrite Hg; discriminate). reflexivity.
  - intros Hdiff. apply String.eqb_neq in Hdiff. rewrite Hdiff. reflexivity.
Qed.

Lemma deleteGallery_checks_first_record_witness :
  GalleryRouter.deleteGallery exampleRuntime "mix" (Some "secret") (Some mixedRoot) =
    (json (DeletedBody "mix"), Some []) /\
  GalleryRouter.deleteGallery exampleRuntime "mix" (Some "Other") (Some mixedRoot) =
    (statusJson 403 (ErrorBody "Invalid password" false), Some mixedRoot).
Proof.
  split.
  - apply (proj1 (deleteGallery_checks_first_record exampleRuntime mixedRoot "mix" "secret" "Secret"
                    "aaaa0001_metadata.json" _ _
                    (exampleRecord "aaaa0001" None (Some "Secret"))
                    eq_refl eq_refl eq_refl eq_refl
                    ltac:(discriminate) ltac:(discriminate))).
    + reflexivity.
    + unfold uniqueNames. simpl. repeat constructor; simpl; intuition discriminate.
    + repeat constructor; simpl; eauto.
  - apply (proj2 (deleteGallery_checks_first_record exampleRuntime mixedRoot "mix" "Other" "Secret"
                    "aaaa0001_metadata.json" _ _
                    (exampleRecord "aaaa0001" None (Some "Secret"))
                    eq_refl eq_refl eq_refl eq_refl
                    ltac:(discriminate) ltac:(discriminate))).
    discriminate.
Defined.

(** C6, as the claim states it, fails on a request without password: it
    is answered 400 although the gallery directory does not exist. *)
Lemma deleteGallery_without_password_counterexample :
  Fs.existsDir "missing" (Some exampleRoot) = false /\
  ValidationError
    (fst (GalleryRouter.deleteGallery exampleRuntime "missing" None (Some exampleRoot))) /\
  ~ NotFound
      (fst (GalleryRouter.deleteGallery exampleRuntime "missing" None (Some exampleRoot))).
Proof.
  split; [reflexivity|]. split; [reflexivity|]. unfold NotFound. simpl. discriminate.
Qed.

(** C6, amended. A request without password is answered 400 before the
    directory is looked at, and changes nothing.  When a password is
    supplied and the gallery id names one entry of the upload directory,
    delete-gallery answers NotFound (404) and changes nothing both when
    the gallery directory does not exist and when it exists but holds no
    metadata file; when it succeeds, the directory with every file in it
    is gone from the upload directory. *)
Theorem deleteGallery_not_found_or_removed (rt : Runtime) (g : string)
    (password : option string) (store : Store) :
  (Js.truthy password = false ->
   ValidationError (fst (GalleryRouter.deleteGallery rt g password store)) /\
   snd (GalleryRouter.deleteGallery rt g password store) = store) /\
  (Js.truthy password = true -> segment g = true ->
   (Fs.existsDir g store = false ->
    NotFound (fst (GalleryRouter.deleteGallery rt g password store)) /\
    snd (GalleryRouter.deleteGallery rt g password store) = store) /\
   (forall files, Fs.readdir g store = Ok files -> metadataFiles files = [] ->
    NotFound (fst (GalleryRouter.deleteGallery rt g password store)) /\
    snd (GalleryRouter.deleteGallery rt g password store) = store) /\
   (status (fst (GalleryRouter.deleteGallery rt g password store)) = 200 ->
    snd (GalleryRouter.deleteGallery rt g password store)
      = Some (Fs.remove g (Fs.rootOf store)) /\
    Fs.existsDir g (snd (GalleryRouter.deleteGallery rt g password store)) = false)).
Proof.
  split.
  { intros Hp. unfold GalleryRouter.deleteGallery, handle. rewrite Hp.
    split; reflexivity. }
  intros Hp _. destruct (truthy_inv password Hp) as [pw [-> Hpw]].
  unfold GalleryRouter.deleteGallery, NotFound.
  rewrite (truthy_Some pw Hpw), (orElse_Some pw "" Hpw).
  split; [|split].
  - unfold Fs.existsDir. intros H.
    destruct (Fs.lookup g (Fs.rootOf store)) eqn:Hg; [discriminate|].
    run_with Hg. split; reflexivity.
  - unfold Fs.readdir. intros files H Hm.
    destruct (Fs.lookup g (Fs.rootOf store)) as [[|files']|] eqn:Hg; try discriminate.
    injection H as ->. run_with Hg. rewrite Hm. split; reflexivity.
  - destruct (Fs.lookup g (Fs.rootOf store)) as [[|files]|] eqn:Hg;
      run_with Hg; try (simpl; discriminate).
    destruct (metadataFiles files) as [|[file e] rest]; run; [simpl; discriminate|].
    destruct (readMetadata e) as [m|]; run; [|simpl; discriminate].
    destruct (Js.truthy (galleryDeletePassword m)); run; [|simpl; discriminate].
    destruct (toUpperCase rt pw =? toUpperCase rt (Js.orElse (galleryDeletePassword m) ""));
      run; [|simpl; discriminate].
    destruct store as [root|]; [|discriminate]. cbn [Fs.rootOf] in Hg.
    destruct (GalleryRouter.unlinkAll g (map fst files) (Some root)) as [[[]|e'] s'] eqn:E;
      [|simpl; discriminate].
    destruct (unlinkAll_ok g _ root files s' Hg E) as [files' ->].
    unfold Fs.rmdirSync. run. rewrite lookup_upsert_eq.
    destruct files' as [|f r]; [|simpl; discriminate].
    intros _. cbn [fst snd]. rewrite remove_upsert by (rewrite Hg; discriminate).
    split; [reflexivity|]. unfold Fs.existsDir. cbn [Fs.rootOf].
    rewrite lookup_remove_eq. reflexivity.
Qed.

Lemma deleteGallery_not_found_or_removed_witness :
  ValidationError
    (fst (GalleryRouter.deleteGallery exampleRuntime "mix" (Some "") (Some mixedRoot))) /\
  NotFound
    (fst (GalleryRouter.deleteGallery exampleRuntime "missing" (Some "Secret")
            (Some exampleRoot))) /\
  NotFound
    (fst (GalleryRouter.deleteGallery exampleRuntime "void" (Some "Secret")
            (Some exampleRoot))) /\
  snd (GalleryRouter.deleteGallery exampleRuntime "mix" (Some "SECRET") (Some mixedRoot))
    = Some [] /\
  Fs.existsDir "mix"
    (snd (GalleryRouter.deleteGallery exampleRuntime "mix" (Some "SECRET") (Some mixedRoot)))
    = false.
Proof.
  split; [|split; [|split]].
  - apply (proj1 (deleteGallery_not_found_or_removed exampleRuntime "mix" (Some "")
                    (Some mixedRoot))).
    reflexivity.
  - apply (proj1 (proj2 (deleteGallery_not_found_or_removed exampleRuntime "missing"
                           (Some "Secret") (Some exampleRoot)) eq_refl eq_refl)).
    reflexivity.
  - apply (proj1 (proj2 (proj2 (deleteGallery_not_found_or_removed exampleRuntime "void"
                                  (Some "Secret") (Some exampleRoot)) eq_refl eq_refl)) []);
      reflexivity.
  - apply (proj2 (proj2 (proj2 (deleteGallery_not_found_or_removed exampleRuntime "mix"
                                  (Some "SECRET") (Some mixedRoot)) eq_refl eq_refl))).
    reflexivity.
Defined.

(** ** A gallery directory without asset records *)

Lemma metadataFiles_nil_cons (file : string) (e : Entry) (rest : Listing) :
  metadataFiles ((file, e) :: rest) = [] ->
  isMetadataFile file = false /\ metadataFiles rest = [].
Proof.
  unfold metadataFiles. simpl. destruct (isMetadataFile file); [discriminate | tauto].
Qed.

Lemma collectFiles_none (dir : string) (files : Listing) :
  metadataFiles files = [] -> collectFiles dir files = Ok [].
Proof.
  induction files as [|[file e] rest IH]; intros H; [reflexivity|].
  apply metadataFiles_nil_cons in H. destruct H as [Hf Hr].
  simpl. rewrite Hf. apply IH, Hr.
Qed.

Lemma findInFiles_none (s : string) (files : Listing) :
  metadataFiles files = [] -> findInFiles s files = Ok None.
Proof.
  induction files as [|[file e] rest IH]; intros H; [reflexivity|].
  apply metadataFiles_nil_cons in H. destruct H as [Hf Hr].
  simpl. rewrite Hf. apply IH, Hr.
Qed.

Lemma galleryDirs_remove (g : string) (root : list (string * Node)) :
  galleryDirs (Fs.remove g root) = Fs.remove g (galleryDirs root).
Proof. unfold galleryDirs, Fs.remove. apply filter_comm. Qed.

Lemma collect_skip (g : string) (files : Listing) (dirs : list (string * Node)) :
  metadataFiles files = [] ->
  (forall n, In (g, n) dirs -> n = Directory files) ->
  collect (Fs.remove g dirs) = collect dirs.
Proof.
  intros Hm. induction dirs as [|[k n] rest IH]; intros Hg; [reflexivity|].
  unfold Fs.remove in *. cbn [filter fst].
  assert (IH' : collect (filter (fun e => negb (fst e =? g)) rest) = collect rest).
  { apply IH. intros n' Hin. apply Hg. right. exact Hin. }
  destruct (String.eqb_spec k g) as [->|Hne]; cbn [negb].
  - rewrite (Hg n (or_introl eq_refl)). cbn [collect readdirSync bindR].
    rewrite (collectFiles_none g files Hm). cbn [bindR]. rewrite IH'.
    destruct (collect rest); reflexivity.
  - cbn [collect]. rewrite IH'. reflexivity.
Qed.

Lemma findAsset_skip (s g : string) (files : Listing) (dirs : list (string * Node)) :
  metadataFiles files = [] ->
  (forall n, In (g, n) dirs -> n = Directory files) ->
  findAsset s (Fs.remove g dirs) = findAsset s dirs.
Proof.
  intros Hm. induction dirs as [|[k n] rest IH]; intros Hg; [reflexivity|].
  unfold Fs.remove in *. cbn [filter fst].
  assert (IH' : findAsset s (filter (fun e => negb (fst e =? g)) rest) = findAsset s rest).
  { apply IH. intros n' Hin. apply Hg. right. exact Hin. }
  destruct (String.eqb_spec k g) as [->|Hne]; cbn [negb].
  - rewrite (Hg n (or_introl eq_refl)). cbn [findAsset readdirSync bindR].
    rewrite (findInFiles_none s files Hm). cbn [bindR]. exact IH'.
  - cbn [findAsset]. rewrite IH'. reflexivity.
Qed.

Lemma galleryInfos_In (rt : Runtime) (dirs : list (string * Node))
    (gs : list GalleryInfo.t) (d : string) (n : Node) :
  galleryInfos rt dirs = Ok gs -> In (d, n) dirs ->
  exists info, galleryInfo rt d n = Ok info /\ In info gs.
Proof.
  revert gs. induction dirs as [|[k n'] rest IH]; intros gs H Hin; [contradiction|].
  cbn [galleryInfos] in H.
  destruct (galleryInfo rt k n') as [info|] eqn:E; cbn [bindR] in H; [|discriminate].
  destruct (galleryInfos rt rest) as [gs'|]; cbn [bindR] in H; [|discriminate].
  injection H as <-. destruct Hin as [Heq|Hin].
  - injection Heq as <- <-. exists info. split; [assumption | left; reflexivity].
  - destruct (IH gs' eq_refl Hin) as [info' [H1 H2]].
    exists info'. split; [assumption | right; assumption].
Qed.

Lemma unique_node {A} (k : string) (a b : A) (l : list (string * A)) :
  uniqueNames l -> In (k, a) l -> In (k, b) l -> b = a.
Proof.
  intros Hu Ha Hb. apply (In_lookup k a l Hu) in Ha. apply (In_lookup k b l Hu) in Hb.
  congruence.
Qed.

(** C7, as the claim states it, fails on the galleries listing: a
    directory without any asset record is listed, with photo count 0,
    where a nonexistent gallery is not. *)
Lemma empty_gallery_is_listed_counterexample :
  recordsOf [] = [] /\
  listGalleries exampleRuntime (Some [("void", Directory [])]) =
    json (GalleriesBody [GalleryInfo.mk "void" "void" 0 "1970-01-01T00:00:00.000Z"] 1) /\
  listGalleries exampleRuntime (Some []) = json (GalleriesBody [] 0).
Proof. repeat split. Qed.

(** C7, amended. A gallery directory without asset records is shown by
    the galleries listing, under its directory name, with photo count 0
    and the epoch as last update.  For the asset reads it is
    indistinguishable from a nonexistent gallery: the listing filtered
    to it is the empty list, as for a gallery id that names nothing, and
    the unfiltered listing and get-asset-by-id answer as they do with
    the directory removed. *)
Theorem empty_gallery_reads (rt : Runtime) (root : list (string * Node))
    (g : string) (files : Listing) :
  uniqueNames root -> In (g, Directory files) root ->
  g <> ".temp" -> g <> "" -> metadataFiles files = [] ->
  (forall gs n, listGalleries rt (Some root) = json (GalleriesBody gs n) ->
                In (GalleryInfo.mk g g 0 epochISO) gs) /\
  (forall p, listPhotos rt (Some root) (Some g) p = json (PhotosBody [] 0)) /\
  (forall p g', g' <> "" -> ~ In g' (map fst root) ->
                listPhotos rt (Some root) (Some g') p = json (PhotosBody [] 0)) /\
  (forall p, listPhotos rt (Some root) None p =
             listPhotos rt (Some (Fs.remove g root)) None p) /\
  (forall s, getPhoto (Some root) s = getPhoto (Some (Fs.remove g root)) s).
Proof.
  intros Hu Hin Hn Hg Hm.
  assert (Hdirs : forall n, In (g, n) (galleryDirs root) -> n = Directory files).
  { intros n H. apply galleryDirs_In in H. destruct H as [H _].
    apply (unique_node g (Directory files) n root Hu Hin H). }
  split; [|split; [|split; [|split]]].
  - intros gs n H. unfold listGalleries in H.
    destruct (galleryInfos rt (galleryDirs root)) as [gs'|] eqn:E;
      cbn [bindR catch500] in H; [|discriminate].
    injection H as <- _. apply sortBy_In.
    assert (Hd : In (g, Directory files) (galleryDirs root)).
    { apply galleryDirs_In. simpl. eauto. }
    destruct (galleryInfos_In rt _ gs' g _ E Hd) as [info [Hi Hgs]].
    unfold galleryInfo in Hi. cbn [readdirSync bindR] in Hi. rewrite Hm in Hi.
    injection Hi as <-. exact Hgs.
  - intros p. unfold listPhotos.
    rewrite (truthy_Some g Hg), (orElse_Some g "" Hg).
    rewrite (galleryDirs_named root g files Hu Hin Hn).
    cbn [checkViewPassword readdirSync bindR]. rewrite Hm.
    cbn [bindR collect readdirSync]. rewrite (collectFiles_none g files Hm).
    reflexivity.
  - intros p g' Hg' Hno. unfold listPhotos.
    rewrite (truthy_Some g' Hg'), (orElse_Some g' "" Hg').
    unfold galleryDirs. rewrite filter_comm, (filter_name_absent g' root Hno).
    reflexivity.
  - intros p. rewrite !(truthy_false_listing rt _ None p eq_refl).
    rewrite galleryDirs_remove, (collect_skip g files _ Hm Hdirs). reflexivity.
  - intros s. unfold getPhoto.
    rewrite galleryDirs_remove, (findAsset_skip s g files _ Hm Hdirs). reflexivity.
Qed.

Lemma empty_gallery_reads_witness :
  In (GalleryInfo.mk "void" "void" 0 epochISO)
     match body (listGalleries exampleRuntime (Some exampleRoot)) with
     | GalleriesBody gs _ => gs
     | _ => []
     end /\
  listPhotos exampleRuntime (Some exampleRoot) (Some "void") None = json (PhotosBody [] 0) /\
  listPhotos exampleRuntime (Some exampleRoot) (Some "nowhere") None = json (PhotosBody [] 0) /\
  getPhoto (Some exampleRoot) "abcd" = getPhoto (Some (Fs.remove "void" exampleRoot)) "abcd".
Proof.
  assert (Hu : uniqueNames exampleRoot).
  { unfold uniqueNames. simpl. repeat constructor; simpl; intuition discriminate. }
  assert (Hin : In ("void", Directory []) exampleRoot).
  { right. right. left. reflexivity. }
  destruct (empty_gallery_reads exampleRuntime exampleRoot "void" [] Hu Hin
              ltac:(discriminate) ltac:(discriminate) eq_refl)
    as [H1 [H2 [H3 [_ H5]]]].
  split; [|split; [|split]].
  - apply (H1 _ 2). reflexivity.
  - apply H2.
  - apply H3; [discriminate|]. simpl. intuition discriminate.
  - apply H5.
Defined.

(** ** Uploading *)

Import UploadRouter.

Lemma onlyFiles_upsert (G : Listing) (b : string) (c : Content) :
  onlyFiles G -> onlyFiles (Fs.upsert b (File c) G).
Proof.
  intros H k. destruct (String.eqb_spec k b) as [->|Hne].
  - rewrite lookup_upsert_eq. discriminate.
  - rewrite lookup_upsert_ne by assumption. apply H.
Qed.

Lemma onlyFiles_remove (G : Listing) (b : string) :
  onlyFiles G -> onlyFiles (Fs.remove b G).
Proof.
  intros H k. destruct (String.eqb_spec k b) as [->|Hne].
  - rewrite lookup_remove_eq. discriminate.
  - rewrite lookup_remove_ne by assumption. apply H.
Qed.

Lemma onlyFiles_nil : onlyFiles [].
Proof. intros k. discriminate. Qed.

Lemma writeFileSync_run (dir b : string) (c : Content) (root : list (string * Node))
    (files : Listing) :
  Fs.lookup dir root = Some (Directory files) ->
  Fs.lookup b files <> Some SubDir ->
  Fs.writeFileSync dir b c (Some root) =
  (Ok tt, Some (Fs.upsert dir (Directory (Fs.upsert b (File c) files)) root)).
Proof.
  intros Hd Hb. unfold Fs.writeFileSync. cbn [Fs.rootOf]. rewrite Hd.
  destruct (Fs.lookup b files) as [[c'|]|]; try reflexivity. congruence.
Qed.

Lemma unlinkSync_run (dir b : string) (c : Content) (root : list (string * Node))
    (files : Listing) :
  Fs.lookup dir root = Some (Directory files) ->
  Fs.lookup b files = Some (File c) ->
  Fs.unlinkSync dir b (Some root) =
  (Ok tt, Some (Fs.upsert dir (Directory (Fs.remove b files)) root)).
Proof.
  intros Hd Hb. unfold Fs.unlinkSync. cbn [Fs.rootOf]. rewrite Hd, Hb. reflexivity.
Qed.

Section DiskSteps.

Variables (g : string) (root : list (string * Node)) (G T : Listing).
Hypothesis Hg : g <> tempDir.
Hypothesis Hdirs : twoDirs root g G T.

Lemma write_gallery (b : string) (c : Content) :
  Fs.lookup b G <> Some SubDir ->
  exists root',
    Fs.writeFileSync g b c (Some root) = (Ok tt, Some root') /\
    twoDirs root' g (Fs.upsert b (File c) G) T.
Proof.
  destruct Hdirs as [H1 H2]. intros Hb.
  exists (Fs.upsert g (Directory (Fs.upsert b (File c) G)) root). split.
  - apply writeFileSync_run; assumption.
  - split; [apply lookup_upsert_eq|].
    rewrite lookup_upsert_ne by (intros E; apply Hg; symmetry; exact E). exact H2.
Qed.

Lemma unlink_gallery (b : string) (c : Content) :
  Fs.lookup b G = Some (File c) ->
  exists root',
    Fs.unlinkSync g b (Some root) = (Ok tt, Some root') /\
    twoDirs root' g (Fs.remove b G) T.
Proof.
  destruct Hdirs as [H1 H2]. intros Hb.
  exists (Fs.upsert g (Directory (Fs.remove b G)) root). split.
  - apply (unlinkSync_run g b c); assumption.
  - split; [apply lookup_upsert_eq|].
    rewrite lookup_upsert_ne by (intros E; apply Hg; symmetry; exact E). exact H2.
Qed.

Lemma stat_gallery (rt : Runtime) (b : string) (c : Content) :
  Fs.lookup b G = Some (File c) ->
  statSize rt g b (Some root) = (Ok (N.of_nat (List.length (bytesOf rt c))), Some root).
Proof.
  destruct Hdirs as [H1 H2]. intros Hb.
  unfold statSize, Fs.readFile. run. rewrite H1, Hb. reflexivity.
Qed.

Lemma rename_from_temp (a b : string) (c : Content) :
  Fs.lookup a T = Some (File c) ->
  Fs.lookup b G <> Some SubDir ->
  exists root',
    Fs.renameSync tempDir a g b (Some root) = (Ok tt, Some root') /\
    twoDirs root' g (Fs.upsert b (File c) G) (Fs.remove a T).
Proof.
  destruct Hdirs as [H1 H2]. intros Ha Hb.
  exists (Fs.upsert tempDir (Directory (Fs.remove a T))
            (Fs.upsert g (Directory (Fs.upsert b (File c) G)) root)).
  assert (Hne : (tempDir =? g) = false).
  { apply String.eqb_neq. intros E. apply Hg. symmetry. exact E. }
  split.
  - unfold Fs.renameSync, Fs.readFile. run. rewrite H2, Ha, Hne. cbn [andb]. run.
    rewrite (writeFileSync_run g b c root G H1 Hb).
    rewrite (unlinkSync_run tempDir a c _ T); [reflexivity | | exact Ha].
    rewrite lookup_upsert_ne by (intros E; apply Hg; symmetry; exact E). exact H2.
  - split.
    + rewrite lookup_upsert_ne by exact Hg. apply lookup_upsert_eq.
    + apply lookup_upsert_eq.
Qed.

End DiskSteps.

(** *** The names of the stored files *)

Lemma length_append (a b : string) :
  String.length (a ++ b) = String.length a + String.length b.
Proof. induction a; simpl; congruence. Qed.

Lemma append_inj_l (a x y : string) : a ++ x = a ++ y -> x = y.
Proof. induction a; simpl; intros H; [exact H | injection H; auto]. Qed.

Lemma append_assoc (a b c : string) : (a ++ b) ++ c = a ++ (b ++ c).
Proof. induction a; simpl; congruence. Qed.

Lemma substring_0_append (a s : string) (k : nat) :
  substring 0 (String.length a + k) (a ++ s) = a ++ substring 0 k s.
Proof. induction a; simpl; congruence. Qed.

Lemma substring_0_all (s : string) : substring 0 (String.length s) s = s.
Proof. induction s; simpl; congruence. Qed.

Lemma substring_skip_append (a s : string) (k : nat) :
  substring (String.length a) k (a ++ s) = substring 0 k s.
Proof. induction a; simpl; [reflexivity | assumption]. Qed.

Lemma length_substring_0 (s : string) (n : nat) :
  n <= String.length s -> String.length (substring 0 n s) = n.
Proof.
  revert n. induction s as [|c r IH]; intros [|n] H; simpl in *; try lia.
  rewrite IH; lia.
Qed.

Lemma endsWith_append (x s : string) : Js.endsWith (x ++ s) s = true.
Proof.
  unfold Js.endsWith. rewrite length_append.
  replace (String.length x + String.length s - String.length s) with (String.length x) by lia.
  rewrite substring_skip_append, substring_0_all, String.eqb_refl.
  replace (String.length s <=? String.length x + String.length s)%nat with true
    by (symmetry; apply Nat.leb_le; lia).
  reflexivity.
Qed.

Lemma endsWith_length (s suffix : string) :
  Js.endsWith s suffix = true -> String.length suffix <= String.length s.
Proof.
  unfold Js.endsWith. intros H. apply andb_true_iff in H. destruct H as [H _].
  apply Nat.leb_le in H. exact H.
Qed.

Section StoredNames.

Variables (a photoExt videoExt : string).

Let photoName : string := a ++ "_photo" ++ photoExt.
Let videoName : string := a ++ "_video" ++ videoExt.
Let metadataName : string := a ++ "_metadata.json".

Lemma photo_not_video : photoName <> videoName.
Proof. intros H. apply append_inj_l in H. discriminate. Qed.

Lemma photo_not_metadata : photoName <> metadataName.
Proof. intros H. apply append_inj_l in H. discriminate. Qed.

Lemma video_not_metadata : videoName <> metadataName.
Proof. intros H. apply append_inj_l in H. discriminate. Qed.

Hypothesis Hheic : Js.endsWith (Js.toLowerCase photoName) ".heic" = true.

Lemma jpeg_name : replaceHeic photoName = substring 0 (String.length photoName - 5) photoName ++ ".jpg".
Proof. unfold replaceHeic. rewrite Hheic. reflexivity. Qed.

Lemma jpeg_ends_with_jpg : Js.endsWith (replaceHeic photoName) ".jpg" = true.
Proof. rewrite jpeg_name. apply endsWith_append. Qed.

Lemma jpeg_shape :
  exists c r, replaceHeic photoName = a ++ String "_" (String c r) /\
              (c = "p"%char \/ c = "."%char).
Proof.
  rewrite jpeg_name. unfold photoName.
  replace (String.length (a ++ "_photo" ++ photoExt) - 5)
    with (String.length a + S (String.length photoExt))
    by (rewrite !length_append; simpl; lia).
  rewrite substring_0_append, append_assoc.
  destruct photoExt as [|c e].
  - exists "."%char, "jpg". split; [reflexivity | right; reflexivity].
  - simpl. eexists "p"%char, _. split; [reflexivity | left; reflexivity].
Qed.

Lemma jpeg_not_photo : replaceHeic photoName <> photoName.
Proof.
  intros H. apply (f_equal String.length) in H. rewrite jpeg_name in H.
  apply endsWith_length in Hheic. unfold Js.toLowerCase in Hheic.
  rewrite mapChars_length in Hheic. simpl in Hheic.
  rewrite length_append, length_substring_0 in H by lia. simpl in H. lia.
Qed.

Lemma jpeg_not_video : replaceHeic photoName <> videoName.
Proof.
  destruct jpeg_shape as [c [r [-> Hc]]]. intros H. apply append_inj_l in H.
  destruct Hc as [-> | ->]; discriminate.
Qed.

Lemma jpeg_not_metadata : replaceHeic photoName <> metadataName.
Proof.
  destruct jpeg_shape as [c [r [-> Hc]]]. intros H. apply append_inj_l in H.
  destruct Hc as [-> | ->]; discriminate.
Qed.

End StoredNames.

(** *** Placing the photo *)

Ltac runW :=
  cbv beta iota zeta delta
    [handle bind gets reads ret throw negb onDisk tryCatch
     disk uuids ticks fst snd
     Fs.existsDir Fs.readdir Fs.setDir];
  cbn [Fs.rootOf].

Section PlacePhoto.

Variables (rt : Runtime) (g a : string) (pf : MulterFile).
Variables (root : list (string * Node)) (G T : Listing) (cp : Content).

Local Abbreviation P := (a ++ "_photo" ++ extname (originalname pf)).

Hypothesis Hg : g <> tempDir.
Hypothesis Hdirs : twoDirs root g G T.
Hypothesis HG : onlyFiles G.
Hypothesis Hp : Fs.lookup (filename pf) T = Some (File cp).
Hypothesis Hheic : Js.endsWith (Js.toLowerCase P) ".heic" = true.

Lemma placePhoto_converted (out : list byte) :
  heicConvert rt (bytesOf rt cp) = Some out ->
  exists root',
    placePhoto rt g a pf (Some root) =
      (Ok (replaceHeic P, N.of_nat (List.length out)), Some root') /\
    twoDirs root' g
      (Fs.remove P (Fs.upsert (replaceHeic P) (File (Media out)) (Fs.upsert P (File cp) G)))
      (Fs.remove (filename pf) T).
Proof.
  intros Hconv.
  destruct (rename_from_temp g root G T Hg Hdirs (filename pf) P cp Hp (HG P))
    as [root1 [E1 D1]].
  assert (HG1 : onlyFiles (Fs.upsert P (File cp) G)) by (apply onlyFiles_upsert, HG).
  destruct (write_gallery g root1 _ _ Hg D1 (replaceHeic P) (Media out) (HG1 _))
    as [root2 [E2 D2]].
  assert (HP2 : Fs.lookup P (Fs.upsert (replaceHeic P) (File (Media out))
                               (Fs.upsert P (File cp) G)) = Some (File cp)).
  { rewrite lookup_upsert_ne.
    - apply lookup_upsert_eq.
    - intros E. apply (jpeg_not_photo a (extname (originalname pf)) Hheic). symmetry. exact E. }
  destruct (unlink_gallery g root2 _ _ Hg D2 P cp HP2) as [root3 [E3 D3]].
  exists root3. split; [|exact D3].
  unfold placePhoto. runW. rewrite E1.
  rewrite (stat_gallery g root1 _ _ D1 rt P cp (lookup_upsert_eq _ _ _)).
  unfold convertIfHeic. rewrite Hheic. runW.
  unfold convertHeicToJpeg, Fs.readFile. runW.
  rewrite (proj1 D1), lookup_upsert_eq, Hconv. rewrite E2, E3.
  rewrite (stat_gallery g root3 _ _ D3 rt (replaceHeic P) (Media out)); [reflexivity|].
  rewrite lookup_remove_ne by (apply (jpeg_not_photo a (extname (originalname pf)) Hheic)).
  apply lookup_upsert_eq.
Qed.

Lemma placePhoto_kept :
  heicConvert rt (bytesOf rt cp) = None ->
  exists root',
    placePhoto rt g a pf (Some root) =
      (Ok (P, N.of_nat (List.length (bytesOf rt cp))), Some root') /\
    twoDirs root' g (Fs.upsert P (File cp) G) (Fs.remove (filename pf) T).
Proof.
  intros Hconv.
  destruct (rename_from_temp g root G T Hg Hdirs (filename pf) P cp Hp (HG P))
    as [root1 [E1 D1]].
  exists root1. split; [|exact D1].
  unfold placePhoto. runW. rewrite E1.
  rewrite (stat_gallery g root1 _ _ D1 rt P cp (lookup_upsert_eq _ _ _)).
  unfold convertIfHeic. rewrite Hheic. runW.
  unfold convertHeicToJpeg, Fs.readFile. runW.
  rewrite (proj1 D1), lookup_upsert_eq, Hconv. reflexivity.
Qed.

End PlacePhoto.

(** *** The whole upload *)

Lemma deriveAssetId_run (rt : Runtime) (req : Request) (w : World) :
  exists n, deriveAssetId rt req w = (Ok (assetIdOf rt req w), mkWorld (disk w) n (ticks w)).
Proof.
  unfold deriveAssetId, assetIdOf.
  destruct (Js.truthy (option_map (substring 0 8) (id (body req)))).
  - exists (uuids w). destruct w. reflexivity.
  - exists (S (uuids w)). reflexivity.
Qed.

Lemma buildMetadata_run (rt : Runtime) (req : Request) (vf : MulterFile)
    (g name fn : string) (fs : N) (vn : string) (w : World) :
  exists m u t,
    buildMetadata rt req vf g name fn fs vn w = (Ok m, mkWorld (disk w) u t) /\
    photoFile m = fn /\ photoSize m = fs /\ videoFile m = vn /\
    LivePhotoMetadata.id m =
      (if Js.truthy (id (body req)) then Js.orElse (id (body req)) ""
       else uuidv4 rt (uuids w)).
Proof.
  unfold buildMetadata.
  destruct (Js.truthy (id (body req))), (Js.truthy (creation_date (body req)));
    eexists _, _, _; (split; [reflexivity|]); repeat split; reflexivity.
Qed.

Section UploadRun.

Variables (rt : Runtime) (req : Request) (w : World) (pf vf : MulterFile).
Variables (root : list (string * Node)) (T : Listing) (cp cv : Content).

Local Abbreviation g := (Js.orElse (gallery_id (body req)) "default").
Local Abbreviation a := (assetIdOf rt req w).
Local Abbreviation V := (assetIdOf rt req w ++ "_video" ++ extname (originalname vf)).
Local Abbreviation M := (assetIdOf rt req w ++ "_metadata.json").

Hypothesis Hphoto : photo req = Some pf.
Hypothesis Hvideo : video req = Some vf.
Hypothesis Hdisk : disk w = Some root.
Hypothesis Htemp : Fs.lookup tempDir root = Some (Directory T).
Hypothesis Hp : Fs.lookup (filename pf) T = Some (File cp).
Hypothesis Hv : Fs.lookup (filename vf) T = Some (File cv).
Hypothesis Hpv : filename pf <> filename vf.
Hypothesis Hg : g <> tempDir.
Hypothesis Hgallery :
  forall n, Fs.lookup g root = Some n -> exists G, n = Directory G /\ onlyFiles G.

(** Whatever placing the photo does to the gallery listing ([after]),
    the rest of the handler adds the video and the record and answers 201. *)
Lemma upload_finish (fn : string) (fs : N) (after : Listing -> Listing) :
  (forall root1 G0,
      twoDirs root1 g G0 T -> onlyFiles G0 ->
      (Fs.lookup g root = None -> G0 = []) ->
      (forall G, Fs.lookup g root = Some (Directory G) -> G0 = G) ->
      exists root2,
        placePhoto rt g a pf (Some root1) = (Ok (fn, fs), Some root2) /\
        twoDirs root2 g (after G0) (Fs.remove (filename pf) T)) ->
  (forall G0, onlyFiles G0 -> onlyFiles (after G0)) ->
  exists m G0 root',
    status (fst (upload rt req w)) = 201 /\
    disk (snd (upload rt req w)) = Some root' /\
    twoDirs root' g
      (Fs.upsert M (File (Json m)) (Fs.upsert V (File cv) (after G0)))
      (Fs.remove (filename vf) (Fs.remove (filename pf) T)) /\
    (Fs.lookup g root = None -> G0 = []) /\
    (forall G, Fs.lookup g root = Some (Directory G) -> G0 = G) /\
    photoFile m = fn /\ photoSize m = fs /\ videoFile m = V.
Proof.
  intros Hplace Hafter.
  destruct (deriveAssetId_run rt req w) as [n Ea].
  (* the gallery directory, created when absent *)
  assert (Hdir : exists root1 G0,
             (if Fs.existsDir g (Some root) then ret tt else onDisk (Fs.mkdirSync g))
               (mkWorld (Some root) n (ticks w))
             = (Ok tt, mkWorld (Some root1) n (ticks w)) /\
             twoDirs root1 g G0 T /\ onlyFiles G0 /\
             (Fs.lookup g root = None -> G0 = []) /\
             (forall G, Fs.lookup g root = Some (Directory G) -> G0 = G)).
  { unfold Fs.existsDir, Fs.mkdirSync, onDisk, ret. cbn [Fs.rootOf disk uuids ticks].
    destruct (Fs.lookup g root) as [nd|] eqn:El.
    - destruct (Hgallery nd eq_refl) as [G0 [-> HG0]].
      exists root, G0.
      split; [reflexivity|]. split; [split; [exact El | exact Htemp]|].
      split; [exact HG0|]. split; [discriminate|].
      intros G E. injection E as <-. reflexivity.
    - exists (Fs.insert g (Directory []) root), [].
      split; [cbv beta iota; cbn [disk uuids ticks Fs.rootOf]; rewrite El; reflexivity|].
      split; [split|].
      + apply lookup_insert_eq, El.
      + rewrite lookup_insert_ne; [exact Htemp | intros E; apply Hg; symmetry; exact E].
      + split; [apply onlyFiles_nil|]. split; [reflexivity | discriminate]. }
  destruct Hdir as [root1 [G0 [Edir [D1 [HG0 [Hnone Hsome]]]]]].
  destruct (Hplace root1 G0 D1 HG0 Hnone Hsome) as [root2 [Ep D2]].
  assert (HGa : onlyFiles (after G0)) by (apply Hafter, HG0).
  assert (Hv' : Fs.lookup (filename vf) (Fs.remove (filename pf) T) = Some (File cv)).
  { rewrite lookup_remove_ne by (intros E; apply Hpv; symmetry; exact E). exact Hv. }
  destruct (rename_from_temp g root2 _ _ Hg D2 (filename vf) V cv Hv' (HGa V))
    as [root3 [Ev D3]].
  destruct (buildMetadata_run rt req vf g
              (Js.orElse (gallery_name (body req)) "Default Gallery")
              fn fs V (mkWorld (Some root3) n (ticks w)))
    as [m [u [t [Em [Hm1 [Hm2 [Hm3 _]]]]]]].
  assert (HG3 : onlyFiles (Fs.upsert V (File cv) (after G0)))
    by (apply onlyFiles_upsert, HGa).
  destruct (write_gallery g root3 _ _ Hg D3 M (Json m) (HG3 M)) as [root4 [Ew D4]].
  exists m, G0, root4.
  assert (Erun : upload rt req w =
                 (statusJson 201
                    (UploadedBody (LivePhotoMetadata.id m) g
                       ("/files/" ++ g ++ "/" ++ fn)
                       ("/files/" ++ g ++ "/" ++ V)
                       ("/files/" ++ g ++ "/" ++ M)),
                  mkWorld (Some root4) u t)).
  { unfold upload. rewrite (files_both _ _ _ Hphoto Hvideo). unfold handle.
    unfold bind at 1. rewrite Ea. cbv beta iota.
    unfold bind at 1. unfold gets at 1. cbn [disk]. rewrite Hdisk. cbv beta iota.
    unfold bind at 1. rewrite Edir. cbv beta iota.
    unfold bind at 1. unfold onDisk at 1. cbn [disk uuids ticks]. rewrite Ep.
    cbv beta iota.
    unfold bind at 1. unfold onDisk at 1. unfold placeVideo.
    cbn [disk uuids ticks]. unfold bind at 1. rewrite Ev. unfold ret at 1.
    cbv beta iota.
    unfold bind at 1. cbn [fst snd]. rewrite Em. cbv beta iota.
    unfold bind at 1. unfold onDisk at 1. cbn [disk uuids ticks]. rewrite Ew.
    reflexivity. }
  rewrite Erun. cbn [fst snd status statusJson disk].
  split; [reflexivity|]. split; [reflexivity|]. split; [exact D4|].
  split; [exact Hnone|]. split; [exact Hsome|]. split; [exact Hm1|].
  split; [exact Hm2 | exact Hm3].
Qed.

End UploadRun.

(** *** The extension of the uploaded photo *)

Lemma mapChars_append (f : ascii -> ascii) (x y : string) :
  Js.mapChars f (x ++ y) = Js.mapChars f x ++ Js.mapChars f y.
Proof. induction x; simpl; congruence. Qed.

Lemma lastDot_append (x y : string) :
  lastDot (x ++ y) =
  match lastDot y with
  | Some i => Some (String.length x + i)
  | None => lastDot x
  end.
Proof.
  induction x as [|c r IH]; simpl.
  - destruct (lastDot y); reflexivity.
  - rewrite IH. destruct (lastDot y); [reflexivity|].
    destruct (lastDot r); reflexivity.
Qed.

Lemma toLowerCaseChar_dot (c : ascii) :
  (Js.toLowerCaseChar c =? ".")%char = (c =? ".")%char.
Proof.
  destruct c as [[] [] [] [] [] [] [] []]; reflexivity.
Qed.

Lemma lastDot_heic (ext : string) :
  Js.toLowerCase ext = ".heic" -> lastDot ext = Some 0 /\ String.length ext = 5.
Proof.
  intros H.
  destruct ext as [|c0 [|c1 [|c2 [|c3 [|c4 [|c5 r]]]]]]; try discriminate.
  unfold Js.toLowerCase in H. cbn [Js.mapChars] in H.
  injection H as H0 H1 H2 H3 H4.
  assert (D0 : (c0 =? ".")%char = true)
    by (rewrite <- toLowerCaseChar_dot, H0; reflexivity).
  assert (D1 : (c1 =? ".")%char = false)
    by (rewrite <- toLowerCaseChar_dot, H1; reflexivity).
  assert (D2 : (c2 =? ".")%char = false)
    by (rewrite <- toLowerCaseChar_dot, H2; reflexivity).
  assert (D3 : (c3 =? ".")%char = false)
    by (rewrite <- toLowerCaseChar_dot, H3; reflexivity).
  assert (D4 : (c4 =? ".")%char = false)
    by (rewrite <- toLowerCaseChar_dot, H4; reflexivity).
  split; [|reflexivity]. cbn [lastDot]. rewrite D4, D3, D2, D1, D0. reflexivity.
Qed.

(** A photo uploaded under a name that ends in .heic, ignoring case,
    after a non-empty stem is stored under a name that ends in .heic:
    the HEIC branch runs for it. *)
Lemma heic_upload_is_converted (rt : Runtime) (req : Request) (w : World)
    (pf : MulterFile) (stem ext : string) :
  originalname pf = stem ++ ext -> stem <> "" -> Js.toLowerCase ext = ".heic" ->
  Js.endsWith (Js.toLowerCase (storedPhotoName rt req w pf)) ".heic" = true.
Proof.
  intros Hname Hstem Hext.
  destruct (lastDot_heic ext Hext) as [Hdot Hlen].
  assert (Hx : extname (originalname pf) = ext).
  { unfold extname. rewrite Hname, lastDot_append, Hdot, Nat.add_0_r.
    destruct stem as [|c r]; [congruence|]. cbn [String.length].
    destruct (String.eqb_spec (String c r ++ ext) "..") as [E|_].
    - apply (f_equal String.length) in E. rewrite length_append, Hlen in E.
      simpl in E. lia.
    - change (S (String.length r)) with (String.length (String c r)).
      rewrite length_append.
      replace (String.length (String c r) + String.length ext - String.length (String c r))
        with (String.length ext) by lia.
      rewrite substring_skip_append. apply substring_0_all. }
  unfold storedPhotoName. rewrite Hx. unfold Js.toLowerCase.
  rewrite <- append_assoc, mapChars_append.
  fold Js.toLowerCase. rewrite Hext. apply endsWith_append.
Qed.

(** For [path.extname] a leading dot starts no extension: a photo
    uploaded under the bare name .heic is stored without one. *)
Remark bare_heic_name_has_no_extension : extname ".heic" = "".
Proof. reflexivity. Qed.

(** C4, as the claim states it, fails for a photo whose whole name is
    .heic: the name ends in .heic, [path.extname] finds no extension in
    it, the photo is stored as [<assetId>_photo] and is not converted,
    although the codec would convert its bytes. *)
Lemma upload_dot_heic_is_not_converted_counterexample :
  Js.endsWith (Js.toLowerCase ".heic") ".heic" = true /\
  heicConvert exampleRuntime [x00; x01] = Some [x01; x00; x01] /\
  status (fst (upload exampleRuntime uploadDotHeic dotHeicWorld)) = 201 /\
  exists m,
    Fs.readFile "trip" "01234567_metadata.json"
      (disk (snd (upload exampleRuntime uploadDotHeic dotHeicWorld))) = Ok (Json m) /\
    photoFile m = "01234567_photo" /\
    Js.endsWith (photoFile m) ".jpg" = false /\
    Fs.readFile "trip" "01234567_photo"
      (disk (snd (upload exampleRuntime uploadDotHeic dotHeicWorld)))
      = Ok (Media [x00; x01]) /\
    photoSize m = 2%N.
Proof.
  split; [reflexivity|]. split; [reflexivity|]. split; [reflexivity|].
  eexists. split; [reflexivity|]. repeat split.
Qed.

(** C4, amended. An upload of a photo whose name has the extension
    .heic, ignoring case: the name is a non-empty stem followed by
    .heic.  When the conversion succeeds, the upload answers 201, the
    record names a photo file ending in .jpg that holds the converted
    bytes, the HEIC file is gone from the gallery directory, and the
    record's photoSize is the byte size of the JPEG.  When the
    conversion fails, the upload still answers 201, the HEIC file is
    kept and the record names it.  The photo and the video are in .temp,
    as multer leaves them, no name of the gallery directory is taken by
    a sub-directory, and the gallery id and the names the files are
    stored under are single path segments. *)
Theorem upload_heic_conversion (rt : Runtime) (req : Request) (w : World)
    (pf vf : MulterFile) (root : list (string * Node)) (T : Listing)
    (cp cv : Content) (stem ext : string) :
  photo req = Some pf -> video req = Some vf ->
  disk w = Some root ->
  Fs.lookup tempDir root = Some (Directory T) ->
  Fs.lookup (filename pf) T = Some (File cp) ->
  Fs.lookup (filename vf) T = Some (File cv) ->
  filename pf <> filename vf ->
  galleryOf req <> tempDir ->
  (forall n, Fs.lookup (galleryOf req) root = Some n ->
             exists G, n = Directory G /\ onlyFiles G) ->
  plainUpload rt req w pf vf ->
  originalname pf = stem ++ ext -> stem <> "" -> Js.toLowerCase ext = ".heic" ->
  (forall out,
      heicConvert rt (bytesOf rt cp) = Some out ->
      status (fst (upload rt req w)) = 201 /\
      exists m,
        Fs.readFile (galleryOf req) (recordName rt req w) (disk (snd (upload rt req w)))
          = Ok (Json m) /\
        photoFile m = replaceHeic (storedPhotoName rt req w pf) /\
        Js.endsWith (photoFile m) ".jpg" = true /\
        Fs.readFile (galleryOf req) (photoFile m) (disk (snd (upload rt req w)))
          = Ok (Media out) /\
        Fs.existsSync (galleryOf req) (storedPhotoName rt req w pf)
          (disk (snd (upload rt req w))) = false /\
        photoSize m = N.of_nat (List.length out)) /\
  (heicConvert rt (bytesOf rt cp) = None ->
   status (fst (upload rt req w)) = 201 /\
   exists m,
     Fs.readFile (galleryOf req) (recordName rt req w) (disk (snd (upload rt req w)))
       = Ok (Json m) /\
     photoFile m = storedPhotoName rt req w pf /\
     Fs.readFile (galleryOf req) (photoFile m) (disk (snd (upload rt req w))) = Ok cp /\
     photoSize m = N.of_nat (List.length (bytesOf rt cp))).
Proof.
  intros Hphoto Hvideo Hdisk Htemp Hp Hv Hpv Hg Hgallery _ Hname Hstem Hext.
  pose proof (heic_upload_is_converted rt req w pf stem ext Hname Hstem Hext) as Hheic.
  unfold galleryOf, storedPhotoName, recordName in *.
  split.
  - intros out Hconv.
    destruct (upload_finish rt req w pf vf root T cv Hphoto Hvideo Hdisk Htemp Hv Hpv
                Hg Hgallery _ (N.of_nat (List.length out))
                (fun G0 => Fs.remove _ (Fs.upsert _ (File (Media out)) (Fs.upsert _ (File cp) G0)))
                (fun root1 G0 D1 HG0 _ _ =>
                   placePhoto_converted rt _ _ pf root1 G0 T cp Hg D1 HG0 Hp Hheic out Hconv))
      as [m [G0 [root' [Hs [Hd [[Dg _] [_ [_ [Hm1 [Hm2 _]]]]]]]]]].
    + intros G0 HG0. apply onlyFiles_remove, onlyFiles_upsert, onlyFiles_upsert, HG0.
    + split; [exact Hs|]. exists m. rewrite Hd.
      unfold Fs.readFile, Fs.existsSync. cbn [Fs.rootOf]. rewrite Dg, Hm1.
      split; [rewrite lookup_upsert_eq; reflexivity|].
      split; [reflexivity|].
      split; [apply jpeg_ends_with_jpg; exact Hheic|].
      split; [|split; [|exact Hm2]].
      * rewrite lookup_upsert_ne by (apply jpeg_not_metadata; exact Hheic).
        rewrite lookup_upsert_ne by (apply jpeg_not_video; exact Hheic).
        rewrite lookup_remove_ne by (apply jpeg_not_photo; exact Hheic).
        rewrite lookup_upsert_eq. reflexivity.
      * rewrite lookup_upsert_ne by (apply photo_not_metadata).
        rewrite lookup_upsert_ne by (apply photo_not_video).
        rewrite lookup_remove_eq. reflexivity.
  - intros Hconv.
    destruct (upload_finish rt req w pf vf root T cv Hphoto Hvideo Hdisk Htemp Hv Hpv
                Hg Hgallery _ (N.of_nat (List.length (bytesOf rt cp)))
                (fun G0 => Fs.upsert _ (File cp) G0)
                (fun root1 G0 D1 HG0 _ _ =>
                   placePhoto_kept rt _ _ pf root1 G0 T cp Hg D1 HG0 Hp Hheic Hconv))
      as [m [G0 [root' [Hs [Hd [[Dg _] [_ [_ [Hm1 [Hm2 _]]]]]]]]]].
    + intros G0 HG0. apply onlyFiles_upsert, HG0.
    + split; [exact Hs|]. exists m. rewrite Hd.
      unfold Fs.readFile. cbn [Fs.rootOf]. rewrite Dg, Hm1.
      split; [rewrite lookup_upsert_eq; reflexivity|].
      split; [reflexivity|].
      split; [|exact Hm2].
      rewrite lookup_upsert_ne by (apply photo_not_metadata).
      rewrite lookup_upsert_ne by (apply photo_not_video).
      rewrite lookup_upsert_eq. reflexivity.
Qed.

Lemma upload_heic_conversion_witness :
  (status (fst (upload exampleRuntime uploadWithId uploadWorld)) = 201 /\
   exists m,
     Fs.readFile "trip" "01234567_metadata.json"
       (disk (snd (upload exampleRuntime uploadWithId uploadWorld))) = Ok (Json m) /\
     photoFile m = "01234567_photo.jpg" /\
     Fs.readFile "trip" "01234567_photo.jpg"
       (disk (snd (upload exampleRuntime uploadWithId uploadWorld)))
       = Ok (Media [x01; x00; x01]) /\
     Fs.existsSync "trip" "01234567_photo.HEIC"
       (disk (snd (upload exampleRuntime uploadWithId uploadWorld))) = false /\
     photoSize m = 3%N) /\
  (status (fst (upload brokenCodecRuntime uploadWithId uploadWorld)) = 201 /\
   exists m,
     Fs.readFile "trip" "01234567_metadata.json"
       (disk (snd (upload brokenCodecRuntime uploadWithId uploadWorld))) = Ok (Json m) /\
     photoFile m = "01234567_photo.HEIC" /\
     Fs.readFile "trip" "01234567_photo.HEIC"
       (disk (snd (upload brokenCodecRuntime uploadWithId uploadWorld)))
       = Ok (Media [x00; x01]) /\
     photoSize m = 2%N).
Proof.
  assert (Hgallery : forall n,
             Fs.lookup (galleryOf uploadWithId)
               [ (".temp", Directory
                    [ ("5f0c_photo.HEIC", File (Media [x00; x01]));
                      ("9a1d_video.MOV", File (Media [x02])) ]) ] = Some n ->
             exists G, n = Directory G /\ onlyFiles G).
  { intros n H. discriminate H. }
  assert (Hplain : forall rt,
             uuidv4 rt = uuidv4 exampleRuntime ->
             plainUpload rt uploadWithId uploadWorld
               (mkFile "IMG_0001.HEIC" "5f0c_photo.HEIC" 2)
               (mkFile "IMG_0001.MOV" "9a1d_video.MOV" 1)).
  { intros rt _. repeat split; reflexivity. }
  split.
  - destruct (proj1 (upload_heic_conversion exampleRuntime uploadWithId uploadWorld
                       (mkFile "IMG_0001.HEIC" "5f0c_photo.HEIC" 2)
                       (mkFile "IMG_0001.MOV" "9a1d_video.MOV" 1)
                       _ _ (Media [x00; x01]) (Media [x02]) "IMG_0001" ".HEIC"
                       eq_refl eq_refl eq_refl eq_refl eq_refl eq_refl
                       ltac:(discriminate) ltac:(discriminate) Hgallery
                       (Hplain exampleRuntime eq_refl)
                       eq_refl ltac:(discriminate) eq_refl)
                [x01; x00; x01] eq_refl)
      as [Hs [m [Hr [Hf [_ [Hj [Hgone Hsize]]]]]]].
    split; [exact Hs|]. exists m.
    split; [exact Hr|]. split; [exact Hf|].
    split; [rewrite Hf in Hj; exact Hj|]. split; [exact Hgone | exact Hsize].
  - destruct (proj2 (upload_heic_conversion brokenCodecRuntime uploadWithId uploadWorld
                       (mkFile "IMG_0001.HEIC" "5f0c_photo.HEIC" 2)
                       (mkFile "IMG_0001.MOV" "9a1d_video.MOV" 1)
                       _ _ (Media [x00; x01]) (Media [x02]) "IMG_0001" ".HEIC"
                       eq_refl eq_refl eq_refl eq_refl eq_refl eq_refl
                       ltac:(discriminate) ltac:(discriminate) Hgallery
                       (Hplain brokenCodecRuntime eq_refl)
                       eq_refl ltac:(discriminate) eq_refl)
                eq_refl)
      as [Hs [m [Hr [Hf [Hk Hsize]]]]].
    split; [exact Hs|]. exists m.
    split; [exact Hr|]. split; [exact Hf|].
    split; [rewrite Hf in Hk; exact Hk | exact Hsize].
Defined.

(** C3 at two uploads.  With a client id the three stored filenames
    start with the first 8 characters of the record's id.  Without one
    the handler draws two tokens: the filenames start with the first 8
    characters of the first, the record's id is the second, and the
    filenames do not start with the first 8 characters of the record's
    id. *)
Theorem upload_without_id_prefix_mismatch :
  (status (fst (upload exampleRuntime uploadWithId uploadWorld)) = 201 /\
   exists m,
     Fs.readFile "trip" "01234567_metadata.json"
       (disk (snd (upload exampleRuntime uploadWithId uploadWorld))) = Ok (Json m) /\
     LivePhotoMetadata.id m = "0123456789abcdef" /\
     photoFile m = "01234567_photo.jpg" /\
     videoFile m = "01234567_video.MOV") /\
  (status (fst (upload exampleRuntime uploadWithoutId uploadWorld)) = 201 /\
   exists m,
     Fs.readFile "default" "aaaaaaaa_metadata.json"
       (disk (snd (upload exampleRuntime uploadWithoutId uploadWorld))) = Ok (Json m) /\
     LivePhotoMetadata.id m = "bbbbbbbb-1111-4111-8111-111111111111" /\
     photoFile m = "aaaaaaaa_photo.jpg" /\
     videoFile m = "aaaaaaaa_video.MOV" /\
     Js.startsWith (photoFile m) (substring 0 8 (LivePhotoMetadata.id m)) = false /\
     Js.startsWith (videoFile m) (substring 0 8 (LivePhotoMetadata.id m)) = false /\
     Js.startsWith "aaaaaaaa_metadata.json" (substring 0 8 (LivePhotoMetadata.id m)) = false).
Proof.
  split.
  - split; [reflexivity|]. eexists. split; [reflexivity|]. repeat split.
  - split; [reflexivity|]. eexists. split; [reflexivity|]. repeat split.
Qed.

(** *** Where the two ids of an upload come from *)

Lemma client_prefix_falsy (v : option string) :
  Js.truthy v = false -> Js.truthy (option_map (substring 0 8) v) = false.
Proof. destruct v as [[|c r]|]; simpl; [reflexivity | discriminate | reflexivity]. Qed.

(** Without a client id the files are named after one token and the
    record is identified by the next one. *)
Lemma tokens_without_client_id (rt : Runtime) (req : Request) (w : World)
    (vf : MulterFile) (g name fn : string) (fs : N) (vn : string) :
  Js.truthy (id (body req)) = false ->
  exists w1 m w2,
    deriveAssetId rt req w = (Ok (substring 0 8 (uuidv4 rt (uuids w))), w1) /\
    disk w1 = disk w /\
    buildMetadata rt req vf g name fn fs vn w1 = (Ok m, w2) /\
    LivePhotoMetadata.id m = uuidv4 rt (S (uuids w)).
Proof.
  intros Hid. unfold deriveAssetId, buildMetadata.
  rewrite (client_prefix_falsy _ Hid), Hid.
  destruct (Js.truthy (creation_date (body req)));
    eexists _, _, _; (split; [reflexivity|]); (split; [reflexivity|]);
    split; reflexivity.
Qed.

(** With a client id the files are named after its first 8 characters
    and the record carries it whole. *)
Lemma ids_with_client_id (rt : Runtime) (req : Request) (w : World)
    (vf : MulterFile) (g name fn : string) (fs : N) (vn : string) (i : string) :
  id (body req) = Some i -> i <> "" ->
  exists w1 m w2,
    deriveAssetId rt req w = (Ok (substring 0 8 i), w1) /\
    buildMetadata rt req vf g name fn fs vn w1 = (Ok m, w2) /\
    LivePhotoMetadata.id m = i.
Proof.
  intros Hid Hi. unfold deriveAssetId, buildMetadata. rewrite Hid.
  destruct i as [|c r]; [congruence|]. cbn [option_map substring Js.truthy Js.orElse].
  destruct (Js.truthy (creation_date (body req)));
    eexists _, _, _; (split; [reflexivity|]); split; reflexivity.
Qed.

(** * Further properties of the routers *)

(** ** The order of the listings *)

Section SortByComparator.

Variables (A : Type) (cmp : A -> A -> Z).

(** What the comparators of the routers satisfy: a positive answer one
    way is not positive the other way. *)
Hypothesis cmp_asym : forall a b, (0 < cmp a b)%Z -> (cmp b a <= 0)%Z.

Lemma insertBy_HdRel (R : A -> A -> Prop) (y x : A) (l : list A) :
  R y x -> HdRel R y l -> HdRel R y (insertBy cmp x l).
Proof.
  intros Hyx Hl. destruct l as [|z r]; simpl.
  - constructor. exact Hyx.
  - destruct (0 <? cmp x z)%Z; constructor; [|exact Hyx].
    inversion Hl. assumption.
Qed.

Lemma insertBy_sorted (x : A) (l : list A) :
  Sorted (fun a b => (cmp a b <= 0)%Z) l ->
  Sorted (fun a b => (cmp a b <= 0)%Z) (insertBy cmp x l).
Proof.
  induction l as [|y r IH]; intros Hs; simpl.
  - repeat constructor.
  - apply Sorted_inv in Hs. destruct Hs as [Hr Hy].
    destruct (0 <? cmp x y)%Z eqn:E.
    + constructor; [apply IH, Hr|].
      apply insertBy_HdRel; [|exact Hy]. apply cmp_asym. apply Z.ltb_lt. exact E.
    + constructor; [constructor; assumption|].
      constructor. apply Z.ltb_ge. exact E.
Qed.

Lemma sortBy_sorted (l : list A) :
  Sorted (fun a b => (cmp a b <= 0)%Z) (sortBy cmp l).
Proof.
  induction l as [|x r IH]; simpl; [constructor | apply insertBy_sorted, IH].
Qed.

End SortByComparator.

Lemma Sorted_weaken {A} (R R' : A -> A -> Prop) (P : A -> Prop) (l : list A) :
  (forall a b, P a -> P b -> R a b -> R' a b) ->
  Forall P l -> Sorted R l -> Sorted R' l.
Proof.
  intros HR HP Hs. induction Hs as [|a l Hs IH Hd]; [constructor|].
  inversion HP as [|? ? Pa Pl]; subst. constructor; [apply IH, Pl|].
  destruct Hd as [|b l' Hab]; constructor.
  inversion Pl; subst. apply HR; assumption.
Qed.

Lemma byUploadDateDesc_asym (rt : Runtime) (a b : LivePhotoMetadata.t) :
  (0 < byUploadDateDesc rt a b)%Z -> (byUploadDateDesc rt b a <= 0)%Z.
Proof.
  unfold byUploadDateDesc.
  destruct (getTime rt (uploadDate a)), (getTime rt (uploadDate b)); lia.
Qed.

Lemma byLastUpdatedDesc_asym (rt : Runtime) (a b : GalleryInfo.t) :
  (0 < byLastUpdatedDesc rt a b)%Z -> (byLastUpdatedDesc rt b a <= 0)%Z.
Proof.
  unfold byLastUpdatedDesc.
  destruct (getTime rt (GalleryInfo.lastUpdated a)),
           (getTime rt (GalleryInfo.lastUpdated b)); lia.
Qed.

Lemma uploadedNoEarlier_trans (rt : Runtime) :
  Relations_1.Transitive (uploadedNoEarlier rt).
Proof.
  intros a b c [ta [tb [Ha [Hb Hab]]]] [tb' [tc [Hb' [Hc Hbc]]]].
  exists ta, tc. rewrite Hb in Hb'. injection Hb' as <-.
  split; [exact Ha|]. split; [exact Hc | lia].
Qed.

Lemma updatedNoEarlier_trans (rt : Runtime) :
  Relations_1.Transitive (updatedNoEarlier rt).
Proof.
  intros a b c [ta [tb [Ha [Hb Hab]]]] [tb' [tc [Hb' [Hc Hbc]]]].
  exists ta, tc. rewrite Hb in Hb'. injection Hb' as <-.
  split; [exact Ha|]. split; [exact Hc | lia].
Qed.

Lemma checkViewPassword_early (rt : Runtime) (dirs : list (string * Node)) (p : option string)
    (r : Response) :
  checkViewPassword rt dirs p = Ok (Some r) -> AuthRequired r \/ Forbidden r.
Proof.
  unfold checkViewPassword. destruct dirs as [|[d n] rest]; [discriminate|].
  destruct (readdirSync n) as [files|]; cbn [bindR]; [|discriminate].
  destruct (metadataFiles files) as [|[f e] rest']; [discriminate|].
  destruct (readMetadata e) as [m|]; cbn [bindR]; [|discriminate].
  destruct (Js.truthy (galleryViewPassword m)); [|discriminate].
  destruct (negb (Js.truthy p)).
  - intros H. injection H as <-. left. reflexivity.
  - destruct (negb _); [|discriminate]. intros H. injection H as <-. right. reflexivity.
Qed.

Lemma listPhotos_is_sorted (rt : Runtime) (store : Store) (g p : option string)
    (photos : list LivePhotoMetadata.t) (n : nat) :
  listPhotos rt store g p = json (PhotosBody photos n) ->
  exists l, photos = sortBy (byUploadDateDesc rt) l /\ n = List.length photos.
Proof.
  unfold listPhotos. destruct store as [root|]; cbn [catch500].
  - destruct (if Js.truthy g then _ else _) as [[r|]|e] eqn:E; cbn [bindR catch500].
    + intros ->. exfalso. destruct (Js.truthy g); [|discriminate].
      apply checkViewPassword_early in E. destruct E as [E|E]; discriminate E.
    + destruct (collect _) as [l|e]; cbn [bindR catch500]; [|discriminate].
      intros H. injection H as <- <-. exists l. split; reflexivity.
    + discriminate.
  - intros H. injection H as <- <-. exists []. split; reflexivity.
Qed.

(** X1. The photos of a listing come newest first: when the upload
    dates of the returned photos are valid dates, each photo was
    uploaded no earlier than every photo after it; the count is the
    number of photos. *)
Theorem listPhotos_newest_first (rt : Runtime) (store : Store)
    (g p : option string) (photos : list LivePhotoMetadata.t) (n : nat) :
  listPhotos rt store g p = json (PhotosBody photos n) ->
  Forall (fun a => getTime rt (uploadDate a) <> None) photos ->
  StronglySorted (uploadedNoEarlier rt) photos /\ n = List.length photos.
Proof.
  intros H Hvalid. destruct (listPhotos_is_sorted rt store g p photos n H) as [l [Hl Hn]].
  split; [|exact Hn].
  assert (Hs : Sorted (fun a b => (byUploadDateDesc rt a b <= 0)%Z) photos).
  { rewrite Hl. apply sortBy_sorted, byUploadDateDesc_asym. }
  apply Sorted_StronglySorted; [apply uploadedNoEarlier_trans|].
  apply (Sorted_weaken _ _ _ photos) with (3 := Hs) (2 := Hvalid).
  intros a b Ha Hb Hab. unfold uploadedNoEarlier, byUploadDateDesc in *.
  destruct (getTime rt (uploadDate a)) as [ta|]; [|congruence].
  destruct (getTime rt (uploadDate b)) as [tb|]; [|congruence].
  exists ta, tb. repeat split; try reflexivity. lia.
Qed.

Lemma listPhotos_newest_first_witness :
  listPhotos datedRuntime (Some datedRoot) (Some "trip") None =
    json (PhotosBody
            [ withUrls "trip" (datedRecord "bbbb0002" "2024-01-16T08:00:00.000Z" (Some "Other"));
              withUrls "trip" (datedRecord "aaaa0001" "2024-01-15T10:30:00.000Z" (Some "Trip")) ]
            2) /\
  StronglySorted (uploadedNoEarlier datedRuntime)
    [ withUrls "trip" (datedRecord "bbbb0002" "2024-01-16T08:00:00.000Z" (Some "Other"));
      withUrls "trip" (datedRecord "aaaa0001" "2024-01-15T10:30:00.000Z" (Some "Trip")) ].
Proof.
  split; [reflexivity|].
  apply (listPhotos_newest_first datedRuntime (Some datedRoot) (Some "trip") None _ 2 eq_refl).
  repeat constructor; simpl; discriminate.
Defined.

(** ** The galleries listing *)

Lemma latestUpload_ok (rt : Runtime) (mfiles : Listing) (init : string) :
  Forall (fun f => exists m, snd f = File (Json m)) mfiles ->
  exists d, latestUpload rt mfiles init = Ok d.
Proof.
  revert init. induction mfiles as [|[f e] rest IH]; intros init H.
  - exists init. reflexivity.
  - inversion H as [|? ? [m Hm] Hr]; subst. simpl in Hm. subst e.
    cbn [latestUpload readMetadata bindR]. apply IH, Hr.
Qed.

Lemma recordsOf_length (files : Listing) :
  readableListing files -> List.length (recordsOf files) = List.length (metadataFiles files).
Proof.
  unfold readableListing, recordsOf.
  induction (metadataFiles files) as [|[f e] rest IH]; intros H; [reflexivity|].
  inversion H as [|? ? [m Hm] Hr]; subst. simpl in Hm. subst e.
  simpl. rewrite (IH Hr). reflexivity.
Qed.

Lemma galleryInfo_ok (rt : Runtime) (dir : string) (files : Listing) :
  readableListing files ->
  exists info,
    galleryInfo rt dir (Directory files) = Ok info /\
    GalleryInfo.id info = dir /\
    GalleryInfo.name info = displayName dir files /\
    GalleryInfo.photoCount info = List.length (recordsOf files).
Proof.
  intros Hr. rewrite (recordsOf_length files Hr).
  unfold galleryInfo, displayName, recordsOf. cbn [readdirSync bindR].
  unfold readableListing in Hr.
  destruct (metadataFiles files) as [|[f e] rest] eqn:E.
  - eexists. split; [reflexivity|]. repeat split.
  - inversion Hr as [|? ? [m Hm] Hr']; subst. simpl in Hm. subst e.
    cbn [readMetadata bindR].
    destruct (latestUpload_ok rt ((f, File (Json m)) :: rest) epochISO Hr) as [d Hd].
    rewrite Hd. cbn [bindR]. eexists. split; [reflexivity|]. repeat split.
Qed.

Lemma galleryInfos_ok (rt : Runtime) (dirs : list (string * Node)) :
  Forall (fun d => exists files, snd d = Directory files) dirs ->
  readable dirs ->
  exists gs, galleryInfos rt dirs = Ok gs /\
             map GalleryInfo.id gs = map fst dirs.
Proof.
  induction dirs as [|[dir n] rest IH]; intros Hd Hr.
  - exists []. split; reflexivity.
  - inversion Hd as [|? ? [files Hn] Hd']; subst. simpl in Hn. subst n.
    inversion Hr as [|? ? Hr1 Hr']; subst.
    destruct (galleryInfo_ok rt dir files (Hr1 files eq_refl)) as [info [Hi [Hid _]]].
    destruct (IH Hd' Hr') as [gs [Hgs Hids]].
    exists (info :: gs). cbn [galleryInfos]. rewrite Hi. cbn [bindR]. rewrite Hgs.
    cbn [bindR map fst]. rewrite Hid, Hids. split; reflexivity.
Qed.

(** X2. When the metadata files can be read, the galleries listing
    answers 200 with one entry per directory of the upload directory
    other than .temp (plain files are skipped): the ids are the
    directory names, the count is their number, and the entry of a
    directory carries the number of its records and its display name. *)
Theorem listGalleries_entries (rt : Runtime) (root : list (string * Node)) :
  readable (galleryDirs root) ->
  exists gs,
    listGalleries rt (Some root) = json (GalleriesBody gs (List.length (galleryDirs root))) /\
    Permutation (map GalleryInfo.id gs) (map fst (galleryDirs root)) /\
    forall dir files,
      In (dir, Directory files) (galleryDirs root) ->
      exists info, In info gs /\ GalleryInfo.id info = dir /\
                   GalleryInfo.name info = displayName dir files /\
                   GalleryInfo.photoCount info = List.length (recordsOf files).
Proof.
  intros Hr.
  destruct (galleryInfos_ok rt _ (galleryDirs_directories root) Hr) as [gs [Hgs Hids]].
  exists (sortBy (byLastUpdatedDesc rt) gs).
  assert (Hperm := sortBy_perm (byLastUpdatedDesc rt) gs).
  split; [|split].
  - unfold listGalleries. rewrite Hgs. cbn [bindR catch500].
    rewrite (Permutation_length Hperm).
    rewrite <- (length_map GalleryInfo.id gs), Hids, length_map. reflexivity.
  - rewrite <- Hids. apply Permutation_map. exact Hperm.
  - intros dir files Hin.
    destruct (galleryInfos_In rt _ gs dir _ Hgs Hin) as [info [Hi Hin']].
    assert (Hrl : readableListing files).
    { unfold readable in Hr. rewrite Forall_forall in Hr. apply (Hr _ Hin). reflexivity. }
    destruct (galleryInfo_ok rt dir files Hrl) as [info' [Hi' Hprops]].
    rewrite Hi in Hi'. injection Hi' as <-.
    exists info. split; [apply sortBy_In; exact Hin' | exact Hprops].
Qed.

Lemma listGalleries_entries_witness :
  exists gs,
    listGalleries datedRuntime (Some datedRoot) = json (GalleriesBody gs 2) /\
    Permutation (map GalleryInfo.id gs) ["trip"; "solo"] /\
    exists info, In info gs /\ GalleryInfo.id info = "solo" /\
                 GalleryInfo.name info = "solo" /\ GalleryInfo.photoCount info = 1.
Proof.
  assert (Hr : readable (galleryDirs datedRoot)).
  { repeat constructor; simpl; intros files E; injection E as <-;
      repeat constructor; simpl; eauto. }
  destruct (listGalleries_entries datedRuntime datedRoot Hr) as [gs [H1 [H2 H3]]].
  exists gs. split; [exact H1|]. split; [exact H2|].
  apply (H3 "solo"
           [ ("cccc0003_metadata.json",
              File (Json (datedRecord "cccc0003" "2024-01-15T10:30:00.000Z" None))) ]).
  right. left. reflexivity.
Defined.

Lemma latestUpload_max (rt : Runtime) (mfiles : Listing) (init d : string) (ti : Z) :
  Forall (fun f => exists m, snd f = File (Json m)) mfiles ->
  Forall (fun m => getTime rt (uploadDate m) <> None)
         (flat_map (fun f => match snd f with File (Json m) => [m] | _ => [] end) mfiles) ->
  getTime rt init = Some ti ->
  latestUpload rt mfiles init = Ok d ->
  exists td,
    getTime rt d = Some td /\ (ti <= td)%Z /\
    (forall m, In m (flat_map (fun f => match snd f with File (Json m) => [m] | _ => [] end) mfiles) ->
               exists tm, getTime rt (uploadDate m) = Some tm /\ (tm <= td)%Z) /\
    (d = init \/
     exists m, In m (flat_map (fun f => match snd f with File (Json m) => [m] | _ => [] end) mfiles) /\
               d = uploadDate m).
Proof.
  revert init ti. induction mfiles as [|[f e] rest IH]; intros init ti Hr Hv Hi H.
  - simpl in H. injection H as <-. exists ti.
    split; [exact Hi|]. split; [lia|]. split; [intros m []|]. left. reflexivity.
  - inversion Hr as [|? ? [m Hm] Hr']; subst. simpl in Hm. subst e.
    simpl in Hv. inversion Hv as [|? ? Hvm Hv']; subst.
    cbn [latestUpload readMetadata bindR] in H.
    destruct (getTime rt (uploadDate m)) as [tm|] eqn:Em; [|congruence].
    unfold laterThan in H. rewrite Em, Hi in H.
    destruct (ti <? tm)%Z eqn:Elt.
    + apply Z.ltb_lt in Elt.
      destruct (IH (uploadDate m) tm Hr' Hv' Em H) as [td [Hd [Hle [Hall Hsrc]]]].
      exists td. split; [exact Hd|]. split; [lia|]. split.
      * intros m' [<-|Hin]; [exists tm; split; [exact Em | exact Hle] | apply Hall, Hin].
      * right. destruct Hsrc as [->|[m' [Hin ->]]].
        -- exists m. split; [left; reflexivity | reflexivity].
        -- exists m'. split; [right; exact Hin | reflexivity].
    + apply Z.ltb_ge in Elt.
      destruct (IH init ti Hr' Hv' Hi H) as [td [Hd [Hle [Hall Hsrc]]]].
      exists td. split; [exact Hd|]. split; [exact Hle|]. split.
      * intros m' [<-|Hin]; [exists tm; split; [exact Em | lia] | apply Hall, Hin].
      * destruct Hsrc as [->|[m' [Hin ->]]]; [left; reflexivity|].
        right. exists m'. split; [right; exact Hin | reflexivity].
Qed.

(** X3. The lastUpdated of a gallery entry is the latest upload date of
    the gallery: when the upload dates of its records are valid, it is
    the epoch or the upload date of one of the records, and neither the
    epoch nor any record is later. *)
Theorem galleryInfo_lastUpdated (rt : Runtime) (dir : string) (files : Listing)
    (info : GalleryInfo.t) :
  readableListing files ->
  Forall (fun m => getTime rt (uploadDate m) <> None) (recordsOf files) ->
  getTime rt epochISO = Some 0%Z ->
  galleryInfo rt dir (Directory files) = Ok info ->
  exists t,
    getTime rt (GalleryInfo.lastUpdated info) = Some t /\ (0 <= t)%Z /\
    (forall m, In m (recordsOf files) ->
               exists tm, getTime rt (uploadDate m) = Some tm /\ (tm <= t)%Z) /\
    (GalleryInfo.lastUpdated info = epochISO \/
     exists m, In m (recordsOf files) /\ GalleryInfo.lastUpdated info = uploadDate m).
Proof.
  unfold readableListing, recordsOf, galleryInfo. cbn [readdirSync bindR].
  intros Hr Hv H0 H.
  destruct (metadataFiles files) as [|[f e] rest] eqn:E.
  - injection H as <-. exists 0%Z. cbn [GalleryInfo.lastUpdated].
    split; [exact H0|]. split; [lia|]. split; [intros m []|]. left. reflexivity.
  - destruct (readMetadata e) as [m1|]; cbn [bindR] in H; [|discriminate].
    destruct (latestUpload rt ((f, e) :: rest) epochISO) as [d|] eqn:Ed;
      cbn [bindR] in H; [|discriminate].
    injection H as <-. cbn [GalleryInfo.lastUpdated].
    apply (latestUpload_max rt _ epochISO d 0%Z Hr Hv H0 Ed).
Qed.

Lemma galleryInfo_lastUpdated_witness :
  exists info,
    galleryInfo datedRuntime "solo"
      (Directory
         [ ("cccc0003_metadata.json",
            File (Json (datedRecord "cccc0003" "2024-01-15T10:30:00.000Z" None))) ])
      = Ok info /\
    GalleryInfo.lastUpdated info = "2024-01-15T10:30:00.000Z" /\
    exists t, getTime datedRuntime (GalleryInfo.lastUpdated info) = Some t /\ (0 <= t)%Z.
Proof.
  eexists. split; [reflexivity|]. split; [reflexivity|].
  assert (Hr : readableListing
                 [ ("cccc0003_metadata.json",
                    File (Json (datedRecord "cccc0003" "2024-01-15T10:30:00.000Z" None))) ]).
  { repeat constructor; simpl; eauto. }
  assert (Hv : Forall (fun m => getTime datedRuntime (uploadDate m) <> None)
                 (recordsOf
                    [ ("cccc0003_metadata.json",
                       File (Json (datedRecord "cccc0003" "2024-01-15T10:30:00.000Z" None))) ])).
  { repeat constructor; simpl; discriminate. }
  destruct (galleryInfo_lastUpdated datedRuntime "solo" _ _ Hr Hv eq_refl eq_refl)
    as [t [Ht [H0 _]]].
  exists t. split; [exact Ht | exact H0].
Defined.

(** X4. The galleries of the listing come most recently updated first,
    when their lastUpdated values are valid dates. *)
Theorem listGalleries_newest_first (rt : Runtime) (store : Store)
    (gs : list GalleryInfo.t) (n : nat) :
  listGalleries rt store = json (GalleriesBody gs n) ->
  Forall (fun a => getTime rt (GalleryInfo.lastUpdated a) <> None) gs ->
  StronglySorted (updatedNoEarlier rt) gs /\ n = List.length gs.
Proof.
  intros H Hvalid.
  assert (Hs : Sorted (fun a b => (byLastUpdatedDesc rt a b <= 0)%Z) gs /\ n = List.length gs).
  { unfold listGalleries in H. destruct store as [root|]; cbn [catch500] in H.
    - destruct (galleryInfos rt (galleryDirs root)) as [l|e]; cbn [bindR catch500] in H;
        [|discriminate].
      injection H as <- <-. split; [|reflexivity].
      apply sortBy_sorted, byLastUpdatedDesc_asym.
    - injection H as <- <-. split; [constructor | reflexivity]. }
  destruct Hs as [Hs Hn]. split; [|exact Hn].
  apply Sorted_StronglySorted; [apply updatedNoEarlier_trans|].
  apply (Sorted_weaken _ _ _ gs) with (3 := Hs) (2 := Hvalid).
  intros a b Ha Hb Hab. unfold updatedNoEarlier, byLastUpdatedDesc in *.
  destruct (getTime rt (GalleryInfo.lastUpdated a)) as [ta|]; [|congruence].
  destruct (getTime rt (GalleryInfo.lastUpdated b)) as [tb|]; [|congruence].
  exists ta, tb. repeat split; try reflexivity. lia.
Qed.

Lemma listGalleries_newest_first_witness :
  listGalleries datedRuntime (Some datedRoot) =
    json (GalleriesBody
            [ GalleryInfo.mk "trip" "Trip" 2 "2024-01-16T08:00:00.000Z";
              GalleryInfo.mk "solo" "solo" 1 "2024-01-15T10:30:00.000Z" ] 2) /\
  StronglySorted (updatedNoEarlier datedRuntime)
    [ GalleryInfo.mk "trip" "Trip" 2 "2024-01-16T08:00:00.000Z";
      GalleryInfo.mk "solo" "solo" 1 "2024-01-15T10:30:00.000Z" ].
Proof.
  split; [reflexivity|].
  apply (listGalleries_newest_first datedRuntime (Some datedRoot) _ 2 eq_refl).
  repeat constructor; simpl; discriminate.
Defined.

(** ** The view gate reads one record *)

(** X5. Whether the listing filtered to a gallery asks for a password is
    decided by the first record of the directory alone.  When that
    record has no view password, the asset list is returned for every
    password sent or none, whatever the other records carry; when it
    has one, a request without password is answered AuthRequired,
    whatever the other records carry. *)
Theorem list_gallery_first_record_decides (rt : Runtime) (root : list (string * Node))
    (g file : string) (files rest : Listing) (m : LivePhotoMetadata.t) (p : option string) :
  uniqueNames root -> In (g, Directory files) root ->
  g <> ".temp" -> g <> "" ->
  metadataFiles files = (file, File (Json m)) :: rest ->
  (Js.truthy (galleryViewPassword m) = false ->
   readableListing files ->
   listPhotos rt (Some root) (Some g) p =
   json (PhotosBody (galleryAssets rt g files) (List.length (galleryAssets rt g files)))) /\
  (Js.truthy (galleryViewPassword m) = true -> Js.truthy p = false ->
   AuthRequired (listPhotos rt (Some root) (Some g) p)).
Proof.
  intros Hu Hin Hn Hg Hm. unfold listPhotos.
  rewrite (truthy_Some g Hg), (orElse_Some g "" Hg).
  rewrite (galleryDirs_named root g files Hu Hin Hn).
  cbn [checkViewPassword readdirSync bindR]. rewrite Hm. cbn [readMetadata bindR].
  split.
  - intros Hv Hr. rewrite Hv. cbn [bindR collect readdirSync].
    rewrite (collectFiles_ok g files Hr). cbn [bindR catch500]. rewrite app_nil_r.
    reflexivity.
  - intros Hv Hp. rewrite Hv, Hp. reflexivity.
Qed.

Lemma list_gallery_first_record_decides_witness :
  status (listPhotos exampleRuntime (Some unevenRoot) (Some "open") None) = 200 /\
  AuthRequired (listPhotos exampleRuntime (Some unevenRoot) (Some "shut") None).
Proof.
  assert (Hu : uniqueNames unevenRoot).
  { unfold uniqueNames. simpl. repeat constructor; simpl; intuition discriminate. }
  split.
  - rewrite (proj1 (list_gallery_first_record_decides exampleRuntime unevenRoot
                      "open" "aaaa0001_metadata.json" _ _
                      (exampleRecord "aaaa0001" None None) None
                      Hu (or_introl eq_refl) ltac:(discriminate) ltac:(discriminate) eq_refl)
               eq_refl ltac:(repeat constructor; simpl; eauto)).
    reflexivity.
  - apply (proj2 (list_gallery_first_record_decides exampleRuntime unevenRoot
                    "shut" "cccc0003_metadata.json" _ _
                    (exampleRecord "cccc0003" (Some "ABC123") None) None
                    Hu (or_intror (or_introl eq_refl)) ltac:(discriminate) ltac:(discriminate)
                    eq_refl)); reflexivity.
Defined.

(** ** Deleting one asset, continued *)

Lemma remove_lookup_none {A} (k : string) (l : list (string * A)) :
  Fs.lookup k l = None -> Fs.remove k l = l.
Proof.
  unfold Fs.remove. induction l as [|[k' b] r IH]; simpl; [reflexivity|].
  destruct (String.eqb_spec k' k) as [->|Hne]; [discriminate|].
  intros H. simpl. rewrite (IH H). reflexivity.
Qed.

Lemma In_lookup_some {A} (k : string) (a : A) (l : list (string * A)) :
  In (k, a) l -> exists b, Fs.lookup k l = Some b.
Proof.
  induction l as [|[k' b] r IH]; simpl; [contradiction|].
  intros [E|Hin].
  - injection E as -> ->. rewrite String.eqb_refl. eauto.
  - destruct (k' =? k); [eauto | apply IH, Hin].
Qed.

Lemma unlinkIfExists_run (dir name : string) (root : list (string * Node))
    (files : Listing) :
  Fs.lookup dir root = Some (Directory files) -> onlyFiles files ->
  unlinkIfExists dir name (Some root) =
  (Ok tt, Some (Fs.upsert dir (Directory (Fs.remove name files)) root)).
Proof.
  intros Hd Hf. unfold unlinkIfExists, Fs.existsSync. run. rewrite Hd.
  destruct (Fs.lookup name files) as [[c|]|] eqn:E.
  - apply (unlinkSync_run dir name c root files Hd E).
  - exfalso. apply (Hf name). exact E.
  - unfold ret. rewrite (remove_lookup_none name files E).
    rewrite (upsert_same dir (Directory files) root Hd). reflexivity.
Qed.

(** The run of a delete-asset request that passes the password gate. *)
Lemma deletePhoto_run (rt : Runtime) (root : list (string * Node))
    (s pw dp dir file : string) (files : Listing) (m : LivePhotoMetadata.t) :
  findAsset s (galleryDirs root) = Ok (Some (dir, file, m)) ->
  Fs.lookup dir root = Some (Directory files) ->
  In (file, File (Json m)) files -> onlyFiles files ->
  photoFile m <> file -> videoFile m <> file ->
  galleryDeletePassword m = Some dp -> dp <> "" -> pw <> "" ->
  toUpperCase rt pw = toUpperCase rt dp ->
  deletePhoto rt s (Some pw) (Some root) =
  (json (DeletedBody (LivePhotoMetadata.id m)),
   Some (Fs.upsert dir
           (Directory (Fs.remove file
                         (Fs.remove (videoFile m) (Fs.remove (photoFile m) files))))
           root)).
Proof.
  intros Hfind Hd Hin Hf Hpf Hvf Hdp Hdpne Hpw Heq.
  unfold deletePhoto, handle.
  rewrite (truthy_Some pw Hpw), (orElse_Some pw "" Hpw). cbn [negb].
  unfold bind at 1. unfold gets at 1. unfold bind at 1. unfold reads at 1.
  rewrite Hfind, Hdp, (truthy_Some dp Hdpne), (orElse_Some dp "" Hdpne), Heq,
    String.eqb_refl. cbn [negb].
  unfold bind at 1. rewrite (unlinkIfExists_run dir (photoFile m) root files Hd Hf).
  unfold bind at 1.
  rewrite (unlinkIfExists_run dir (videoFile m) _ _ (lookup_upsert_eq _ _ _)
             (onlyFiles_remove _ _ Hf)).
  rewrite upsert_upsert. unfold bind at 1.
  destruct (In_lookup_some file _ files Hin) as [e He].
  assert (Hfile : exists c, Fs.lookup file
                    (Fs.remove (videoFile m) (Fs.remove (photoFile m) files))
                  = Some (File c)).
  { rewrite lookup_remove_ne by (intros E; apply Hvf; symmetry; exact E).
    rewrite lookup_remove_ne by (intros E; apply Hpf; symmetry; exact E).
    destruct e as [c|]; [eauto|]. exfalso. apply (Hf file). exact He. }
  destruct Hfile as [c Hc].
  rewrite (unlinkSync_run dir file c _ _ (lookup_upsert_eq _ _ _) Hc).
  rewrite upsert_upsert. reflexivity.
Qed.

(** X6. With a password that agrees with the delete password of the
    located asset after the platform's [toUpperCase], delete-asset
    answers 200 with the record's id and removes the record file and the
    photo and video files the record names; every other file of the
    directory and every other directory stay as they were.  The two
    file names of the record are names of entries of the gallery
    directory: single path segments. *)
Theorem deletePhoto_removes_asset (rt : Runtime) (root : list (string * Node))
    (s pw dp dir file : string) (files : Listing) (m : LivePhotoMetadata.t) :
  findAsset s (galleryDirs root) = Ok (Some (dir, file, m)) ->
  Fs.lookup dir root = Some (Directory files) ->
  In (file, File (Json m)) files -> onlyFiles files ->
  segment (photoFile m) = true -> segment (videoFile m) = true ->
  photoFile m <> file -> videoFile m <> file ->
  galleryDeletePassword m = Some dp -> dp <> "" -> pw <> "" ->
  toUpperCase rt pw = toUpperCase rt dp ->
  exists files',
    deletePhoto rt s (Some pw) (Some root) =
      (json (DeletedBody (LivePhotoMetadata.id m)),
       Some (Fs.upsert dir (Directory files') root)) /\
    Fs.lookup file files' = None /\
    Fs.lookup (photoFile m) files' = None /\
    Fs.lookup (videoFile m) files' = None /\
    (forall k, k <> file -> k <> photoFile m -> k <> videoFile m ->
               Fs.lookup k files' = Fs.lookup k files) /\
    (forall d, d <> dir ->
               Fs.lookup d (Fs.upsert dir (Directory files') root) = Fs.lookup d root).
Proof.
  intros Hfind Hd Hin Hf _ _ Hpf Hvf Hdp Hdpne Hpw Heq.
  exists (Fs.remove file (Fs.remove (videoFile m) (Fs.remove (photoFile m) files))).
  split; [|split; [|split; [|split; [|split]]]].
  - apply (deletePhoto_run rt root s pw dp dir file files m); assumption.
  - apply lookup_remove_eq.
  - rewrite lookup_remove_ne by exact Hpf.
    destruct (String.eqb_spec (photoFile m) (videoFile m)) as [E|Hne].
    + rewrite E. apply lookup_remove_eq.
    + rewrite lookup_remove_ne by exact Hne. apply lookup_remove_eq.
  - rewrite lookup_remove_ne by exact Hvf. apply lookup_remove_eq.
  - intros k H1 H2 H3. rewrite !lookup_remove_ne by assumption. reflexivity.
  - intros d Hne. apply lookup_upsert_ne. exact Hne.
Qed.

Lemma deletePhoto_removes_asset_witness :
  exists files',
    deletePhoto exampleRuntime "aaaa" (Some "SECRET") (Some mixedRoot) =
      (json (DeletedBody "aaaa0001"), Some (Fs.upsert "mix" (Directory files') mixedRoot)) /\
    Fs.lookup "aaaa0001_metadata.json" files' = None /\
    Fs.lookup "aaaa0001_photo.jpg" files' = None /\
    Fs.lookup "bbbb0002_metadata.json" files' =
      Some (File (Json (exampleRecord "bbbb0002" None (Some "Other")))).
Proof.
  assert (Hf : onlyFiles
                 [ ("aaaa0001_metadata.json",
                    File (Json (exampleRecord "aaaa0001" None (Some "Secret"))));
                   ("aaaa0001_photo.jpg", File (Media [x01]));
                   ("bbbb0002_metadata.json",
                    File (Json (exampleRecord "bbbb0002" None (Some "Other")))) ]).
  { intros k. cbn [Fs.lookup].
    repeat (match goal with |- context [if ?b then _ else _] => destruct b end;
            [discriminate|]).
    discriminate. }
  destruct (deletePhoto_removes_asset exampleRuntime mixedRoot "aaaa" "SECRET" "Secret" "mix"
              "aaaa0001_metadata.json" _ (exampleRecord "aaaa0001" None (Some "Secret"))
              eq_refl eq_refl (or_introl eq_refl) Hf eq_refl eq_refl
              ltac:(discriminate) ltac:(discriminate) eq_refl
              ltac:(discriminate) ltac:(discriminate) eq_refl)
    as [files' [H [H1 [H2 [_ [H4 _]]]]]].
  exists files'. split; [exact H|]. split; [exact H1|]. split; [exact H2|].
  rewrite H4 by discriminate. reflexivity.
Defined.

(** X7. delete-asset answers 200 only when the request carries a
    password that agrees, after the platform's [toUpperCase], with the
    delete password configured on the located asset; and whenever it
    answers 400, 403 or 404 the store is left exactly as it was. *)
Theorem deletePhoto_password_gate (rt : Runtime) (s : string)
    (password : option string) (store : Store) :
  (status (fst (deletePhoto rt s password store)) = 200 ->
   exists pw dir file m dp,
     password = Some pw /\
     findAsset s (galleryDirs (Fs.rootOf store)) = Ok (Some (dir, file, m)) /\
     galleryDeletePassword m = Some dp /\ dp <> "" /\
     toUpperCase rt pw = toUpperCase rt dp) /\
  (status (fst (deletePhoto rt s password store)) <> 200 ->
   status (fst (deletePhoto rt s password store)) <> 500 ->
   snd (deletePhoto rt s password store) = store).
Proof.
  unfold deletePhoto, handle.
  destruct (Js.truthy password) eqn:Hp; cbn [negb];
    [|split; [simpl; discriminate | reflexivity]].
  destruct (truthy_inv password Hp) as [pw [-> Hpw]]. rewrite (orElse_Some pw "" Hpw).
  cbv beta iota delta [bind gets reads ret].
  destruct store as [root|]; [|split; [simpl; discriminate | reflexivity]].
  cbn [Fs.rootOf].
  destruct (findAsset s (galleryDirs root)) as [[[[dir file] m]|]|e] eqn:Hfind;
    [| split; [simpl; discriminate | reflexivity]
     | split; [simpl; discriminate | intros _ H; exfalso; apply H; reflexivity]].
  destruct (Js.truthy (galleryDeletePassword m)) eqn:Hdp; cbn [negb];
    [|split; [simpl; discriminate | reflexivity]].
  destruct (truthy_inv _ Hdp) as [dp [Edp Hdpne]].
  rewrite Edp, (orElse_Some dp "" Hdpne).
  destruct (String.eqb_spec (toUpperCase rt pw) (toUpperCase rt dp)) as [Heq|Hne];
    cbn [negb]; [|split; [simpl; discriminate | reflexivity]].
  split.
  - intros _. exists pw, dir, file, m, dp. repeat split; assumption.
  - destruct (unlinkIfExists dir (photoFile m) (Some root)) as [[[]|e1] s1];
      [|intros _ H; exfalso; apply H; reflexivity].
    destruct (unlinkIfExists dir (videoFile m) s1) as [[[]|e2] s2];
      [|intros _ H; exfalso; apply H; reflexivity].
    destruct (Fs.unlinkSync dir file s2) as [[[]|e3] s3];
      [intros H; exfalso; apply H; reflexivity
      |intros _ H; exfalso; apply H; reflexivity].
Qed.

Lemma deletePhoto_password_gate_witness :
  status (fst (deletePhoto exampleRuntime "aaaa" (Some "wrong") (Some mixedRoot))) = 403 /\
  snd (deletePhoto exampleRuntime "aaaa" (Some "wrong") (Some mixedRoot)) = Some mixedRoot.
Proof.
  split; [reflexivity|].
  apply (proj2 (deletePhoto_password_gate exampleRuntime "aaaa" (Some "wrong") (Some mixedRoot)));
    simpl; discriminate.
Defined.

(** ** Deleting a gallery, continued *)

(** X9. For a gallery id that names one entry of the upload directory,
    delete-gallery answers 200 only when the request carries a password
    that agrees, after the platform's [toUpperCase], with the delete
    password of the first record of the directory; and whenever it
    answers 400, 403 or 404 the store is left exactly as it was. *)
Theorem deleteGallery_password_gate (rt : Runtime) (g : string)
    (password : option string) (store : Store) :
  segment g = true ->
  (status (fst (GalleryRouter.deleteGallery rt g password store)) = 200 ->
   exists pw files file m rest dp,
     password = Some pw /\
     Fs.readdir g store = Ok files /\
     metadataFiles files = (file, File (Json m)) :: rest /\
     galleryDeletePassword m = Some dp /\ dp <> "" /\
     toUpperCase rt pw = toUpperCase rt dp) /\
  (status (fst (GalleryRouter.deleteGallery rt g password store)) <> 200 ->
   status (fst (GalleryRouter.deleteGallery rt g password store)) <> 500 ->
   snd (GalleryRouter.deleteGallery rt g password store) = store).
Proof.
  intros _. unfold GalleryRouter.deleteGallery, handle.
  destruct (Js.truthy password) eqn:Hp; cbn [negb];
    [|split; [simpl; discriminate | reflexivity]].
  destruct (truthy_inv password Hp) as [pw [-> Hpw]]. rewrite (orElse_Some pw "" Hpw).
  unfold Fs.readdir.
  cbv beta iota delta [bind gets reads ret Fs.existsDir Fs.readdir].
  destruct (Fs.lookup g (Fs.rootOf store)) as [[|files]|] eqn:Hg;
    cbv beta iota delta [negb]; rewrite ?Hg; cbv beta iota;
    [ split; [simpl; discriminate | intros _ H; exfalso; apply H; reflexivity]
    | | split; [simpl; discriminate | reflexivity]].
  destruct (metadataFiles files) as [|[file e] rest] eqn:Hm;
    [split; [simpl; discriminate | reflexivity]|].
  destruct e as [[m|b]|]; cbv beta iota delta [readMetadata];
    [| split; [simpl; discriminate | intros _ H; exfalso; apply H; reflexivity]
     | split; [simpl; discriminate | intros _ H; exfalso; apply H; reflexivity]].
  destruct (Js.truthy (galleryDeletePassword m)) eqn:Hdp; cbn [negb];
    [|split; [simpl; discriminate | reflexivity]].
  destruct (truthy_inv _ Hdp) as [dp [Edp Hdpne]].
  rewrite Edp, (orElse_Some dp "" Hdpne).
  destruct (String.eqb_spec (toUpperCase rt pw) (toUpperCase rt dp)) as [Heq|Hne];
    cbn [negb]; [|split; [simpl; discriminate | reflexivity]].
  split.
  - intros _. exists pw, files, file, m, rest, dp. repeat split; assumption.
  - destruct (GalleryRouter.unlinkAll g (map fst files) store) as [[[]|e1] s1];
      [|intros _ H; exfalso; apply H; reflexivity].
    destruct (Fs.rmdirSync g s1) as [[[]|e2] s2];
      [intros H; exfalso; apply H; reflexivity
      |intros _ H; exfalso; apply H; reflexivity].
Qed.

Lemma deleteGallery_password_gate_witness :
  status (fst (GalleryRouter.deleteGallery exampleRuntime "mix" (Some "Other")
                 (Some mixedRoot))) = 403 /\
  snd (GalleryRouter.deleteGallery exampleRuntime "mix" (Some "Other") (Some mixedRoot))
    = Some mixedRoot.
Proof.
  split; [reflexivity|].
  apply (proj2 (deleteGallery_password_gate exampleRuntime "mix" (Some "Other")
                  (Some mixedRoot) eq_refl));
    simpl; discriminate.
Defined.

(** ** Deleting the same asset twice *)






Lemma In_remove {A} (k k' : string) (b : A) (l : list (string * A)) :
  In (k', b) (Fs.remove k l) -> k' <> k /\ In (k', b) l.
Proof.
  unfold Fs.remove. rewrite filter_In. intros [Hin H]. split; [|exact Hin].
  simpl in H. intros ->. rewrite String.eqb_refl in H. discriminate.
Qed.



(** ** Deleting a gallery: what is left behind *)

Lemma unlinkAll_prefix (g : string) (pre rest : Listing) (names : list string)
    (root : list (string * Node)) :
  uniqueNames (pre ++ rest)%list ->
  Forall (fun f => exists c, snd f = File c) pre ->
  Fs.lookup g root = Some (Directory (pre ++ rest)%list) ->
  GalleryRouter.unlinkAll g (map fst pre ++ names)%list (Some root) =
  GalleryRouter.unlinkAll g names (Some (Fs.upsert g (Directory rest) root)).
Proof.
  unfold uniqueNames. revert root.
  induction pre as [|[f e] pre' IH]; intros root Hu Hf Hg.
  - cbn [map app] in *. rewrite (upsert_same g (Directory rest) root Hg). reflexivity.
  - cbn [map app fst] in *.
    inversion Hu as [|? ? Hk Hu']; subst. inversion Hf as [|? ? [c Hc] Hf']; subst.
    simpl in Hc. subst e. cbn [GalleryRouter.unlinkAll].
    unfold bind at 1.
    rewrite (unlinkSync_run g f c root _ Hg)
      by (cbn [Fs.lookup]; rewrite String.eqb_refl; reflexivity).
    assert (Hrm : Fs.remove f ((f, File c) :: (pre' ++ rest)%list) = (pre' ++ rest)%list).
    { unfold Fs.remove. cbn [filter fst]. rewrite String.eqb_refl. cbn [negb].
      apply (remove_absent f _ Hk). }
    rewrite Hrm.
    rewrite (IH (Fs.upsert g (Directory (pre' ++ rest)%list) root) Hu' Hf'
               (lookup_upsert_eq _ _ _)).
    rewrite upsert_upsert. reflexivity.
Qed.

(** X10. delete-gallery is not atomic.  When the password is right and
    the directory holds a sub-directory, the files listed before it are
    unlinked, the answer is 500, and the gallery stays on disk with the
    sub-directory and the files listed after it. *)
Theorem deleteGallery_stops_at_subdirectory (rt : Runtime) (root : list (string * Node))
    (g pw dp file sub : string) (pre post mrest : Listing) (m : LivePhotoMetadata.t) :
  Fs.lookup g root = Some (Directory (pre ++ (sub, SubDir) :: post)%list) ->
  uniqueNames (pre ++ (sub, SubDir) :: post)%list ->
  Forall (fun f => exists c, snd f = File c) pre ->
  metadataFiles (pre ++ (sub, SubDir) :: post)%list = (file, File (Json m)) :: mrest ->
  galleryDeletePassword m = Some dp -> dp <> "" -> pw <> "" ->
  toUpperCase rt pw = toUpperCase rt dp ->
  InternalError (fst (GalleryRouter.deleteGallery rt g (Some pw) (Some root))) /\
  snd (GalleryRouter.deleteGallery rt g (Some pw) (Some root)) =
    Some (Fs.upsert g (Directory ((sub, SubDir) :: post)) root).
Proof.
  intros Hg Hu Hf Hm Hdp Hdpne Hpw Heq.
  unfold GalleryRouter.deleteGallery, InternalError.
  rewrite (truthy_Some pw Hpw), (orElse_Some pw "" Hpw).
  run. rewrite Hg. run. rewrite Hg. run. rewrite Hm. run.
  cbv beta iota delta [readMetadata].
  rewrite Hdp, (truthy_Some dp Hdpne), (orElse_Some dp "" Hdpne), Heq, String.eqb_refl.
  run. rewrite map_app. cbn [map fst].
  rewrite (unlinkAll_prefix g pre ((sub, SubDir) :: post) (sub :: map fst post) root Hu Hf Hg).
  cbn [GalleryRouter.unlinkAll]. unfold Fs.unlinkSync. run.
  rewrite lookup_upsert_eq. cbn [Fs.lookup]. rewrite String.eqb_refl.
  split; reflexivity.
Qed.

Lemma deleteGallery_stops_at_subdirectory_witness :
  InternalError
    (fst (GalleryRouter.deleteGallery exampleRuntime "nest" (Some "secret")
            (Some nestedRoot))) /\
  snd (GalleryRouter.deleteGallery exampleRuntime "nest" (Some "secret") (Some nestedRoot)) =
    Some [ ("nest", Directory
              [ ("thumbs", SubDir); ("aaaa0001_video.mov", File (Media [x02])) ]) ].
Proof.
  apply (deleteGallery_stops_at_subdirectory exampleRuntime nestedRoot "nest" "secret" "Secret"
           "aaaa0001_metadata.json" "thumbs"
           [ ("aaaa0001_metadata.json",
              File (Json (exampleRecord "aaaa0001" None (Some "Secret"))));
             ("aaaa0001_photo.jpg", File (Media [x01])) ]
           [ ("aaaa0001_video.mov", File (Media [x02])) ]
           [] (exampleRecord "aaaa0001" None (Some "Secret"))).
  - reflexivity.
  - unfold uniqueNames. simpl. repeat constructor; simpl; intuition discriminate.
  - repeat constructor; simpl; eauto.
  - reflexivity.
  - reflexivity.
  - discriminate.
  - discriminate.
  - reflexivity.
Defined.

(** ** After a gallery is deleted *)

Lemma deleteGallery_ok_inv (rt : Runtime) (g : string) (password : option string) (store : Store) :
  status (fst (GalleryRouter.deleteGallery rt g password store)) = 200 ->
  Js.truthy password = true /\
  snd (GalleryRouter.deleteGallery rt g password store) = Some (Fs.remove g (Fs.rootOf store)).
Proof.
  unfold GalleryRouter.deleteGallery.
  destruct (Js.truthy password) eqn:Hp; [|simpl; discriminate].
  intros H. split; [reflexivity|]. revert H.
  destruct (Fs.lookup g (Fs.rootOf store)) as [[|files]|] eqn:Hg;
    run_with Hg; try (simpl; discriminate).
  destruct (metadataFiles files) as [|[file e] rest]; run; [simpl; discriminate|].
  destruct (readMetadata e) as [m|]; run; [|simpl; discriminate].
  destruct (Js.truthy (galleryDeletePassword m)); run; [|simpl; discriminate].
  destruct (toUpperCase rt (Js.orElse password "") =?
            toUpperCase rt (Js.orElse (galleryDeletePassword m) ""));
    run; [|simpl; discriminate].
  destruct store as [root|]; [|discriminate]. cbn [Fs.rootOf] in Hg.
  destruct (GalleryRouter.unlinkAll g (map fst files) (Some root)) as [[[]|e'] s'] eqn:E;
    [|simpl; discriminate].
  destruct (unlinkAll_ok g _ root files s' Hg E) as [files' ->].
  unfold Fs.rmdirSync. run. rewrite lookup_upsert_eq.
  destruct files' as [|f r]; [|simpl; discriminate].
  intros _. cbn [fst snd]. rewrite remove_upsert by (rewrite Hg; discriminate).
  reflexivity.
Qed.

Lemma remove_not_in {A} (k : string) (l : list (string * A)) :
  ~ In k (map fst (Fs.remove k l)).
Proof.
  intros H. apply in_map_iff in H. destruct H as [[k' a] [E Hin]]. simpl in E. subst k'.
  apply In_remove in Hin. destruct Hin as [Hne _]. apply Hne. reflexivity.
Qed.

Lemma galleryInfo_id (rt : Runtime) (dir : string) (n : Node) (info : GalleryInfo.t) :
  galleryInfo rt dir n = Ok info -> GalleryInfo.id info = dir.
Proof.
  unfold galleryInfo. destruct (readdirSync n) as [files|]; cbn [bindR]; [|discriminate].
  destruct (metadataFiles files) as [|[f e] rest].
  - intros H. injection H as <-. reflexivity.
  - destruct (readMetadata e); cbn [bindR]; [|discriminate].
    destruct (latestUpload rt _ _); cbn [bindR]; [|discriminate].
    intros H. injection H as <-. reflexivity.
Qed.

Lemma galleryInfos_ids (rt : Runtime) (dirs : list (string * Node))
    (gs : list GalleryInfo.t) :
  galleryInfos rt dirs = Ok gs -> map GalleryInfo.id gs = map fst dirs.
Proof.
  revert gs. induction dirs as [|[d n] rest IH]; intros gs H.
  - injection H as <-. reflexivity.
  - cbn [galleryInfos] in H.
    destruct (galleryInfo rt d n) as [info|] eqn:E; cbn [bindR] in H; [|discriminate].
    destruct (galleryInfos rt rest) as [gs'|]; cbn [bindR] in H; [|discriminate].
    injection H as <-. cbn [map fst]. rewrite (galleryInfo_id rt d n info E), (IH gs' eq_refl).
    reflexivity.
Qed.

(** X11. After delete-gallery has answered 200, the gallery is gone for
    every later request on the store it left: the galleries listing has
    no entry with its id, the listing filtered to it is empty, and a
    second delete-gallery answers NotFound (404). *)
Theorem after_deleteGallery (rt : Runtime) (g : string) (password : option string)
    (store : Store) :
  g <> "" ->
  status (fst (GalleryRouter.deleteGallery rt g password store)) = 200 ->
  (forall gs n info,
      listGalleries rt (snd (GalleryRouter.deleteGallery rt g password store))
        = json (GalleriesBody gs n) ->
      In info gs -> GalleryInfo.id info <> g) /\
  (forall p,
      listPhotos rt (snd (GalleryRouter.deleteGallery rt g password store)) (Some g) p
        = json (PhotosBody [] 0)) /\
  NotFound (fst (GalleryRouter.deleteGallery rt g password
                   (snd (GalleryRouter.deleteGallery rt g password store)))).
Proof.
  intros Hg Hok. destruct (deleteGallery_ok_inv rt g password store Hok) as [Hp ->].
  set (root' := Fs.remove g (Fs.rootOf store)).
  assert (Hno : ~ In g (map fst root')) by apply remove_not_in.
  split; [|split].
  - intros gs n info H Hin Hid. unfold listGalleries in H.
    destruct (galleryInfos rt (galleryDirs root')) as [gs'|] eqn:E;
      cbn [bindR catch500] in H; [|discriminate].
    injection H as <- _. apply sortBy_In in Hin.
    apply (in_map GalleryInfo.id) in Hin. rewrite (galleryInfos_ids rt _ gs' E), Hid in Hin.
    apply Hno. apply in_map_iff in Hin. destruct Hin as [d [Hd Hin]].
    apply galleryDirs_In in Hin. destruct Hin as [Hin _].
    rewrite <- Hd. apply in_map. exact Hin.
  - intros p. unfold listPhotos.
    rewrite (truthy_Some g Hg), (orElse_Some g "" Hg).
    unfold galleryDirs. rewrite filter_comm, (filter_name_absent g root' Hno).
    reflexivity.
  - unfold GalleryRouter.deleteGallery, NotFound. rewrite Hp. run.
    unfold root'. rewrite lookup_remove_eq. reflexivity.
Qed.

Lemma after_deleteGallery_witness :
  listGalleries exampleRuntime
    (snd (GalleryRouter.deleteGallery exampleRuntime "mix" (Some "secret") (Some mixedRoot)))
    = json (GalleriesBody [] 0) /\
  listPhotos exampleRuntime
    (snd (GalleryRouter.deleteGallery exampleRuntime "mix" (Some "secret") (Some mixedRoot)))
    (Some "mix") None = json (PhotosBody [] 0) /\
  NotFound (fst (GalleryRouter.deleteGallery exampleRuntime "mix" (Some "secret")
                   (snd (GalleryRouter.deleteGallery exampleRuntime "mix" (Some "secret")
                           (Some mixedRoot))))).
Proof.
  destruct (after_deleteGallery exampleRuntime "mix" (Some "secret") (Some mixedRoot)
              ltac:(discriminate) eq_refl)
    as [_ [H2 H3]].
  split; [reflexivity|]. split; [apply H2 | exact H3].
Defined.

(** ** Uploading, continued *)

Lemma placePhoto_plain (rt : Runtime) (g a : string) (pf : MulterFile)
    (root : list (string * Node)) (G T : Listing) (cp : Content) :
  g <> tempDir -> twoDirs root g G T -> onlyFiles G ->
  Fs.lookup (filename pf) T = Some (File cp) ->
  Js.endsWith (Js.toLowerCase (a ++ "_photo" ++ extname (originalname pf))) ".heic" = false ->
  exists root',
    placePhoto rt g a pf (Some root) =
      (Ok (a ++ "_photo" ++ extname (originalname pf),
           N.of_nat (List.length (bytesOf rt cp))), Some root') /\
    twoDirs root' g (Fs.upsert (a ++ "_photo" ++ extname (originalname pf)) (File cp) G)
      (Fs.remove (filename pf) T).
Proof.
  intros Hg Hdirs HG Hp Hplain.
  destruct (rename_from_temp g root G T Hg Hdirs (filename pf)
              (a ++ "_photo" ++ extname (originalname pf)) cp Hp (HG _))
    as [root1 [E1 D1]].
  exists root1. split; [|exact D1].
  unfold placePhoto. runW. rewrite E1.
  rewrite (stat_gallery g root1 _ _ D1 rt _ cp (lookup_upsert_eq _ _ _)).
  unfold convertIfHeic. rewrite Hplain. reflexivity.
Qed.

Lemma buildMetadata_fields (rt : Runtime) (req : Request) (vf : MulterFile)
    (g name fn : string) (fs : N) (vn : string) (w : World) :
  exists m u t,
    buildMetadata rt req vf g name fn fs vn w = (Ok m, mkWorld (disk w) u t) /\
    photoFile m = fn /\ photoSize m = fs /\ videoFile m = vn /\
    videoSize m = size vf /\
    galleryId m = Some g /\ galleryName m = Some name /\
    galleryDeletePassword m = None /\ galleryViewPassword m = None /\
    (forall i, id (body req) = Some i -> i <> "" -> LivePhotoMetadata.id m = i).
Proof.
  unfold buildMetadata.
  destruct (Js.truthy (id (body req))) eqn:Hid,
           (Js.truthy (creation_date (body req)));
    eexists _, _, _; (split; [reflexivity|]); cbn;
    repeat (split; [reflexivity|]);
    intros i Hi Hne; rewrite Hi in *;
    try (rewrite (orElse_Some i "" Hne); reflexivity);
    rewrite (truthy_Some i Hne) in Hid; discriminate.
Qed.

Section UploadRunFull.

Variables (rt : Runtime) (req : Request) (w : World) (pf vf : MulterFile).
Variables (root : list (string * Node)) (T : Listing) (cv : Content).

Local Abbreviation g := (Js.orElse (gallery_id (body req)) "default").
Local Abbreviation a := (assetIdOf rt req w).
Local Abbreviation V := (assetIdOf rt req w ++ "_video" ++ extname (originalname vf)).
Local Abbreviation M := (assetIdOf rt req w ++ "_metadata.json").

Hypothesis Hphoto : photo req = Some pf.
Hypothesis Hvideo : video req = Some vf.
Hypothesis Hdisk : disk w = Some root.
Hypothesis Htemp : Fs.lookup tempDir root = Some (Directory T).
Hypothesis Hv : Fs.lookup (filename vf) T = Some (File cv).
Hypothesis Hpv : filename pf <> filename vf.
Hypothesis Hg : g <> tempDir.
Hypothesis Hgallery :
  forall n, Fs.lookup g root = Some n -> exists G, n = Directory G /\ onlyFiles G.

(** The run of an upload, with the answer and the record it writes. *)
Lemma upload_run (fn : string) (fs : N) (after : Listing -> Listing) :
  (forall root1 G0,
      twoDirs root1 g G0 T -> onlyFiles G0 ->
      (Fs.lookup g root = None -> G0 = []) ->
      (forall G, Fs.lookup g root = Some (Directory G) -> G0 = G) ->
      exists root2,
        placePhoto rt g a pf (Some root1) = (Ok (fn, fs), Some root2) /\
        twoDirs root2 g (after G0) (Fs.remove (filename pf) T)) ->
  (forall G0, onlyFiles G0 -> onlyFiles (after G0)) ->
  exists m G0 root' u t,
    upload rt req w =
      (statusJson 201
         (UploadedBody (LivePhotoMetadata.id m) g
            ("/files/" ++ g ++ "/" ++ fn)
            ("/files/" ++ g ++ "/" ++ V)
            ("/files/" ++ g ++ "/" ++ M)),
       mkWorld (Some root') u t) /\
    twoDirs root' g
      (Fs.upsert M (File (Json m)) (Fs.upsert V (File cv) (after G0)))
      (Fs.remove (filename vf) (Fs.remove (filename pf) T)) /\
    onlyFiles (Fs.upsert M (File (Json m)) (Fs.upsert V (File cv) (after G0))) /\
    (Fs.lookup g root = None -> G0 = []) /\
    (forall G, Fs.lookup g root = Some (Directory G) -> G0 = G) /\
    photoFile m = fn /\ photoSize m = fs /\ videoFile m = V /\
    videoSize m = size vf /\ galleryId m = Some g /\
    galleryDeletePassword m = None /\ galleryViewPassword m = None /\
    (forall i, id (body req) = Some i -> i <> "" -> LivePhotoMetadata.id m = i).
Proof.
  intros Hplace Hafter.
  destruct (deriveAssetId_run rt req w) as [n Ea].
  assert (Hdir : exists root1 G0,
             (if Fs.existsDir g (Some root) then ret tt else onDisk (Fs.mkdirSync g))
               (mkWorld (Some root) n (ticks w))
             = (Ok tt, mkWorld (Some root1) n (ticks w)) /\
             twoDirs root1 g G0 T /\ onlyFiles G0 /\
             (Fs.lookup g root = None -> G0 = []) /\
             (forall G, Fs.lookup g root = Some (Directory G) -> G0 = G)).
  { unfold Fs.existsDir, Fs.mkdirSync, onDisk, ret. cbn [Fs.rootOf disk uuids ticks].
    destruct (Fs.lookup g root) as [nd|] eqn:El.
    - destruct (Hgallery nd eq_refl) as [G0 [-> HG0]].
      exists root, G0.
      split; [reflexivity|]. split; [split; [exact El | exact Htemp]|].
      split; [exact HG0|]. split; [discriminate|].
      intros G E. injection E as <-. reflexivity.
    - exists (Fs.insert g (Directory []) root), [].
      split; [cbv beta iota; cbn [disk uuids ticks Fs.rootOf]; rewrite El; reflexivity|].
      split; [split|].
      + apply lookup_insert_eq, El.
      + rewrite lookup_insert_ne; [exact Htemp | intros E; apply Hg; symmetry; exact E].
      + split; [apply onlyFiles_nil|]. split; [reflexivity | discriminate]. }
  destruct Hdir as [root1 [G0 [Edir [D1 [HG0 [Hnone Hsome]]]]]].
  destruct (Hplace root1 G0 D1 HG0 Hnone Hsome) as [root2 [Ep D2]].
  assert (HGa : onlyFiles (after G0)) by (apply Hafter, HG0).
  assert (Hv' : Fs.lookup (filename vf) (Fs.remove (filename pf) T) = Some (File cv)).
  { rewrite lookup_remove_ne by (intros E; apply Hpv; symmetry; exact E). exact Hv. }
  destruct (rename_from_temp g root2 _ _ Hg D2 (filename vf) V cv Hv' (HGa V))
    as [root3 [Ev D3]].
  destruct (buildMetadata_fields rt req vf g
              (Js.orElse (gallery_name (body req)) "Default Gallery")
              fn fs V (mkWorld (Some root3) n (ticks w)))
    as [m [u [t [Em Hfields]]]].
  assert (HG3 : onlyFiles (Fs.upsert V (File cv) (after G0)))
    by (apply onlyFiles_upsert, HGa).
  destruct (write_gallery g root3 _ _ Hg D3 M (Json m) (HG3 M)) as [root4 [Ew D4]].
  exists m, G0, root4, u, t.
  split.
  { unfold upload. rewrite (files_both _ _ _ Hphoto Hvideo). unfold handle.
    unfold bind at 1. rewrite Ea. cbv beta iota.
    unfold bind at 1. unfold gets at 1. cbn [disk]. rewrite Hdisk. cbv beta iota.
    unfold bind at 1. rewrite Edir. cbv beta iota.
    unfold bind at 1. unfold onDisk at 1. cbn [disk uuids ticks]. rewrite Ep.
    cbv beta iota.
    unfold bind at 1. unfold onDisk at 1. unfold placeVideo.
    cbn [disk uuids ticks]. unfold bind at 1. rewrite Ev. unfold ret at 1.
    cbv beta iota.
    unfold bind at 1. cbn [fst snd]. rewrite Em. cbv beta iota.
    unfold bind at 1. unfold onDisk at 1. cbn [disk uuids ticks]. rewrite Ew.
    reflexivity. }
  split; [exact D4|]. split; [apply onlyFiles_upsert, HG3|].
  split; [exact Hnone|]. split; [exact Hsome|].
  destruct Hfields as [H1 [H2 [H3 [H4 [H5 [_ [H7 [H8 H9]]]]]]]].
  repeat (split; [assumption|]). exact H9.
Qed.

End UploadRunFull.

Lemma twoDirs_readFile (root : list (string * Node)) (g : string) (G T : Listing)
    (k : string) :
  twoDirs root g G T ->
  Fs.readFile g k (Some root) =
  match Fs.lookup k G with
  | Some (File c) => Ok c
  | Some SubDir => Throw EISDIR
  | None => Throw ENOENT
  end.
Proof. intros [H _]. unfold Fs.readFile. cbn [Fs.rootOf]. rewrite H. reflexivity. Qed.

Lemma twoDirs_temp_gone (root : list (string * Node)) (g : string) (G T : Listing)
    (k : string) :
  twoDirs root g G T -> Fs.lookup k T = None ->
  Fs.existsSync tempDir k (Some root) = false.
Proof.
  intros [_ H] Hk. unfold Fs.existsSync. cbn [Fs.rootOf]. rewrite H, Hk. reflexivity.
Qed.

(** X12. An upload of a photo that is not HEIC, with both files in
    .temp, a gallery directory that is absent or holds only files, and
    a gallery id and stored names that are single path segments,
    answers 201 and leaves in the gallery directory (created when
    absent) the record under [assetId_metadata.json] and the two media
    files under the names the record gives, with the uploaded bytes;
    both temp files are gone.  The record carries the gallery id, the
    size of the stored photo and the video size multer reported, and no
    password; the URLs of the answer are the ones the read endpoints
    derive for the record. *)
Theorem upload_stores_pair (rt : Runtime) (req : Request) (w : World)
    (pf vf : MulterFile) (root : list (string * Node)) (T : Listing)
    (cp cv : Content) :
  photo req = Some pf -> video req = Some vf ->
  disk w = Some root ->
  Fs.lookup tempDir root = Some (Directory T) ->
  Fs.lookup (filename pf) T = Some (File cp) ->
  Fs.lookup (filename vf) T = Some (File cv) ->
  filename pf <> filename vf ->
  galleryOf req <> tempDir ->
  (forall n, Fs.lookup (galleryOf req) root = Some n ->
             exists G, n = Directory G /\ onlyFiles G) ->
  plainUpload rt req w pf vf ->
  Js.endsWith (Js.toLowerCase (storedPhotoName rt req w pf)) ".heic" = false ->
  exists m root',
    fst (upload rt req w) =
      statusJson 201
        (UploadedBody (LivePhotoMetadata.id m) (galleryOf req)
           (fileUrl (galleryOf req) (storedPhotoName rt req w pf))
           (fileUrl (galleryOf req) (storedVideoName rt req w vf))
           (fileUrl (galleryOf req) (recordName rt req w))) /\
    disk (snd (upload rt req w)) = Some root' /\
    stored root' (galleryOf req) m /\
    Fs.readFile (galleryOf req) (recordName rt req w) (Some root') = Ok (Json m) /\
    photoFile m = storedPhotoName rt req w pf /\
    videoFile m = storedVideoName rt req w vf /\
    Fs.readFile (galleryOf req) (photoFile m) (Some root') = Ok cp /\
    Fs.readFile (galleryOf req) (videoFile m) (Some root') = Ok cv /\
    photoSize m = N.of_nat (List.length (bytesOf rt cp)) /\
    videoSize m = size vf /\
    galleryId m = Some (galleryOf req) /\
    galleryDeletePassword m = None /\ galleryViewPassword m = None /\
    photoUrl (withUrls (galleryOf req) m)
      = Some (fileUrl (galleryOf req) (storedPhotoName rt req w pf)) /\
    videoUrl (withUrls (galleryOf req) m)
      = Some (fileUrl (galleryOf req) (storedVideoName rt req w vf)) /\
    Fs.existsSync tempDir (filename pf) (Some root') = false /\
    Fs.existsSync tempDir (filename vf) (Some root') = false /\
    (forall i, id (body req) = Some i -> i <> "" -> LivePhotoMetadata.id m = i).
Proof.
  intros Hphoto Hvideo Hdisk Htemp Hp Hv Hpv Hg Hgallery _ Hplain.
  unfold galleryOf, storedPhotoName, storedVideoName, recordName, fileUrl in *.
  destruct (upload_run rt req w pf vf root T cv Hphoto Hvideo Hdisk Htemp Hv Hpv
              Hg Hgallery _ (N.of_nat (List.length (bytesOf rt cp)))
              (fun G0 => Fs.upsert _ (File cp) G0)
              (fun root1 G0 D1 HG0 _ _ =>
                 placePhoto_plain rt _ _ pf root1 G0 T cp Hg D1 HG0 Hp Hplain)
              (fun G0 HG0 => onlyFiles_upsert G0 _ cp HG0))
    as (m & G0 & root' & u & t & Hrun & D & _ & _ & _
        & Hm1 & Hm2 & Hm3 & Hm4 & Hm5 & Hm6 & Hm7 & Hid).
  exists m, root'. rewrite Hrun. cbn [fst snd disk].
  assert (HM : Fs.lookup (assetIdOf rt req w ++ "_metadata.json")
                 (Fs.upsert (assetIdOf rt req w ++ "_metadata.json") (File (Json m))
                    (Fs.upsert (assetIdOf rt req w ++ "_video" ++ extname (originalname vf))
                       (File cv)
                       (Fs.upsert (assetIdOf rt req w ++ "_photo" ++ extname (originalname pf))
                          (File cp) G0)))
               = Some (File (Json m))) by apply lookup_upsert_eq.
  split; [reflexivity|]. split; [reflexivity|].
  split.
  { eexists _, _. split; [apply lookup_In, (proj1 D)|]. split; [exact Hg|].
    split; [apply lookup_In, HM | apply endsWith_append]. }
  rewrite !(twoDirs_readFile _ _ _ _ _ D), Hm1, Hm3.
  split; [rewrite HM; reflexivity|].
  split; [reflexivity|]. split; [reflexivity|].
  split.
  { rewrite lookup_upsert_ne by (apply photo_not_metadata).
    rewrite lookup_upsert_ne by (apply photo_not_video).
    rewrite lookup_upsert_eq. reflexivity. }
  split.
  { rewrite lookup_upsert_ne by (apply video_not_metadata).
    rewrite lookup_upsert_eq. reflexivity. }
  split; [exact Hm2|]. split; [exact Hm4|]. split; [exact Hm5|].
  split; [exact Hm6|]. split; [exact Hm7|].
  split; [cbn [withUrls photoUrl]; rewrite Hm1; reflexivity|].
  split; [cbn [withUrls videoUrl]; rewrite Hm3; reflexivity|].
  split; [|split; [|exact Hid]].
  - apply (twoDirs_temp_gone _ _ _ _ _ D).
    rewrite lookup_remove_ne by exact Hpv. apply lookup_remove_eq.
  - apply (twoDirs_temp_gone _ _ _ _ _ D). apply lookup_remove_eq.
Qed.

Lemma upload_stores_pair_witness :
  exists m root',
    fst (upload exampleRuntime firstUpload twoUploadsWorld) =
      statusJson 201
        (UploadedBody "ABCDEFGH-0001" "trip" "/files/trip/ABCDEFGH_photo.jpg"
           "/files/trip/ABCDEFGH_video.mov" "/files/trip/ABCDEFGH_metadata.json") /\
    disk (snd (upload exampleRuntime firstUpload twoUploadsWorld)) = Some root' /\
    stored root' "trip" m /\
    photoFile m = "ABCDEFGH_photo.jpg" /\
    Fs.readFile "trip" "ABCDEFGH_photo.jpg" (Some root') = Ok (Media [x01; x02; x03]) /\
    Fs.readFile "trip" "ABCDEFGH_video.mov" (Some root') = Ok (Media [x04]) /\
    photoSize m = 3%N /\
    Fs.existsSync ".temp" "1a_photo.jpg" (Some root') = false.
Proof.
  destruct (upload_stores_pair exampleRuntime firstUpload twoUploadsWorld
              (mkFile "IMG_1.jpg" "1a_photo.jpg" 3) (mkFile "IMG_1.mov" "1b_video.mov" 1)
              _ _ (Media [x01; x02; x03]) (Media [x04])
              eq_refl eq_refl eq_refl eq_refl eq_refl eq_refl
              ltac:(discriminate) ltac:(discriminate)
              ltac:(intros n; discriminate)
              ltac:(repeat split; reflexivity) eq_refl)
    as (m & root' & E & Hd & Hs & Hr & Hp & Hv & Hrp & Hrv & Hps & _ & _ & _ & _ & _ & _
        & Ht & _ & Hid).
  exists m, root'.
  split; [rewrite E, (Hid "ABCDEFGH-0001" eq_refl) by discriminate; reflexivity|].
  split; [exact Hd|]. split; [exact Hs|]. split; [exact Hp|].
  split; [rewrite Hp in Hrp; exact Hrp|]. split; [rewrite Hv in Hrv; exact Hrv|].
  split; [exact Hps | exact Ht].
Defined.

(** ** The names an upload stores under *)

Lemma substring_split (s : string) (i : nat) :
  i <= String.length s ->
  s = substring 0 i s ++ substring i (String.length s - i) s.
Proof.
  revert i. induction s as [|c r IH]; intros [|i] H; simpl in *; try lia.
  - reflexivity.
  - rewrite substring_0_all. reflexivity.
  - rewrite <- (IH i) by lia. reflexivity.
Qed.

Lemma endsWith_split (s suffix : string) :
  Js.endsWith s suffix = true -> exists pre, s = pre ++ suffix.
Proof.
  unfold Js.endsWith. intros H. apply andb_prop in H. destruct H as [Hl He].
  apply Nat.leb_le in Hl. apply String.eqb_eq in He.
  exists (substring 0 (String.length s - String.length suffix) s).
  pose proof (substring_split s (String.length s - String.length suffix)
                ltac:(lia)) as Hs.
  replace (String.length s - (String.length s - String.length suffix))
    with (String.length suffix) in Hs by lia.
  rewrite He in Hs. exact Hs.
Qed.

Lemma append_nil_r (s : string) : s ++ "" = s.
Proof. induction s; simpl; congruence. Qed.

Lemma append_last_inj (x y : string) (c d : ascii) :
  x ++ String c "" = y ++ String d "" -> x = y /\ c = d.
Proof.
  revert y. induction x as [|a x IH]; intros [|b y] H; simpl in H.
  - injection H as ->. split; reflexivity.
  - injection H as _ H. destruct y; discriminate.
  - injection H as _ H. destruct x; discriminate.
  - injection H as -> H. destruct (IH y H) as [-> ->]. split; reflexivity.
Qed.

Lemma lastDot_after_dot (x y : string) : lastDot (x ++ String "." y) <> None.
Proof.
  rewrite lastDot_append. cbn [lastDot]. destruct (lastDot y); cbn; discriminate.
Qed.

(** A name is cut at its last dot in one way only. *)
Lemma last_dot_split (u v e f : string) :
  lastDot e = None -> lastDot f = None ->
  u ++ String "." e = v ++ String "." f -> u = v /\ e = f.
Proof.
  intros He Hf. revert v. induction u as [|a u IH]; intros [|b v] H; simpl in H.
  - injection H as ->. split; reflexivity.
  - injection H as _ H. exfalso. rewrite H in He.
    exact (lastDot_after_dot v f He).
  - injection H as _ H. exfalso. rewrite <- H in Hf.
    exact (lastDot_after_dot u e Hf).
  - injection H as -> H. destruct (IH v H) as [-> ->]. split; reflexivity.
Qed.

Lemma lastDot_suffix (s : string) (i : nat) :
  lastDot s = Some i ->
  exists e, substring i (String.length s - i) s = String "." e /\ lastDot e = None.
Proof.
  revert i. induction s as [|c r IH]; intros i H; [discriminate|].
  cbn [lastDot] in H. destruct (lastDot r) as [j|] eqn:Er.
  - injection H as <-. cbn [String.length substring Nat.sub]. apply (IH j eq_refl).
  - destruct (Ascii.eqb_spec c ".") as [->|]; [|discriminate].
    injection H as <-. exists r. cbn [String.length substring Nat.sub].
    rewrite substring_0_all. split; [reflexivity | exact Er].
Qed.

(** [path.extname] returns nothing, or a dot and a part without dot. *)
Lemma extname_shape (name : string) :
  extname name = "" \/ exists e, extname name = String "." e /\ lastDot e = None.
Proof.
  unfold extname. destruct (lastDot name) as [[|i]|] eqn:E; [left; reflexivity| |left; reflexivity].
  destruct (name =? ".."); [left; reflexivity|].
  right. apply (lastDot_suffix name (S i) E).
Qed.

Lemma tagged_name_not_record (x : string) (c : ascii) (name : string) :
  c <> "n"%char -> c <> "a"%char ->
  isMetadataFile ((x ++ String c "") ++ extname name) = false.
Proof.
  intros Hn Ha. unfold isMetadataFile.
  destruct (Js.endsWith _ _) eqn:E; [exfalso | reflexivity].
  apply endsWith_split in E. destruct E as [pre E].
  destruct (extname_shape name) as [Hx | [e [Hx He]]]; rewrite Hx in E.
  - rewrite append_nil_r in E.
    change "_metadata.json" with ("_metadata.jso" ++ String "n" "") in E.
    rewrite <- append_assoc in E. apply append_last_inj in E. apply Hn, E.
  - change "_metadata.json" with ("_metadata" ++ String "." "json") in E.
    rewrite <- (append_assoc pre) in E.
    apply last_dot_split in E; [|exact He | reflexivity].
    destruct E as [E _].
    change "_metadata" with ("_metadat" ++ String "a" "") in E.
    rewrite <- append_assoc in E. apply append_last_inj in E. apply Ha, E.
Qed.

Lemma photo_name_not_record (a name : string) :
  isMetadataFile (a ++ "_photo" ++ extname name) = false.
Proof.
  replace (a ++ "_photo" ++ extname name)
    with (((a ++ "_phot") ++ String "o" "") ++ extname name)
    by (rewrite !append_assoc; reflexivity).
  apply tagged_name_not_record; discriminate.
Qed.

Lemma video_name_not_record (a name : string) :
  isMetadataFile (a ++ "_video" ++ extname name) = false.
Proof.
  replace (a ++ "_video" ++ extname name)
    with (((a ++ "_vide") ++ String "o" "") ++ extname name)
    by (rewrite !append_assoc; reflexivity).
  apply tagged_name_not_record; discriminate.
Qed.

Lemma jpeg_name_not_record (a name : string) :
  isMetadataFile (replaceHeic (a ++ "_photo" ++ extname name)) = false.
Proof.
  unfold replaceHeic.
  destruct (Js.endsWith (Js.toLowerCase (a ++ "_photo" ++ extname name)) ".heic");
    [|apply photo_name_not_record].
  unfold isMetadataFile. destruct (Js.endsWith _ "_metadata.json") eqn:E; [|reflexivity].
  exfalso. apply endsWith_split in E. destruct E as [pre E].
  change ".jpg" with (".jp" ++ String "g" "") in E.
  change "_metadata.json" with ("_metadata.jso" ++ String "n" "") in E.
  rewrite <- !append_assoc in E. apply append_last_inj in E.
  destruct E as [_ E]. discriminate E.
Qed.

(** X19. No media file an upload stores is taken for a record by the
    read endpoints: the names of the stored photo, of the stored video
    and of the converted JPEG never end in [_metadata.json], whatever
    the client sends as id and as file names. *)
Theorem stored_media_are_not_records (rt : Runtime) (req : Request) (w : World)
    (pf vf : MulterFile) :
  isMetadataFile (storedPhotoName rt req w pf) = false /\
  isMetadataFile (storedVideoName rt req w vf) = false /\
  isMetadataFile (replaceHeic (storedPhotoName rt req w pf)) = false.
Proof.
  unfold storedPhotoName, storedVideoName.
  split; [apply photo_name_not_record|].
  split; [apply video_name_not_record | apply jpeg_name_not_record].
Qed.

Lemma metadataFiles_upsert_other (k : string) (e : Entry) (G : Listing) :
  isMetadataFile k = false -> metadataFiles (Fs.upsert k e G) = metadataFiles G.
Proof.
  intros Hk. unfold metadataFiles. apply filter_upsert_out. intros b. exact Hk.
Qed.

Lemma metadataFiles_remove_other (k : string) (G : Listing) :
  isMetadataFile k = false -> metadataFiles (Fs.remove k G) = metadataFiles G.
Proof.
  intros Hk. unfold metadataFiles, Fs.remove. induction G as [|[k' e'] r IH]; simpl.
  - reflexivity.
  - destruct (String.eqb_spec k' k) as [->|Hne]; simpl.
    + rewrite Hk. exact IH.
    + rewrite IH. reflexivity.
Qed.

(** A record file whose name comes before the names of all record files
    of the directory is listed as the first of them. *)
Lemma metadataFiles_upsert_first (k : string) (e : Entry) (G : Listing) :
  isMetadataFile k = true ->
  (forall k' e', In (k', e') (metadataFiles G) -> (k <? k') = true) ->
  metadataFiles (Fs.upsert k e G) = (k, e) :: metadataFiles G.
Proof.
  intros Hk Hlt.
  assert (Hnone : Fs.lookup k G = None).
  { destruct (Fs.lookup k G) as [x|] eqn:E; [|reflexivity].
    apply lookup_In in E.
    assert (Hin : In (k, x) (metadataFiles G))
      by (unfold metadataFiles; apply filter_In; split; [exact E | exact Hk]).
    apply Hlt in Hin. unfold String.ltb in Hin.
    assert (Hc : (k ?= k)%string = Eq).
    { clear. induction k as [|c r IH]; simpl; [reflexivity|].
      unfold Ascii.compare. rewrite N.compare_refl. exact IH. }
    rewrite Hc in Hin. discriminate. }
  unfold Fs.upsert. rewrite Hnone. clear Hnone.
  unfold metadataFiles in *. induction G as [|[k' e'] r IH]; simpl.
  - rewrite Hk. reflexivity.
  - destruct (k <? k') eqn:Ek; simpl.
    + rewrite Hk. reflexivity.
    + destruct (isMetadataFile k') eqn:Em.
      * exfalso. specialize (Hlt k' e'). simpl in Hlt. rewrite Em in Hlt.
        rewrite (Hlt (or_introl eq_refl)) in Ek. discriminate.
      * apply IH. intros k0 e0 Hin. apply (Hlt k0 e0). simpl. rewrite Em. exact Hin.
Qed.

(** For the lookup of a record file only the record files count. *)
Lemma lookup_metadataFiles (k : string) (G : Listing) :
  isMetadataFile k = true -> Fs.lookup k (metadataFiles G) = Fs.lookup k G.
Proof.
  intros Hk. unfold metadataFiles. induction G as [|[k' e'] r IH]; simpl; [reflexivity|].
  destruct (String.eqb_spec k' k) as [->|Hne].
  - rewrite Hk. simpl. rewrite String.eqb_refl. reflexivity.
  - destruct (isMetadataFile k'); simpl; [|exact IH].
    destruct (String.eqb_spec k' k); [contradiction | exact IH].
Qed.

(** Whatever the photo's extension and whatever the codec does, an
    upload whose files are in .temp succeeds and writes its record into
    a gallery directory whose other record files are the ones it had. *)
Lemma upload_any (rt : Runtime) (req : Request) (w : World)
    (pf vf : MulterFile) (root : list (string * Node)) (T : Listing)
    (cp cv : Content) :
  photo req = Some pf -> video req = Some vf ->
  disk w = Some root ->
  Fs.lookup tempDir root = Some (Directory T) ->
  Fs.lookup (filename pf) T = Some (File cp) ->
  Fs.lookup (filename vf) T = Some (File cv) ->
  filename pf <> filename vf ->
  galleryOf req <> tempDir ->
  (forall n, Fs.lookup (galleryOf req) root = Some n ->
             exists G, n = Directory G /\ onlyFiles G) ->
  exists m fn root' u t G1,
    upload rt req w =
      (statusJson 201
         (UploadedBody (LivePhotoMetadata.id m) (galleryOf req)
            (fileUrl (galleryOf req) fn)
            (fileUrl (galleryOf req) (storedVideoName rt req w vf))
            (fileUrl (galleryOf req) (recordName rt req w))),
       mkWorld (Some root') u t) /\
    twoDirs root' (galleryOf req)
      (Fs.upsert (recordName rt req w) (File (Json m)) G1)
      (Fs.remove (filename vf) (Fs.remove (filename pf) T)) /\
    onlyFiles (Fs.upsert (recordName rt req w) (File (Json m)) G1) /\
    photoFile m = fn /\
    (forall i, id (body req) = Some i -> i <> "" -> LivePhotoMetadata.id m = i) /\
    galleryViewPassword m = None /\
    metadataFiles G1 = metadataFiles (listingOf (galleryOf req) root).
Proof.
  unfold galleryOf, storedVideoName, recordName, fileUrl, listingOf.
  intros Hphoto Hvideo Hdisk Htemp Hp Hv Hpv Hg Hgallery.
  destruct (Js.endsWith
                (Js.toLowerCase
                   (assetIdOf rt req w ++ "_photo" ++ extname (originalname pf)))
                ".heic") eqn:Hheic;
      [destruct (heicConvert rt (bytesOf rt cp)) as [out|] eqn:Hconv|].
    - destruct (upload_run rt req w pf vf root T cv Hphoto Hvideo Hdisk Htemp Hv Hpv
                  Hg Hgallery _ _
                  (fun G0 =>
                     Fs.remove (assetIdOf rt req w ++ "_photo" ++ extname (originalname pf))
                       (Fs.upsert
                          (replaceHeic
                             (assetIdOf rt req w ++ "_photo" ++ extname (originalname pf)))
                          (File (Media out))
                          (Fs.upsert
                             (assetIdOf rt req w ++ "_photo" ++ extname (originalname pf))
                             (File cp) G0)))
                  (fun root1 G0 D1 HG0 _ _ =>
                     placePhoto_converted rt _ _ pf root1 G0 T cp Hg D1 HG0 Hp Hheic out Hconv)
                  (fun G0 HG0 =>
                     onlyFiles_remove _ _
                       (onlyFiles_upsert _ _ _ (onlyFiles_upsert G0 _ cp HG0))))
        as (m & G0 & root' & u & t & E & D & HO & Hn & Hs & Hm1 & _ & _ & _ & _ & _ & Hm7 & Hid).
      exists m. eexists. exists root', u, t. eexists.
      split; [exact E|]. split; [exact D|]. split; [exact HO|].
      split; [exact Hm1|]. split; [exact Hid|]. split; [exact Hm7|].
      rewrite (metadataFiles_upsert_other _ _ _ (video_name_not_record _ _)).
      rewrite (metadataFiles_remove_other _ _ (photo_name_not_record _ _)).
      rewrite (metadataFiles_upsert_other _ _ _ (jpeg_name_not_record _ _)).
      rewrite (metadataFiles_upsert_other _ _ _ (photo_name_not_record _ _)).
      f_equal.
      destruct (Fs.lookup (Js.orElse (gallery_id (body req)) "default") root)
        as [nd|] eqn:El; [|apply Hn; reflexivity].
      destruct (Hgallery nd eq_refl) as [G [-> _]]. apply Hs. reflexivity.
    - destruct (upload_run rt req w pf vf root T cv Hphoto Hvideo Hdisk Htemp Hv Hpv
                  Hg Hgallery _ _
                  (fun G0 =>
                     Fs.upsert (assetIdOf rt req w ++ "_photo" ++ extname (originalname pf))
                       (File cp) G0)
                  (fun root1 G0 D1 HG0 _ _ =>
                     placePhoto_kept rt _ _ pf root1 G0 T cp Hg D1 HG0 Hp Hheic Hconv)
                  (fun G0 HG0 => onlyFiles_upsert G0 _ cp HG0))
        as (m & G0 & root' & u & t & E & D & HO & Hn & Hs & Hm1 & _ & _ & _ & _ & _ & Hm7 & Hid).
      exists m. eexists. exists root', u, t. eexists.
      split; [exact E|]. split; [exact D|]. split; [exact HO|].
      split; [exact Hm1|]. split; [exact Hid|]. split; [exact Hm7|].
      rewrite (metadataFiles_upsert_other _ _ _ (video_name_not_record _ _)).
      rewrite (metadataFiles_upsert_other _ _ _ (photo_name_not_record _ _)).
      f_equal.
      destruct (Fs.lookup (Js.orElse (gallery_id (body req)) "default") root)
        as [nd|] eqn:El; [|apply Hn; reflexivity].
      destruct (Hgallery nd eq_refl) as [G [-> _]]. apply Hs. reflexivity.
    - destruct (upload_run rt req w pf vf root T cv Hphoto Hvideo Hdisk Htemp Hv Hpv
                  Hg Hgallery _ _
                  (fun G0 =>
                     Fs.upsert (assetIdOf rt req w ++ "_photo" ++ extname (originalname pf))
                       (File cp) G0)
                  (fun root1 G0 D1 HG0 _ _ =>
                     placePhoto_plain rt _ _ pf root1 G0 T cp Hg D1 HG0 Hp Hheic)
                  (fun G0 HG0 => onlyFiles_upsert G0 _ cp HG0))
        as (m & G0 & root' & u & t & E & D & HO & Hn & Hs & Hm1 & _ & _ & _ & _ & _ & Hm7 & Hid).
      exists m. eexists. exists root', u, t. eexists.
      split; [exact E|]. split; [exact D|]. split; [exact HO|].
      split; [exact Hm1|]. split; [exact Hid|]. split; [exact Hm7|].
      rewrite (metadataFiles_upsert_other _ _ _ (video_name_not_record _ _)).
      rewrite (metadataFiles_upsert_other _ _ _ (photo_name_not_record _ _)).
      f_equal.
      destruct (Fs.lookup (Js.orElse (gallery_id (body req)) "default") root)
        as [nd|] eqn:El; [|apply Hn; reflexivity].
      destruct (Hgallery nd eq_refl) as [G [-> _]]. apply Hs. reflexivity.
Qed.

Lemma assetIdOf_client (rt : Runtime) (req : Request) (w : World) (i : string) :
  id (body req) = Some i -> i <> "" -> assetIdOf rt req w = substring 0 8 i.
Proof.
  intros Hid Hi. unfold assetIdOf. rewrite Hid.
  destruct i as [|c r]; [congruence | reflexivity].
Qed.

(** X13. Two uploads to the same gallery whose client ids agree on
    their first 8 characters, these being ASCII and the stored names
    single path segments, both answer 201 and both write their record
    to the same file: after the second upload that file holds the
    second record in place of the first. *)
Theorem upload_same_prefix_replaces_record (rt : Runtime) (req1 req2 : Request)
    (w : World) (pf1 vf1 pf2 vf2 : MulterFile) (root : list (string * Node))
    (T : Listing) (cp1 cv1 cp2 cv2 : Content) (i1 i2 : string) :
  photo req1 = Some pf1 -> video req1 = Some vf1 ->
  photo req2 = Some pf2 -> video req2 = Some vf2 ->
  id (body req1) = Some i1 -> id (body req2) = Some i2 ->
  i1 <> "" -> i2 <> "" ->
  substring 0 8 i1 = substring 0 8 i2 ->
  galleryOf req1 = galleryOf req2 ->
  galleryOf req1 <> tempDir ->
  disk w = Some root ->
  Fs.lookup tempDir root = Some (Directory T) ->
  Fs.lookup (filename pf1) T = Some (File cp1) ->
  Fs.lookup (filename vf1) T = Some (File cv1) ->
  Fs.lookup (filename pf2) T = Some (File cp2) ->
  Fs.lookup (filename vf2) T = Some (File cv2) ->
  NoDup [filename pf1; filename vf1; filename pf2; filename vf2] ->
  (forall n, Fs.lookup (galleryOf req1) root = Some n ->
             exists G, n = Directory G /\ onlyFiles G) ->
  plainUpload rt req1 w pf1 vf1 ->
  plainUpload rt req2 (snd (upload rt req1 w)) pf2 vf2 ->
  exists m1 m2,
    status (fst (upload rt req1 w)) = 201 /\
    Fs.readFile (galleryOf req1) (recordName rt req1 w)
      (disk (snd (upload rt req1 w))) = Ok (Json m1) /\
    LivePhotoMetadata.id m1 = i1 /\
    status (fst (upload rt req2 (snd (upload rt req1 w)))) = 201 /\
    recordName rt req2 (snd (upload rt req1 w)) = recordName rt req1 w /\
    Fs.readFile (galleryOf req1) (recordName rt req1 w)
      (disk (snd (upload rt req2 (snd (upload rt req1 w))))) = Ok (Json m2) /\
    LivePhotoMetadata.id m2 = i2.
Proof.
  intros Hph1 Hvi1 Hph2 Hvi2 Hid1 Hid2 Hi1 Hi2 Hpre Hgal Hg Hdisk Htemp
         Hp1 Hv1 Hp2 Hv2 Hnd Hgallery _ _.
  assert (Hne : filename pf1 <> filename vf1 /\ filename pf2 <> filename vf2 /\
                filename pf2 <> filename pf1 /\ filename pf2 <> filename vf1 /\
                filename vf2 <> filename pf1 /\ filename vf2 <> filename vf1).
  { inversion Hnd as [|? ? Ha Hnd1]; subst.
    inversion Hnd1 as [|? ? Hb Hnd2]; subst.
    inversion Hnd2 as [|? ? Hc _]; subst.
    cbn [In] in Ha, Hb, Hc.
    repeat split; intros E; rewrite ?E in *; tauto. }
  destruct Hne as (N1 & N2 & N3 & N4 & N5 & N6).
  destruct (upload_any rt req1 w pf1 vf1 root T cp1 cv1
              Hph1 Hvi1 Hdisk Htemp Hp1 Hv1 N1 Hg Hgallery)
    as (m1 & fn1 & root1 & u1 & t1 & G1 & E1 & D1 & HO1 & _ & Hm1 & _ & _).
  pose proof (lookup_upsert_eq (recordName rt req1 w) (File (Json m1)) G1) as HM1.
  rewrite E1. cbn [fst snd disk status statusJson].
  assert (Hg2 : galleryOf req2 <> tempDir) by (rewrite <- Hgal; exact Hg).
  assert (Hgallery2 : forall n, Fs.lookup (galleryOf req2) root1 = Some n ->
                                exists G, n = Directory G /\ onlyFiles G).
  { intros n. rewrite <- Hgal, (proj1 D1). intros E. injection E as <-.
    eexists. split; [reflexivity | exact HO1]. }
  destruct (upload_any rt req2 (mkWorld (Some root1) u1 t1) pf2 vf2 root1
              (Fs.remove (filename vf1) (Fs.remove (filename pf1) T)) cp2 cv2
              Hph2 Hvi2 eq_refl (proj2 D1)
              ltac:(rewrite !lookup_remove_ne by assumption; exact Hp2)
              ltac:(rewrite !lookup_remove_ne by assumption; exact Hv2)
              N2 Hg2 Hgallery2)
    as (m2 & fn2 & root2 & u2 & t2 & G2 & E2 & D2 & HO2 & _ & Hm2 & _ & _).
  pose proof (lookup_upsert_eq (recordName rt req2 (mkWorld (Some root1) u1 t1))
                (File (Json m2)) G2) as HM2.
  rewrite E2. cbn [fst snd disk status statusJson].
  assert (Hrec : recordName rt req2 (mkWorld (Some root1) u1 t1) = recordName rt req1 w).
  { unfold recordName.
    rewrite (assetIdOf_client rt req1 w i1 Hid1 Hi1),
            (assetIdOf_client rt req2 _ i2 Hid2 Hi2), Hpre. reflexivity. }
  exists m1, m2.
  split; [reflexivity|].
  split; [rewrite (twoDirs_readFile _ _ _ _ _ D1), HM1; reflexivity|].
  split; [exact (Hm1 i1 Hid1 Hi1)|].
  split; [reflexivity|].
  split; [exact Hrec|].
  split; [|exact (Hm2 i2 Hid2 Hi2)].
  rewrite Hgal, <- Hrec, (twoDirs_readFile _ _ _ _ _ D2), HM2. reflexivity.
Qed.

Lemma upload_same_prefix_replaces_record_witness :
  exists m1 m2,
    status (fst (upload exampleRuntime firstUpload twoUploadsWorld)) = 201 /\
    Fs.readFile "trip" "ABCDEFGH_metadata.json"
      (disk (snd (upload exampleRuntime firstUpload twoUploadsWorld))) = Ok (Json m1) /\
    LivePhotoMetadata.id m1 = "ABCDEFGH-0001" /\
    status (fst (upload exampleRuntime secondUpload
                   (snd (upload exampleRuntime firstUpload twoUploadsWorld)))) = 201 /\
    Fs.readFile "trip" "ABCDEFGH_metadata.json"
      (disk (snd (upload exampleRuntime secondUpload
                    (snd (upload exampleRuntime firstUpload twoUploadsWorld)))))
      = Ok (Json m2) /\
    LivePhotoMetadata.id m2 = "ABCDEFGH-0002".
Proof.
  assert (Hnd : NoDup ["1a_photo.jpg"; "1b_video.mov"; "2a_photo.jpg"; "2b_video.mov"]).
  { repeat constructor; cbn [In]; intros H;
      repeat (destruct H as [H|H]; [discriminate|]); exact H. }
  destruct (upload_same_prefix_replaces_record exampleRuntime firstUpload secondUpload
              twoUploadsWorld
              (mkFile "IMG_1.jpg" "1a_photo.jpg" 3) (mkFile "IMG_1.mov" "1b_video.mov" 1)
              (mkFile "IMG_2.jpg" "2a_photo.jpg" 2) (mkFile "IMG_2.mov" "2b_video.mov" 1)
              _ _ (Media [x01; x02; x03]) (Media [x04]) (Media [x05; x06]) (Media [x07])
              "ABCDEFGH-0001" "ABCDEFGH-0002"
              eq_refl eq_refl eq_refl eq_refl eq_refl eq_refl
              ltac:(discriminate) ltac:(discriminate) eq_refl eq_refl
              ltac:(discriminate) eq_refl eq_refl eq_refl eq_refl eq_refl eq_refl
              Hnd ltac:(intros n; discriminate)
              ltac:(repeat split; reflexivity) ltac:(repeat split; reflexivity))
    as (m1 & m2 & H1 & H2 & H3 & H4 & _ & H6 & H7).
  exists m1, m2.
  split; [exact H1|]. split; [exact H2|]. split; [exact H3|].
  split; [exact H4|]. split; [exact H6 | exact H7].
Defined.

(** ** The gallery page *)

Lemma lastOf_truthy (values : list (option string)) (v : string) :
  lastOf values = Some v -> Js.truthy (Some v) = true.
Proof.
  unfold lastOf. destruct (find Js.truthy (rev values)) as [w|] eqn:E; [|discriminate].
  apply find_some in E. destruct E as [_ Hw]. intros ->. exact Hw.
Qed.

Lemma lastOf_cons (x : option string) (values : list (option string)) :
  lastOf (x :: values) =
  match lastOf values with
  | Some v => Some v
  | None => if Js.truthy x then x else None
  end.
Proof.
  unfold lastOf. cbn [rev]. rewrite find_app.
  destruct (find Js.truthy (rev values)) as [v|] eqn:E.
  - apply find_some in E. destruct E as [_ Hv].
    destruct v; [reflexivity | discriminate Hv].
  - cbn [find]. destruct (Js.truthy x); reflexivity.
Qed.

Lemma lastSet_truthy (field : LivePhotoMetadata.t -> option string) (files : Listing)
    (v : string) :
  lastSet field files = Some v -> Js.truthy (Some v) = true.
Proof. apply lastOf_truthy. Qed.

(** The loop of the page handler leaves the records in directory order,
    the last non-empty gallery name and the last non-empty view password. *)
Lemma scanFiles_ok (g : string) (files : Listing) :
  readableListing files ->
  forall s,
    GalleryPages.scanFiles g files s =
    Ok (GalleryPages.mkScan
          (GalleryPages.photos s ++ map (withUrls g) (recordsOf files))%list
          (Js.orElse (lastSet galleryName files) (GalleryPages.galleryName s))
          (match lastSet galleryViewPassword files with
           | Some v => Some v
           | None => GalleryPages.galleryViewPassword s
           end)).
Proof.
  induction files as [|[file e] rest IH]; intros Hr s.
  - destruct s. cbn. rewrite app_nil_r. reflexivity.
  - apply readableListing_cons in Hr. destruct Hr as [H1 H2].
    unfold lastSet. rewrite recordsOf_cons. cbn [GalleryPages.scanFiles].
    destruct (isMetadataFile file).
    + destruct (H1 eq_refl) as [m ->]. cbn [readMetadata bindR].
      rewrite (IH H2).
      cbn [GalleryPages.photos GalleryPages.galleryName GalleryPages.galleryViewPassword
           app map].
      rewrite !lastOf_cons. unfold lastSet.
      f_equal. f_equal.
      * rewrite <- app_assoc. reflexivity.
      * pose proof (lastOf_truthy (map galleryName (recordsOf rest))) as Ht.
        destruct (lastOf (map galleryName (recordsOf rest))) as [v|].
        -- specialize (Ht v eq_refl). destruct v; [discriminate Ht | reflexivity].
        -- destruct (galleryName m) as [[|c r]|]; reflexivity.
      * destruct (lastOf (map galleryViewPassword (recordsOf rest))) as [v|];
          [reflexivity|].
        destruct (galleryViewPassword m) as [[|c r]|]; reflexivity.
    + apply (IH H2).
Qed.

(** X14. For a gallery id that names one entry of the upload directory,
    the gallery page is gated by the last non-empty view password found
    in the directory, not by the first record: with no such password
    the gallery page is sent for any request; with one, a request
    without password gets the password page, one with a password that
    differs from it after both are upper-cased by the platform's
    [toUpperCase] gets the password page with the incorrect-password
    message, and one that then agrees gets the gallery page.  The page
    is titled with the last non-empty gallery name (the gallery id when
    there is none) and shows the same asset list as the listing
    endpoint, newest first. *)
Theorem viewGallery_gate (rt : Runtime) (root : list (string * Node))
    (g : string) (files : Listing) (p : option string) :
  segment g = true ->
  Fs.lookup g root = Some (Directory files) ->
  readableListing files ->
  GalleryPages.viewGallery rt (Some root) g p =
  GalleryPages.sendHtml
    match lastSet galleryViewPassword files with
    | None =>
        GalleryPages.renderGalleryPage (Js.orElse (lastSet galleryName files) g)
          (galleryAssets rt g files) p
    | Some pw =>
        if Js.truthy p then
          if toUpperCase rt (Js.orElse p "") =? toUpperCase rt pw
          then GalleryPages.renderGalleryPage (Js.orElse (lastSet galleryName files) g)
                 (galleryAssets rt g files) p
          else GalleryPages.renderPasswordPage g (Js.orElse (lastSet galleryName files) g)
                 "Incorrect password. Please try again."
        else GalleryPages.renderPasswordPage g (Js.orElse (lastSet galleryName files) g)
               "This gallery requires a password to view."
    end.
Proof.
  intros _ Hl Hr. unfold GalleryPages.viewGallery, Fs.existsDir, Fs.readdir.
  cbn [Fs.rootOf]. rewrite Hl. cbn [bindR]. rewrite (scanFiles_ok g files Hr).
  cbn [bindR GalleryPages.photos GalleryPages.galleryName
       GalleryPages.galleryViewPassword app].
  unfold galleryAssets.
  destruct (lastSet galleryViewPassword files) as [pw|] eqn:E; [|reflexivity].
  rewrite (lastSet_truthy _ _ _ E).
  destruct (Js.truthy p); [|reflexivity]. cbn [negb].
  assert (Hpw : Js.orElse (Some pw) "" = pw).
  { apply lastSet_truthy in E. destruct pw; [discriminate E | reflexivity]. }
  rewrite Hpw.
  destruct (toUpperCase rt (Js.orElse p "") =? toUpperCase rt pw); reflexivity.
Qed.

Lemma viewGallery_gate_witness :
  GalleryPages.viewGallery exampleRuntime (Some unevenRoot) "open" None =
    GalleryPages.sendHtml
      (GalleryPages.renderPasswordPage "open" "Trip"
         "This gallery requires a password to view.") /\
  GalleryPages.viewGallery exampleRuntime (Some unevenRoot) "open" (Some "abc123") =
    GalleryPages.sendHtml
      (GalleryPages.renderGalleryPage "Trip"
         (galleryAssets exampleRuntime "open"
            [ ("aaaa0001_metadata.json", File (Json (exampleRecord "aaaa0001" None None)));
              ("bbbb0002_metadata.json",
               File (Json (exampleRecord "bbbb0002" (Some "ABC123") None))) ])
         (Some "abc123")).
Proof.
  split.
  - rewrite (viewGallery_gate exampleRuntime unevenRoot "open" _ None eq_refl eq_refl
               ltac:(repeat constructor; simpl; eauto)).
    reflexivity.
  - rewrite (viewGallery_gate exampleRuntime unevenRoot "open" _ (Some "abc123")
               eq_refl eq_refl ltac:(repeat constructor; simpl; eauto)).
    reflexivity.
Defined.

(** X15. The page and the listing endpoint gate the same gallery on
    different records.  When the first record of the directory has no
    view password and a later one has, the listing filtered to the
    gallery returns the asset list to a request without password, and
    the page asks the same request for the password. *)
Theorem listing_open_page_closed (rt : Runtime) (root : list (string * Node))
    (g file : string) (files rest : Listing) (m : LivePhotoMetadata.t) (pw : string) :
  uniqueNames root -> In (g, Directory files) root ->
  g <> ".temp" -> g <> "" ->
  readableListing files ->
  metadataFiles files = (file, File (Json m)) :: rest ->
  Js.truthy (galleryViewPassword m) = false ->
  lastSet galleryViewPassword files = Some pw ->
  listPhotos rt (Some root) (Some g) None =
    json (PhotosBody (galleryAssets rt g files) (List.length (galleryAssets rt g files))) /\
  GalleryPages.viewGallery rt (Some root) g None =
    GalleryPages.sendHtml
      (GalleryPages.renderPasswordPage g (Js.orElse (lastSet galleryName files) g)
         "This gallery requires a password to view.").
Proof.
  intros Hu Hin Hn Hg Hr Hm Hv Hlast. split.
  - unfold listPhotos.
    rewrite (truthy_Some g Hg), (orElse_Some g "" Hg).
    rewrite (galleryDirs_named root g files Hu Hin Hn).
    cbn [checkViewPassword readdirSync bindR]. rewrite Hm. cbn [readMetadata bindR].
    rewrite Hv. cbn [bindR collect readdirSync].
    rewrite (collectFiles_ok g files Hr). cbn [bindR catch500]. rewrite app_nil_r.
    reflexivity.
  - unfold GalleryPages.viewGallery, Fs.existsDir, Fs.readdir. cbn [Fs.rootOf].
    rewrite (In_lookup g _ root Hu Hin). cbn [bindR].
    rewrite (scanFiles_ok g files Hr).
    cbn [bindR GalleryPages.photos GalleryPages.galleryName
         GalleryPages.galleryViewPassword app].
    rewrite Hlast, (lastSet_truthy _ _ _ Hlast). reflexivity.
Qed.

Lemma listing_open_page_closed_witness :
  status (listPhotos exampleRuntime (Some unevenRoot) (Some "open") None) = 200 /\
  GalleryPages.viewGallery exampleRuntime (Some unevenRoot) "open" None =
    GalleryPages.sendHtml
      (GalleryPages.renderPasswordPage "open" "Trip"
         "This gallery requires a password to view.").
Proof.
  assert (Hu : uniqueNames unevenRoot).
  { unfold uniqueNames. simpl. repeat constructor; simpl; intuition discriminate. }
  destruct (listing_open_page_closed exampleRuntime unevenRoot
              "open" "aaaa0001_metadata.json" _ _
              (exampleRecord "aaaa0001" None None) "ABC123"
              Hu (or_introl eq_refl) ltac:(discriminate) ltac:(discriminate)
              ltac:(repeat constructor; simpl; eauto) eq_refl eq_refl eq_refl)
    as [H1 H2].
  split; [rewrite H1; reflexivity | rewrite H2; reflexivity].
Defined.

(** X16. The page handler never answers NotFound, AuthRequired or
    Forbidden: every request is answered with a page and status 200, or
    with status 500 and the text of the catch block.  For a gallery id
    that names one entry of the upload directory, a gallery that does
    not exist is shown as a gallery page without photos, titled with
    the requested id, whatever password is sent. *)
Theorem viewGallery_never_rejects (rt : Runtime) (store : Store) (g : string)
    (p : option string) :
  (GalleryPages.pageStatus (GalleryPages.viewGallery rt store g p) = 200 \/
   GalleryPages.viewGallery rt store g p =
     GalleryPages.statusSend 500 "Error loading gallery") /\
  (segment g = true -> Fs.existsDir g store = false ->
   GalleryPages.viewGallery rt store g p =
     GalleryPages.sendHtml (GalleryPages.renderGalleryPage g [] p)).
Proof.
  unfold GalleryPages.viewGallery. split.
  - destruct (Fs.existsDir g store).
    + destruct (Fs.readdir g store) as [files|]; cbn [bindR]; [|right; reflexivity].
      destruct (GalleryPages.scanFiles g files _) as [s|]; cbn [bindR];
        [|right; reflexivity].
      cbn [GalleryPages.galleryViewPassword].
      left. destruct (Js.truthy (GalleryPages.galleryViewPassword s)); [|reflexivity].
      destruct (negb (Js.truthy p)); [reflexivity|].
      destruct (negb _); reflexivity.
    + left. reflexivity.
  - intros _ ->. reflexivity.
Qed.

Lemma viewGallery_never_rejects_witness :
  GalleryPages.viewGallery exampleRuntime (Some unevenRoot) "gone" (Some "x") =
    GalleryPages.sendHtml (GalleryPages.renderGalleryPage "gone" [] (Some "x")).
Proof.
  apply (proj2 (viewGallery_never_rejects exampleRuntime (Some unevenRoot) "gone" (Some "x")));
    reflexivity.
Defined.

(** ** Escaping *)

(** The five passes of [escapeHtml] amount to one pass that writes each
    character as its entity: the entities written by one pass hold no
    character a later pass replaces. *)
Lemma escapeHtml_cons (x : ascii) (rest : string) :
  GalleryPages.escapeHtml (String x rest) = entityOf x ++ GalleryPages.escapeHtml rest.
Proof.
  unfold GalleryPages.escapeHtml, entityOf.
  destruct (Ascii.eqb_spec x "&") as [->|H1]; [reflexivity|].
  destruct (Ascii.eqb_spec x "<") as [->|H2]; [reflexivity|].
  destruct (Ascii.eqb_spec x ">") as [->|H3]; [reflexivity|].
  destruct (Ascii.eqb_spec x "034") as [->|H4]; [reflexivity|].
  destruct (Ascii.eqb_spec x "'") as [->|H5]; [reflexivity|].
  cbn [GalleryPages.replaceAll].
  repeat match goal with
         | |- context [Ascii.eqb x ?c] =>
             destruct (Ascii.eqb_spec x c); [contradiction|]; cbn [GalleryPages.replaceAll]
         end.
  reflexivity.
Qed.

Lemma list_ascii_of_string_app (a b : string) :
  list_ascii_of_string (a ++ b) = (list_ascii_of_string a ++ list_ascii_of_string b)%list.
Proof. induction a as [|c r IH]; simpl; [reflexivity | rewrite IH; reflexivity]. Qed.

Lemma entityOf_no_markup (x c : ascii) :
  In c (list_ascii_of_string (entityOf x)) -> isMarkup c = false.
Proof.
  unfold entityOf, isMarkup.
  destruct (Ascii.eqb_spec x "&") as [->|H1];
    [cbn; intros H; repeat (destruct H as [<-|H]; [reflexivity|]); contradiction|].
  destruct (Ascii.eqb_spec x "<") as [->|H2];
    [cbn; intros H; repeat (destruct H as [<-|H]; [reflexivity|]); contradiction|].
  destruct (Ascii.eqb_spec x ">") as [->|H3];
    [cbn; intros H; repeat (destruct H as [<-|H]; [reflexivity|]); contradiction|].
  destruct (Ascii.eqb_spec x "034") as [->|H4];
    [cbn; intros H; repeat (destruct H as [<-|H]; [reflexivity|]); contradiction|].
  destruct (Ascii.eqb_spec x "'") as [->|H5];
    [cbn; intros H; repeat (destruct H as [<-|H]; [reflexivity|]); contradiction|].
  cbn. intros [<-|[]].
  repeat match goal with
         | |- context [Ascii.eqb x ?c] => destruct (Ascii.eqb_spec x c); [contradiction|]
         end.
  reflexivity.
Qed.

(** X17. The output of [escapeHtml] holds none of the characters
    [<], [>], the double quote and the single quote, whatever the text. *)
Theorem escapeHtml_no_markup (text : string) (c : ascii) :
  In c (list_ascii_of_string (GalleryPages.escapeHtml text)) -> isMarkup c = false.
Proof.
  induction text as [|x rest IH].
  - intros [].
  - rewrite escapeHtml_cons, list_ascii_of_string_app. intros H.
    apply in_app_or in H. destruct H as [H|H].
    + apply (entityOf_no_markup x c H).
    + apply IH, H.
Qed.

Lemma escapeHtml_no_markup_witness :
  GalleryPages.escapeHtml "<b>" = "&lt;b&gt;" /\ isMarkup "b" = false.
Proof.
  split; [reflexivity|].
  apply (escapeHtml_no_markup "<b>" "b"). cbn. right. right. right. right. left. reflexivity.
Defined.

(** X18. [escapeHtml] loses nothing: two texts with the same escaped
    form are the same text. *)
Theorem escapeHtml_injective (a b : string) :
  GalleryPages.escapeHtml a = GalleryPages.escapeHtml b -> a = b.
Proof.
  revert b. induction a as [|x ra IH]; intros [|y rb].
  - reflexivity.
  - rewrite escapeHtml_cons. unfold entityOf.
    repeat match goal with
           | |- context [Ascii.eqb y ?c] => destruct (Ascii.eqb y c)
           end; discriminate.
  - rewrite escapeHtml_cons. unfold entityOf.
    repeat match goal with
           | |- context [Ascii.eqb x ?c] => destruct (Ascii.eqb x c)
           end; discriminate.
  - rewrite !escapeHtml_cons. unfold entityOf.
    destruct (Ascii.eqb_spec x "&") as [->|X1];
      [|destruct (Ascii.eqb_spec x "<") as [->|X2];
        [|destruct (Ascii.eqb_spec x ">") as [->|X3];
          [|destruct (Ascii.eqb_spec x "034") as [->|X4];
            [|destruct (Ascii.eqb_spec x "'") as [->|X5]]]]];
    (destruct (Ascii.eqb_spec y "&") as [->|Y1];
      [|destruct (Ascii.eqb_spec y "<") as [->|Y2];
        [|destruct (Ascii.eqb_spec y ">") as [->|Y3];
          [|destruct (Ascii.eqb_spec y "034") as [->|Y4];
            [|destruct (Ascii.eqb_spec y "'") as [->|Y5]]]]]);
    cbn [append]; intros H; inversion H; subst;
      try congruence; f_equal; apply IH; assumption.
Qed.

Lemma escapeHtml_injective_witness :
  GalleryPages.escapeHtml "a&b" = "a&amp;b" /\ "a&b" = "a&b".
Proof.
  split; [reflexivity|].
  apply (escapeHtml_injective "a&b" "a&b"). reflexivity.
Defined.


(** ** Properties of the disk every upload keeps *)

Lemma replace_names {A} (k : string) (a : A) (l : list (string * A)) :
  map fst (Fs.replace k a l) = map fst l.
Proof.
  induction l as [|[k' b] r IH]; simpl; [reflexivity|].
  destruct (String.eqb_spec k' k) as [->|Hne]; simpl; [reflexivity|].
  rewrite IH. reflexivity.
Qed.

Lemma insert_names_in {A} (k x : string) (a : A) (l : list (string * A)) :
  In x (map fst (Fs.insert k a l)) -> x = k \/ In x (map fst l).
Proof.
  induction l as [|[k' b] r IH]; simpl.
  - intros [<-|[]]. left. reflexivity.
  - destruct (k <? k'); simpl.
    + intros [<-|H]; [left; reflexivity | right; exact H].
    + intros [<-|H]; [right; left; reflexivity|].
      destruct (IH H) as [->|H']; [left; reflexivity | right; right; exact H'].
Qed.

Lemma lookup_none_names {A} (k : string) (l : list (string * A)) :
  Fs.lookup k l = None -> ~ In k (map fst l).
Proof.
  induction l as [|[k' b] r IH]; simpl; [tauto|].
  destruct (String.eqb_spec k' k) as [->|Hne]; [discriminate|].
  intros H [E|Hin]; [contradiction | exact (IH H Hin)].
Qed.

Lemma insert_unique {A} (k : string) (a : A) (l : list (string * A)) :
  Fs.lookup k l = None -> uniqueNames l -> uniqueNames (Fs.insert k a l).
Proof.
  unfold uniqueNames. intros Hk. apply lookup_none_names in Hk. revert Hk.
  induction l as [|[k' b] r IH]; simpl; intros Hk Hu.
  - constructor; [intros [] | constructor].
  - inversion Hu as [|? ? Hk' Hu']; subst.
    destruct (k <? k'); simpl.
    + constructor; [exact Hk | exact Hu].
    + constructor.
      * intros Hin. apply insert_names_in in Hin.
        destruct Hin as [->|Hin]; [apply Hk; left; reflexivity | contradiction].
      * apply IH; [|exact Hu']. intros Hin. apply Hk. right. exact Hin.
Qed.

Lemma upsert_unique {A} (k : string) (a : A) (l : list (string * A)) :
  uniqueNames l -> uniqueNames (Fs.upsert k a l).
Proof.
  intros Hu. unfold Fs.upsert. destruct (Fs.lookup k l) eqn:E.
  - unfold uniqueNames. rewrite replace_names. exact Hu.
  - apply insert_unique; assumption.
Qed.

Section Preservation.

Context {S : Type} (I : S -> Prop).

Lemma preserves_ret {A} (a : A) : preserves I (ret a).
Proof. intros s H. exact H. Qed.

Lemma preserves_throw {A} (e : Exn) : preserves I (@throw S A e).
Proof. intros s H. exact H. Qed.

Lemma preserves_gets {A} (f : S -> A) : preserves I (gets f).
Proof. intros s H. exact H. Qed.

Lemma preserves_reads {A} (f : S -> Result A) : preserves I (reads f).
Proof. intros s H. exact H. Qed.

Lemma preserves_bind {A B} (c : IO S A) (k : A -> IO S B) :
  preserves I c -> (forall a, preserves I (k a)) -> preserves I (bind c k).
Proof.
  intros Hc Hk s H. unfold bind. specialize (Hc s H).
  destruct (c s) as [[a|e] s']; [apply Hk, Hc | exact Hc].
Qed.

Lemma preserves_tryCatch {A} (c : IO S A) (h : Exn -> IO S A) :
  preserves I c -> (forall e, preserves I (h e)) -> preserves I (tryCatch c h).
Proof.
  intros Hc Hh s H. unfold tryCatch. specialize (Hc s H).
  destruct (c s) as [[a|e] s']; [exact Hc | apply Hh, Hc].
Qed.

End Preservation.

Lemma preserves_onDisk {A} (I : Store -> Prop) (c : IO Store A) :
  preserves I c -> preserves (fun w => I (disk w)) (onDisk c).
Proof.
  intros Hc w H. unfold onDisk. specialize (Hc (disk w) H).
  destruct (c (disk w)) as [r d]. exact Hc.
Qed.

(** A property of the disk that no write to the gallery directory [g]
    or to .temp breaks is kept by every upload to [g]. *)
Section UploadInvariant.

Variables (g : string) (I : Store -> Prop).

Hypothesis Hset :
  forall dir files store,
    dir = g \/ dir = tempDir -> I store -> I (Fs.setDir dir files store).
Hypothesis Hmkdir :
  forall store,
    Fs.lookup g (Fs.rootOf store) = None -> I store ->
    I (Some (Fs.insert g (Directory []) (Fs.rootOf store))).

Lemma unlinkSync_preserves (dir file : string) :
  dir = g \/ dir = tempDir -> preserves I (Fs.unlinkSync dir file).
Proof.
  intros Hd store H. unfold Fs.unlinkSync.
  destruct (Fs.lookup dir (Fs.rootOf store)) as [[|files]|]; try exact H.
  destruct (Fs.lookup file files) as [[c|]|]; try exact H.
  apply Hset; assumption.
Qed.

Lemma writeFileSync_preserves (dir file : string) (c : Content) :
  dir = g \/ dir = tempDir -> preserves I (Fs.writeFileSync dir file c).
Proof.
  intros Hd store H. unfold Fs.writeFileSync.
  destruct (Fs.lookup dir (Fs.rootOf store)) as [[|files]|]; try exact H.
  destruct (Fs.lookup file files) as [[c'|]|]; try exact H;
    apply Hset; assumption.
Qed.

Lemma mkdirSync_preserves : preserves I (Fs.mkdirSync g).
Proof.
  intros store H. unfold Fs.mkdirSync.
  destruct (Fs.lookup g (Fs.rootOf store)) as [[|files]|] eqn:E; try exact H.
  apply Hmkdir; assumption.
Qed.

Lemma renameSync_preserves (from a to b : string) :
  from = g \/ from = tempDir -> to = g \/ to = tempDir ->
  preserves I (Fs.renameSync from a to b).
Proof.
  intros Hf Ht. unfold Fs.renameSync. apply preserves_bind; [apply preserves_reads|].
  intros c. destruct ((from =? to) && (a =? b))%bool; [apply preserves_ret|].
  apply preserves_bind; [apply writeFileSync_preserves, Ht|].
  intros _. apply unlinkSync_preserves, Hf.
Qed.

Lemma statSize_preserves (rt : Runtime) (dir file : string) :
  preserves I (statSize rt dir file).
Proof.
  unfold statSize. apply preserves_bind; [apply preserves_reads|].
  intros c. apply preserves_ret.
Qed.

Lemma placePhoto_preserves (rt : Runtime) (a : string) (pf : MulterFile) :
  preserves I (placePhoto rt g a pf).
Proof.
  unfold placePhoto.
  apply preserves_bind; [apply renameSync_preserves; auto|]. intros _.
  apply preserves_bind; [apply statSize_preserves|].
  intros fs. unfold convertIfHeic.
  destruct (Js.endsWith _ ".heic"); [|apply preserves_ret].
  apply preserves_tryCatch; [|intros e; apply preserves_ret].
  apply preserves_bind.
  { unfold convertHeicToJpeg. apply preserves_bind; [apply preserves_reads|].
    intros c. destruct (heicConvert rt (bytesOf rt c)); [|apply preserves_throw].
    apply preserves_bind; [apply writeFileSync_preserves; auto|]. intros _.
    apply preserves_bind; [apply unlinkSync_preserves; auto|]. intros _.
    apply preserves_ret. }
  intros jpeg. apply preserves_tryCatch; [|intros e; apply preserves_ret].
  apply preserves_bind; [apply statSize_preserves|].
  intros n. apply preserves_ret.
Qed.

Lemma placeVideo_preserves (a : string) (vf : MulterFile) :
  preserves I (placeVideo g a vf).
Proof.
  unfold placeVideo.
  apply preserves_bind; [apply renameSync_preserves; auto|]. intros _.
  apply preserves_ret.
Qed.

Lemma uuid_preserves (rt : Runtime) : preserves (fun w => I (disk w)) (uuid rt).
Proof. intros w H. exact H. Qed.

Lemma now_preserves (rt : Runtime) : preserves (fun w => I (disk w)) (now rt).
Proof. intros w H. exact H. Qed.

Lemma upload_invariant (rt : Runtime) (req : Request) (w : World) :
  galleryOf req = g -> I (disk w) -> I (disk (snd (upload rt req w))).
Proof.
  unfold galleryOf. intros Hg H.
  assert (Hh : forall c : IO World Response,
             preserves (fun w => I (disk w)) c -> I (disk (snd (handle c w)))).
  { intros c Hc. unfold handle. specialize (Hc w H).
    destruct (c w) as [[r|e] w']; exact Hc. }
  unfold upload. apply Hh. rewrite Hg.
  destruct (files req) as [[[pf|] [vf|]]|];
    [|apply preserves_ret..|intros w0 H0; exact H0].
  apply preserves_bind.
  { unfold deriveAssetId. destruct (Js.truthy _); [apply preserves_ret|].
    apply preserves_bind; [apply uuid_preserves|]. intros u. apply preserves_ret. }
  intros a. apply preserves_bind; [apply preserves_gets|]. intros present.
  apply preserves_bind.
  { destruct present; [apply preserves_ret|]. apply preserves_onDisk, mkdirSync_preserves. }
  intros _. apply preserves_bind; [apply preserves_onDisk, placePhoto_preserves|].
  intros final. apply preserves_bind; [apply preserves_onDisk, placeVideo_preserves|].
  intros vn. apply preserves_bind.
  { unfold buildMetadata.
    apply preserves_bind.
    { destruct (Js.truthy _); [apply preserves_ret | apply uuid_preserves]. }
    intros i. apply preserves_bind.
    { destruct (Js.truthy _); [apply preserves_ret | apply now_preserves]. }
    intros cd. apply preserves_bind; [apply now_preserves|].
    intros ud. apply preserves_ret. }
  intros m. apply preserves_bind;
    [apply preserves_onDisk, writeFileSync_preserves; auto|].
  intros _. apply preserves_ret.
Qed.

End UploadInvariant.

(** An upload, whatever its outcome, leaves the names of the upload
    directory unique. *)
Lemma upload_wellNamed (rt : Runtime) (req : Request) (w : World) :
  wellNamed (disk w) -> wellNamed (disk (snd (upload rt req w))).
Proof.
  apply (upload_invariant (galleryOf req) wellNamed); [| |reflexivity].
  - intros dir files store _. unfold wellNamed, Fs.setDir. cbn [Fs.rootOf].
    apply upsert_unique.
  - intros store E H. unfold wellNamed. cbn [Fs.rootOf].
    apply insert_unique; assumption.
Qed.

(** ** What an upload changes for the read endpoints *)

(** X20. A successful upload changes the record files of its gallery
    under one name: the record file named after the asset id holds the
    new record, and every other record file is there as before, with
    the content it had.  The record written carries no view password. *)
Theorem upload_changes_one_record (rt : Runtime) (req : Request) (w : World)
    (pf vf : MulterFile) (root : list (string * Node)) (T : Listing)
    (cp cv : Content) :
  photo req = Some pf -> video req = Some vf ->
  disk w = Some root ->
  Fs.lookup tempDir root = Some (Directory T) ->
  Fs.lookup (filename pf) T = Some (File cp) ->
  Fs.lookup (filename vf) T = Some (File cv) ->
  filename pf <> filename vf ->
  galleryOf req <> tempDir ->
  (forall n, Fs.lookup (galleryOf req) root = Some n ->
             exists G, n = Directory G /\ onlyFiles G) ->
  plainUpload rt req w pf vf ->
  exists m root',
    status (fst (upload rt req w)) = 201 /\
    disk (snd (upload rt req w)) = Some root' /\
    (forall k, isMetadataFile k = true ->
       Fs.lookup k (listingOf (galleryOf req) root') =
       if k =? recordName rt req w then Some (File (Json m))
       else Fs.lookup k (listingOf (galleryOf req) root)) /\
    galleryViewPassword m = None.
Proof.
  intros Hphoto Hvideo Hdisk Htemp Hp Hv Hpv Hg Hgallery _.
  destruct (upload_any rt req w pf vf root T cp cv
              Hphoto Hvideo Hdisk Htemp Hp Hv Hpv Hg Hgallery)
    as (m & fn & root' & u & t & G1 & E & D & _ & _ & _ & Hpw & Hmeta).
  exists m, root'. rewrite E. cbn [fst snd disk status statusJson].
  split; [reflexivity|]. split; [reflexivity|].
  split; [|exact Hpw].
  intros k Hk. unfold listingOf at 1. rewrite (proj1 D).
  destruct (String.eqb_spec k (recordName rt req w)) as [->|Hne].
  - apply lookup_upsert_eq.
  - rewrite lookup_upsert_ne by exact Hne.
    rewrite <- (lookup_metadataFiles k G1 Hk), Hmeta.
    apply lookup_metadataFiles, Hk.
Qed.

Lemma upload_changes_one_record_witness :
  exists m root',
    status (fst (upload exampleRuntime firstUpload busyWorld)) = 201 /\
    disk (snd (upload exampleRuntime firstUpload busyWorld)) = Some root' /\
    Fs.lookup "ABCDEFGH_metadata.json" (listingOf "trip" root') = Some (File (Json m)) /\
    Fs.lookup "abcd1111_metadata.json" (listingOf "trip" root')
      = Some (File (Json (exampleRecord "abcd1111" (Some "ABC123") None))).
Proof.
  assert (Hf : onlyFiles (listingOf "trip" exampleRoot)).
  { intros k. cbn.
    repeat (match goal with |- context [if ?b then _ else _] => destruct b end;
            [discriminate|]).
    discriminate. }
  destruct (upload_changes_one_record exampleRuntime firstUpload busyWorld
              (mkFile "IMG_1.jpg" "1a_photo.jpg" 3) (mkFile "IMG_1.mov" "1b_video.mov" 1)
              _ _ (Media [x01; x02; x03]) (Media [x04])
              eq_refl eq_refl eq_refl eq_refl eq_refl eq_refl
              ltac:(discriminate) ltac:(discriminate)
              ltac:(intros n E; injection E as <-; eexists; split; [reflexivity | exact Hf])
              ltac:(repeat split; reflexivity))
    as (m & root' & H1 & H2 & H3 & _).
  exists m, root'. split; [exact H1|]. split; [exact H2|].
  split.
  - exact (H3 "ABCDEFGH_metadata.json" eq_refl).
  - exact (H3 "abcd1111_metadata.json" eq_refl).
Defined.

Lemma galleryOf_nonempty (req : Request) : galleryOf req <> "".
Proof.
  unfold galleryOf. destruct (gallery_id (body req)) as [[|c r]|]; discriminate.
Qed.

(** X21. Upload, then list.  After a successful upload to a gallery
    that did not exist, the listing filtered to that gallery answers
    every request, with or without password, with exactly the uploaded
    asset, under the URLs the read endpoints derive. *)
Theorem upload_then_list (rt : Runtime) (req : Request) (w : World)
    (pf vf : MulterFile) (root : list (string * Node)) (T : Listing)
    (cp cv : Content) :
  photo req = Some pf -> video req = Some vf ->
  disk w = Some root -> uniqueNames root ->
  Fs.lookup tempDir root = Some (Directory T) ->
  Fs.lookup (filename pf) T = Some (File cp) ->
  Fs.lookup (filename vf) T = Some (File cv) ->
  filename pf <> filename vf ->
  galleryOf req <> tempDir ->
  Fs.lookup (galleryOf req) root = None ->
  plainUpload rt req w pf vf ->
  exists m,
    status (fst (upload rt req w)) = 201 /\
    Fs.readFile (galleryOf req) (recordName rt req w) (disk (snd (upload rt req w)))
      = Ok (Json m) /\
    forall p,
      listPhotos rt (disk (snd (upload rt req w))) (Some (galleryOf req)) p =
      json (PhotosBody [withUrls (galleryOf req) m] 1).
Proof.
  intros Hphoto Hvideo Hdisk Hu Htemp Hp Hv Hpv Hg Hfresh _.
  assert (Hgallery : forall n, Fs.lookup (galleryOf req) root = Some n ->
                               exists G, n = Directory G /\ onlyFiles G)
    by (intros n E; rewrite Hfresh in E; discriminate).
  pose proof (upload_wellNamed rt req w) as Hnames.
  rewrite Hdisk in Hnames. specialize (Hnames Hu).
  destruct (upload_any rt req w pf vf root T cp cv
              Hphoto Hvideo Hdisk Htemp Hp Hv Hpv Hg Hgallery)
    as (m & fn & root' & u & t & G1 & E & D & _ & _ & _ & Hpw & Hmeta).
  rewrite E in Hnames |- *. cbn [fst snd disk status statusJson] in Hnames |- *.
  unfold listingOf in Hmeta. rewrite Hfresh in Hmeta. cbn in Hmeta.
  assert (HM : metadataFiles (Fs.upsert (recordName rt req w) (File (Json m)) G1)
               = [(recordName rt req w, File (Json m))]).
  { rewrite metadataFiles_upsert_first, Hmeta; [reflexivity | apply endsWith_append|].
    rewrite Hmeta. intros k' e' []. }
  exists m. split; [reflexivity|].
  split; [rewrite (twoDirs_readFile _ _ _ _ _ D), lookup_upsert_eq; reflexivity|].
  intros p. unfold listPhotos.
  rewrite (truthy_Some _ (galleryOf_nonempty req)),
          (orElse_Some _ "" (galleryOf_nonempty req)).
  rewrite (galleryDirs_named root' _ _ Hnames (lookup_In _ _ _ (proj1 D)) Hg).
  cbn [checkViewPassword readdirSync bindR]. rewrite HM. cbn [readMetadata bindR].
  rewrite Hpw. cbn [Js.truthy bindR collect readdirSync].
  assert (Hr : readableListing (Fs.upsert (recordName rt req w) (File (Json m)) G1)).
  { unfold readableListing. rewrite HM. repeat constructor. exists m. reflexivity. }
  rewrite (collectFiles_ok _ _ Hr). unfold recordsOf. rewrite HM. reflexivity.
Qed.

Lemma upload_then_list_witness :
  exists m,
    status (fst (upload exampleRuntime firstUpload twoUploadsWorld)) = 201 /\
    LivePhotoMetadata.id m = "ABCDEFGH-0001" /\
    listPhotos exampleRuntime (disk (snd (upload exampleRuntime firstUpload twoUploadsWorld)))
      (Some "trip") None =
    json (PhotosBody [withUrls "trip" m] 1).
Proof.
  assert (Hu : uniqueNames
                 [ (".temp", Directory
                      [ ("1a_photo.jpg", File (Media [x01; x02; x03]));
                        ("1b_video.mov", File (Media [x04]));
                        ("2a_photo.jpg", File (Media [x05; x06]));
                        ("2b_video.mov", File (Media [x07])) ]) ]).
  { unfold uniqueNames. simpl. repeat constructor; simpl; intuition discriminate. }
  destruct (upload_then_list exampleRuntime firstUpload twoUploadsWorld
              (mkFile "IMG_1.jpg" "1a_photo.jpg" 3) (mkFile "IMG_1.mov" "1b_video.mov" 1)
              _ _ (Media [x01; x02; x03]) (Media [x04])
              eq_refl eq_refl eq_refl Hu eq_refl eq_refl eq_refl
              ltac:(discriminate) ltac:(discriminate) eq_refl
              ltac:(repeat split; reflexivity))
    as (m & H1 & H2 & H3).
  exists m. split; [exact H1|]. split; [|exact (H3 None)].
  vm_compute in H2. injection H2 as <-. reflexivity.
Defined.

(** X24. An upload can open a protected gallery.  In a gallery whose
    records all carry a view password, the listing filtered to the
    gallery answers AuthRequired to a request without password.  After
    a successful upload whose record file name comes, in the byte order
    of the directory listing, before the names of the record files
    already there, the new record is the first of the directory; it
    carries no view password, and the same listing answers every
    request, with or without password, with all assets of the gallery. *)
Theorem upload_opens_protected_gallery (rt : Runtime) (req : Request) (w : World)
    (pf vf : MulterFile) (root : list (string * Node)) (G T : Listing)
    (cp cv : Content) (pw : string) :
  photo req = Some pf -> video req = Some vf ->
  disk w = Some root -> uniqueNames root ->
  Fs.lookup tempDir root = Some (Directory T) ->
  Fs.lookup (filename pf) T = Some (File cp) ->
  Fs.lookup (filename vf) T = Some (File cv) ->
  filename pf <> filename vf ->
  galleryOf req <> tempDir ->
  Fs.lookup (galleryOf req) root = Some (Directory G) ->
  onlyFiles G -> viewProtected G pw ->
  (forall k e, In (k, e) (metadataFiles G) -> (recordName rt req w <? k) = true) ->
  plainUpload rt req w pf vf ->
  AuthRequired (listPhotos rt (Some root) (Some (galleryOf req)) None) /\
  exists m G',
    status (fst (upload rt req w)) = 201 /\
    Fs.readdir (galleryOf req) (disk (snd (upload rt req w))) = Ok G' /\
    recordsOf G' = m :: recordsOf G /\
    galleryViewPassword m = None /\
    forall p,
      listPhotos rt (disk (snd (upload rt req w))) (Some (galleryOf req)) p =
      json (PhotosBody (galleryAssets rt (galleryOf req) G')
              (List.length (galleryAssets rt (galleryOf req) G'))).
Proof.
  intros Hphoto Hvideo Hdisk Hu Htemp Hp Hv Hpv Hg HG HGf Hprot Hfirst _.
  assert (Hne : galleryOf req <> "") by apply galleryOf_nonempty.
  split.
  { destruct (viewProtected_first G pw Hprot) as [file [m0 [rest [Hm0 Hpw0]]]].
    destruct Hprot as [Hpwne _].
    unfold listPhotos. rewrite (truthy_Some _ Hne), (orElse_Some _ "" Hne).
    rewrite (galleryDirs_named root _ G Hu (lookup_In _ _ _ HG) Hg).
    cbn [checkViewPassword readdirSync bindR]. rewrite Hm0.
    cbn [readMetadata bindR]. rewrite Hpw0, (truthy_Some pw Hpwne). reflexivity. }
  assert (Hgallery : forall n, Fs.lookup (galleryOf req) root = Some n ->
                               exists G0, n = Directory G0 /\ onlyFiles G0).
  { intros n E. rewrite HG in E. injection E as <-. exists G.
    split; [reflexivity | exact HGf]. }
  pose proof (upload_wellNamed rt req w) as Hnames.
  rewrite Hdisk in Hnames. specialize (Hnames Hu).
  destruct (upload_any rt req w pf vf root T cp cv
              Hphoto Hvideo Hdisk Htemp Hp Hv Hpv Hg Hgallery)
    as (m & fn & root' & u & t & G1 & E & D & _ & _ & _ & Hpw & Hmeta).
  rewrite E in Hnames |- *. cbn [fst snd disk status statusJson] in Hnames |- *.
  unfold listingOf in Hmeta. rewrite HG in Hmeta.
  assert (HM : metadataFiles (Fs.upsert (recordName rt req w) (File (Json m)) G1)
               = (recordName rt req w, File (Json m)) :: metadataFiles G).
  { rewrite metadataFiles_upsert_first, Hmeta; [reflexivity | apply endsWith_append|].
    rewrite Hmeta. exact Hfirst. }
  assert (Hr : readableListing (Fs.upsert (recordName rt req w) (File (Json m)) G1)).
  { unfold readableListing. rewrite HM. constructor; [exists m; reflexivity|].
    exact (proj1 (proj2 Hprot)). }
  exists m, (Fs.upsert (recordName rt req w) (File (Json m)) G1).
  split; [reflexivity|].
  split; [unfold Fs.readdir; cbn [Fs.rootOf]; rewrite (proj1 D); reflexivity|].
  split; [unfold recordsOf; rewrite HM; reflexivity|].
  split; [exact Hpw|].
  intros p. unfold listPhotos. rewrite (truthy_Some _ Hne), (orElse_Some _ "" Hne).
  rewrite (galleryDirs_named root' _ _ Hnames (lookup_In _ _ _ (proj1 D)) Hg).
  cbn [checkViewPassword readdirSync bindR]. rewrite HM. cbn [readMetadata bindR].
  rewrite Hpw. cbn [Js.truthy bindR collect readdirSync].
  rewrite (collectFiles_ok _ _ Hr). cbn [bindR catch500]. rewrite app_nil_r.
  reflexivity.
Qed.

Lemma upload_opens_protected_gallery_witness :
  AuthRequired (listPhotos exampleRuntime (disk busyWorld) (Some "trip") None) /\
  status (fst (upload exampleRuntime firstUpload busyWorld)) = 201 /\
  status (listPhotos exampleRuntime (disk (snd (upload exampleRuntime firstUpload busyWorld)))
            (Some "trip") None) = 200.
Proof.
  assert (Hu : uniqueNames (Fs.rootOf (disk busyWorld))).
  { unfold uniqueNames. cbn. repeat constructor; simpl; intuition discriminate. }
  assert (Hf : onlyFiles (listingOf "trip" exampleRoot)).
  { intros k. cbn.
    repeat (match goal with |- context [if ?b then _ else _] => destruct b end;
            [discriminate|]).
    discriminate. }
  assert (Hv : viewProtected (listingOf "trip" exampleRoot) "ABC123").
  { split; [discriminate|]. split; [repeat constructor; simpl; eauto|].
    split; [discriminate|]. repeat constructor. }
  assert (Hlt : forall k e,
             In (k, e) (metadataFiles (listingOf "trip" exampleRoot)) ->
             ("ABCDEFGH_metadata.json" <? k) = true).
  { intros k e H. cbn in H.
    destruct H as [H|[H|[]]]; injection H as <- _; reflexivity. }
  destruct (upload_opens_protected_gallery exampleRuntime firstUpload busyWorld
              (mkFile "IMG_1.jpg" "1a_photo.jpg" 3) (mkFile "IMG_1.mov" "1b_video.mov" 1)
              _ (listingOf "trip" exampleRoot) _
              (Media [x01; x02; x03]) (Media [x04]) "ABC123"
              eq_refl eq_refl eq_refl Hu eq_refl eq_refl eq_refl
              ltac:(discriminate) ltac:(discriminate) eq_refl Hf Hv Hlt
              ltac:(repeat split; reflexivity))
    as (H0 & m & G' & H1 & _ & _ & _ & H2).
  split; [exact H0|]. split; [exact H1|]. exact (f_equal status (H2 None)).
Defined.

(** ** What an upload leaves alone *)

Lemma lookup_filter_in {A} (p : string * A -> bool) (k : string) (l : list (string * A)) :
  (forall b, p (k, b) = true) -> Fs.lookup k (filter p l) = Fs.lookup k l.
Proof.
  intros Hp. induction l as [|[k' b] r IH]; simpl; [reflexivity|].
  destruct (String.eqb_spec k' k) as [->|Hne].
  - rewrite Hp. simpl. rewrite String.eqb_refl. reflexivity.
  - destruct (p (k', b)); simpl; [|exact IH].
    destruct (String.eqb_spec k' k); [contradiction | exact IH].
Qed.

Lemma upload_elsewhere (rt : Runtime) (req : Request) (w : World) :
  elsewhere (galleryOf req) (disk (snd (upload rt req w)))
  = elsewhere (galleryOf req) (disk w).
Proof.
  apply (upload_invariant (galleryOf req)
           (fun s => elsewhere (galleryOf req) s = elsewhere (galleryOf req) (disk w)));
    [| |reflexivity|reflexivity].
  - intros dir files store Hd H. rewrite <- H. unfold elsewhere, Fs.setDir.
    cbn [Fs.rootOf]. apply filter_upsert_out. intros b. cbn [fst].
    destruct Hd as [-> | ->].
    + rewrite String.eqb_refl. reflexivity.
    + unfold tempDir. rewrite String.eqb_refl. apply andb_false_r.
  - intros store E H. rewrite <- H. unfold elsewhere. cbn [Fs.rootOf].
    replace (Fs.insert (galleryOf req) (Directory []) (Fs.rootOf store))
      with (Fs.upsert (galleryOf req) (Directory []) (Fs.rootOf store))
      by (unfold Fs.upsert; rewrite E; reflexivity).
    apply filter_upsert_out. intros b. cbn [fst]. rewrite String.eqb_refl. reflexivity.
Qed.

(** X22. An upload whose gallery id and stored names are single path
    segments touches, whatever its outcome, only its own gallery
    directory and .temp: the other entries of the upload directory are
    the same after it, in the same order, so every other gallery reads
    as before. *)
Theorem upload_touches_only_its_gallery (rt : Runtime) (req : Request) (w : World) :
  (forall pf vf, photo req = Some pf -> video req = Some vf ->
                 plainUpload rt req w pf vf) ->
  elsewhere (galleryOf req) (disk (snd (upload rt req w)))
    = elsewhere (galleryOf req) (disk w) /\
  forall d, d <> galleryOf req -> d <> ".temp" ->
    Fs.readdir d (disk (snd (upload rt req w))) = Fs.readdir d (disk w).
Proof.
  intros _. split; [apply upload_elsewhere|].
  intros d Hd Ht. unfold Fs.readdir.
  assert (Hp : forall b : Node,
             (fun e : string * Node =>
                negb (fst e =? galleryOf req) && negb (fst e =? ".temp")) (d, b) = true).
  { intros b. cbn [fst].
    destruct (String.eqb_spec d (galleryOf req)); [contradiction|].
    destruct (String.eqb_spec d ".temp"); [contradiction | reflexivity]. }
  rewrite <- (lookup_filter_in _ d (Fs.rootOf (disk (snd (upload rt req w)))) Hp).
  rewrite <- (lookup_filter_in _ d (Fs.rootOf (disk w)) Hp).
  pose proof (upload_elsewhere rt req w) as H. unfold elsewhere in H. rewrite H.
  reflexivity.
Qed.

Lemma upload_touches_only_its_gallery_witness :
  status (fst (upload exampleRuntime firstUpload busyWorld)) = 201 /\
  Fs.existsSync "trip" "ABCDEFGH_metadata.json"
    (disk (snd (upload exampleRuntime firstUpload busyWorld))) = true /\
  Fs.readdir "mix" (disk (snd (upload exampleRuntime firstUpload busyWorld)))
  = Fs.readdir "mix" (disk busyWorld).
Proof.
  split; [reflexivity|]. split; [reflexivity|].
  apply (proj2 (upload_touches_only_its_gallery exampleRuntime firstUpload busyWorld
                  ltac:(intros pf vf E1 E2; injection E1 as <-; injection E2 as <-;
                        repeat split; reflexivity)));
    discriminate.
Defined.

Lemma galleryDirs_elsewhere (store : Store) :
  galleryDirs (Fs.rootOf store) =
  filter (fun d => isDirectory (snd d)) (elsewhere ".temp" store).
Proof.
  unfold galleryDirs, elsewhere.
  induction (Fs.rootOf store) as [|[k n] r IH]; simpl; [reflexivity|].
  destruct (k =? ".temp"); simpl; [exact IH|].
  destruct (isDirectory n); rewrite IH; reflexivity.
Qed.

Lemma listPhotos_rootOf (rt : Runtime) (store : Store) (g p : option string) :
  listPhotos rt store g p = listPhotos rt (Some (Fs.rootOf store)) g p.
Proof.
  destruct store as [root|]; [reflexivity|].
  unfold listPhotos. cbn. destruct (Js.truthy g); reflexivity.
Qed.

Lemma getPhoto_rootOf (store : Store) (i : string) :
  getPhoto store i = getPhoto (Some (Fs.rootOf store)) i.
Proof. destruct store; reflexivity. Qed.

Lemma listGalleries_rootOf (rt : Runtime) (store : Store) :
  listGalleries rt store = listGalleries rt (Some (Fs.rootOf store)).
Proof. destruct store; reflexivity. Qed.

(** X23. An upload that names .temp as its gallery, its stored names
    being single path segments, is invisible to the API: whatever its
    outcome, the listing, the galleries listing and the lookup by id
    answer after it exactly as they did before. *)
Theorem upload_to_temp_is_not_listed (rt : Runtime) (req : Request) (w : World) :
  gallery_id (body req) = Some ".temp" ->
  (forall pf vf, photo req = Some pf -> video req = Some vf ->
                 plainUpload rt req w pf vf) ->
  (forall g p, listPhotos rt (disk (snd (upload rt req w))) g p
               = listPhotos rt (disk w) g p) /\
  listGalleries rt (disk (snd (upload rt req w))) = listGalleries rt (disk w) /\
  (forall i, getPhoto (disk (snd (upload rt req w))) i = getPhoto (disk w) i).
Proof.
  intros Hg _.
  assert (Hd : galleryDirs (Fs.rootOf (disk (snd (upload rt req w))))
               = galleryDirs (Fs.rootOf (disk w))).
  { rewrite !galleryDirs_elsewhere.
    pose proof (upload_elsewhere rt req w) as H.
    unfold galleryOf in H. rewrite Hg in H. cbn [Js.orElse Js.truthy] in H.
    rewrite H. reflexivity. }
  split; [|split].
  - intros g p. rewrite listPhotos_rootOf, (listPhotos_rootOf rt (disk w)).
    unfold listPhotos. rewrite Hd. reflexivity.
  - rewrite listGalleries_rootOf, (listGalleries_rootOf rt (disk w)).
    unfold listGalleries. rewrite Hd. reflexivity.
  - intros i. rewrite getPhoto_rootOf, (getPhoto_rootOf (disk w)).
    unfold getPhoto. rewrite Hd. reflexivity.
Qed.

Lemma upload_to_temp_is_not_listed_witness :
  status (fst (upload exampleRuntime uploadToTemp twoUploadsWorld)) = 201 /\
  Fs.existsSync ".temp" "ABCDEFGH_metadata.json"
    (disk (snd (upload exampleRuntime uploadToTemp twoUploadsWorld))) = true /\
  listPhotos exampleRuntime (disk (snd (upload exampleRuntime uploadToTemp twoUploadsWorld)))
    None None
  = json (PhotosBody [] 0).
Proof.
  split; [reflexivity|]. split; [reflexivity|].
  rewrite (proj1 (upload_to_temp_is_not_listed exampleRuntime uploadToTemp twoUploadsWorld
                    eq_refl
                    ltac:(intros pf vf E1 E2; injection E1 as <-; injection E2 as <-;
                          repeat split; reflexivity)) None None).
  reflexivity.
Defined.
